(** * Voy: registration ledger, OTP store and ride records

    A shallow embedding of [authentication/models.py] and
    [rides/models.py].  The Django ORM calls the two files make
    (querysets, [save], [full_clean], cascading deletes, uniqueness
    constraints) are modelled over an explicit database state; the wall
    clock and the random source are oracles carried by that state. *)

From Stdlib Require Import ZArith NArith List String Ascii Bool Lia Floats.
From Stdlib Require Import DecimalString.
Import ListNotations.

Set Warnings "-inexact-float".
Set Implicit Arguments.
Local Open Scope string_scope.
Local Open Scope list_scope.
Local Open Scope Z_scope.

(** ** Time

    A [datetime] is a number of microseconds since the epoch, which is the
    resolution of Python's [datetime]; a [timedelta] is a number of
    microseconds. *)

Definition datetime := Z.
Definition timedelta := Z.

Definition timedelta_minutes (minutes : Z) : timedelta := minutes * 60 * 1000000.

(** ** Strings: what [BaseUserManager.normalize_email] needs *)

(** Python's [str.isspace] on the ASCII range. *)
Definition isspace (c : ascii) : bool :=
  let n := nat_of_ascii c in
  ((9 <=? n) && (n <=? 13) || (28 <=? n) && (n <=? 32))%nat.

Fixpoint lstrip (s : string) : string :=
  match s with
  | String c t => if isspace c then lstrip t else s
  | EmptyString => EmptyString
  end.

Fixpoint rstrip (s : string) : string :=
  match s with
  | String c t =>
      match rstrip t with
      | EmptyString => if isspace c then EmptyString else String c EmptyString
      | t' => String c t'
      end
  | EmptyString => EmptyString
  end.

Definition strip (s : string) : string := rstrip (lstrip s).

Definition lower_ascii (c : ascii) : ascii :=
  let n := nat_of_ascii c in
  if ((65 <=? n) && (n <=? 90))%nat then ascii_of_nat (n + 32) else c.

Fixpoint lower (s : string) : string :=
  match s with
  | String c t => String (lower_ascii c) (lower t)
  | EmptyString => EmptyString
  end.

(** [s.rsplit("@", 1)] when it yields two parts: the split is at the last
    ["@"]. *)
Fixpoint rsplit_at (s : string) : option (string * string) :=
  match s with
  | EmptyString => None
  | String c t =>
      match rsplit_at t with
      | Some (name, domain) => Some (String c name, domain)
      | None => if Ascii.eqb c "@" then Some (EmptyString, t) else None
      end
  end.

(** [normalize_email]: the domain part is lowercased; an address without
    ["@"] is returned as it is (the unpacking raises and is ignored). *)
Definition normalize_email (email : string) : string :=
  match rsplit_at (strip email) with
  | Some (email_name, domain_part) =>
      (email_name ++ "@" ++ lower domain_part)%string
  | None => email
  end.

(** Truthiness of a Python string and of an optional one ([None] is
    falsy). *)
Definition truthy (s : string) : bool := negb (String.eqb s "").

Definition truthy_opt (s : option string) : bool :=
  match s with
  | Some v => truthy v
  | None => false
  end.

(** ** Exceptions *)

(** The messages of the [ValueError]s the manager raises.  The two
    "pending" messages carry the interpolated minutes and seconds. *)
Inductive message :=
| Email_is_required
| Email_verification_pending (minutes seconds : Z)
| Phone_verification_pending (minutes seconds : Z)
| An_account_with_this_email_already_exists
| Superuser_must_have_is_staff
| Superuser_must_have_is_superuser.

Inductive exn :=
| ValueError (msg : message)
| ValidationError
| IntegrityError.

Inductive result (A : Type) :=
| Ok (a : A)
| Raise (e : exn).

Arguments Ok {A} a.
Arguments Raise {A} e.

(** ** Data model *)

(** [authentication.User].  [pk] is [id]; [state_adding] is
    [_state.adding]; an image field is the name of its file, the empty
    string when there is none.  The profile columns that no method of the
    two files reads (names, gender, vehicle, counters, ...) are left out,
    as are the group and permission relations of [AbstractUser]. *)
Record User := {
  pk : option nat;
  state_adding : bool;
  password : string;
  is_superuser : bool;
  is_staff : bool;
  email : string;
  phone_number : string;
  created_at : datetime;
  updated_at : datetime;
  is_active : bool;
  email_verified : bool;
  phone_verified : bool;
  registration_pending : bool;
  drivers_license_image : string;
  is_driver_verified : bool;
  rating_as_driver : float;
  rating_as_passenger : float
}.

(** [OTP.TYPE_CHOICES]. *)
Inductive otp_kind := EMAIL | PASSWORD_RESET | PHONE.

Definition otp_kind_eqb (a b : otp_kind) : bool :=
  match a, b with
  | EMAIL, EMAIL | PASSWORD_RESET, PASSWORD_RESET | PHONE, PHONE => true
  | _, _ => false
  end.

(** [authentication.OTP]; [otp_user] is the nullable foreign key. *)
Record OTP := {
  otp_pk : option nat;
  otp_user : option nat;
  code : string;
  otp_created_at : datetime;
  is_verified : bool;
  attempts : Z;
  otp_type : otp_kind
}.

(** The models of [rides/models.py], reduced to their keys: the foreign
    keys decide what a cascading delete removes, and [score] is the only
    validated column a claim speaks of. *)
Record RideDetails := {
  ride_pk : option nat;
  driver : nat
}.

Record PassengerRideRequest := {
  request_pk : option nat;
  passenger : nat;
  request_ride : nat
}.

Record Rating := {
  rating_pk : option nat;
  rating_ride : nat;
  from_user : nat;
  to_user : nat;
  score : Z
}.

Record ChatMessage := {
  chat_pk : option nat;
  chat_ride : nat;
  sender : nat;
  receiver : nat
}.

(** Keyword arguments of [create_user] and [create_superuser]: one
    optional entry per column of the [User] record; [None] is an absent
    key.  Other keywords are not represented. *)
Record kwargs := {
  kw_is_superuser : option bool;
  kw_is_staff : option bool;
  kw_phone_number : option string;
  kw_is_active : option bool;
  kw_email_verified : option bool;
  kw_phone_verified : option bool;
  kw_registration_pending : option bool;
  kw_drivers_license_image : option string;
  kw_rating_as_driver : option float;
  kw_rating_as_passenger : option float
}.

Definition no_kwargs : kwargs :=
  {| kw_is_superuser := None; kw_is_staff := None; kw_phone_number := None;
     kw_is_active := None; kw_email_verified := None;
     kw_phone_verified := None; kw_registration_pending := None;
     kw_drivers_license_image := None; kw_rating_as_driver := None;
     kw_rating_as_passenger := None |}.

(** [dict.setdefault] on an entry. *)
Definition setdefault {A} (entry : option A) (value : A) : option A :=
  match entry with
  | Some v => Some v
  | None => Some value
  end.

Definition field_or {A} (entry : option A) (default : A) : A :=
  match entry with
  | Some v => v
  | None => default
  end.

(** ** The store, the clock and the random source *)

Inductive table := T_user | T_otp | T_ride | T_request | T_rating | T_chat.

Definition table_eqb (a b : table) : bool :=
  match a, b with
  | T_user, T_user | T_otp, T_otp | T_ride, T_ride
  | T_request, T_request | T_rating, T_rating | T_chat, T_chat => true
  | _, _ => false
  end.

(** [sequence] gives the next automatic primary key of each table;
    [ticks] are the delays before the coming readings of the clock and
    [dice] the coming draws of the random source. *)
Record World := {
  users : list User;
  otps : list OTP;
  rides : list RideDetails;
  requests : list PassengerRideRequest;
  ratings : list Rating;
  chats : list ChatMessage;
  sequence : table -> nat;
  clock : datetime;
  ticks : list N;
  dice : list nat
}.

Definition set_users (v : list User) (w : World) : World :=
  {| users := v; otps := otps w; rides := rides w; requests := requests w;
     ratings := ratings w; chats := chats w; sequence := sequence w;
     clock := clock w; ticks := ticks w; dice := dice w |}.

Definition set_otps (v : list OTP) (w : World) : World :=
  {| users := users w; otps := v; rides := rides w; requests := requests w;
     ratings := ratings w; chats := chats w; sequence := sequence w;
     clock := clock w; ticks := ticks w; dice := dice w |}.

Definition set_rides (v : list RideDetails) (w : World) : World :=
  {| users := users w; otps := otps w; rides := v; requests := requests w;
     ratings := ratings w; chats := chats w; sequence := sequence w;
     clock := clock w; ticks := ticks w; dice := dice w |}.

Definition set_requests (v : list PassengerRideRequest) (w : World) : World :=
  {| users := users w; otps := otps w; rides := rides w; requests := v;
     ratings := ratings w; chats := chats w; sequence := sequence w;
     clock := clock w; ticks := ticks w; dice := dice w |}.

Definition set_ratings (v : list Rating) (w : World) : World :=
  {| users := users w; otps := otps w; rides := rides w;
     requests := requests w; ratings := v; chats := chats w;
     sequence := sequence w; clock := clock w; ticks := ticks w;
     dice := dice w |}.

Definition set_chats (v : list ChatMessage) (w : World) : World :=
  {| users := users w; otps := otps w; rides := rides w;
     requests := requests w; ratings := ratings w; chats := v;
     sequence := sequence w; clock := clock w; ticks := ticks w;
     dice := dice w |}.

Definition set_sequence (v : table -> nat) (w : World) : World :=
  {| users := users w; otps := otps w; rides := rides w;
     requests := requests w; ratings := ratings w; chats := chats w;
     sequence := v; clock := clock w; ticks := ticks w; dice := dice w |}.

Definition set_time (now : datetime) (rest : list N) (w : World) : World :=
  {| users := users w; otps := otps w; rides := rides w;
     requests := requests w; ratings := ratings w; chats := chats w;
     sequence := sequence w; clock := now; ticks := rest; dice := dice w |}.

Definition set_dice (v : list nat) (w : World) : World :=
  {| users := users w; otps := otps w; rides := rides w;
     requests := requests w; ratings := ratings w; chats := chats w;
     sequence := sequence w; clock := clock w; ticks := ticks w; dice := v |}.

(** ** A state and exception monad

    Every query commits as it runs (Django's autocommit), so a raised
    exception keeps the state reached so far. *)

Definition M (A : Type) : Type := World -> World * result A.

Definition ret {A} (a : A) : M A := fun w => (w, Ok a).

Definition raise {A} (e : exn) : M A := fun w => (w, Raise e).

Definition bind {A B} (m : M A) (k : A -> M B) : M B :=
  fun w =>
    match m w with
    | (w', Ok a) => k a w'
    | (w', Raise e) => (w', Raise e)
    end.

Definition try_except {A} (m : M A) (handler : exn -> M A) : M A :=
  fun w =>
    match m w with
    | (w', Ok a) => (w', Ok a)
    | (w', Raise e) => handler e w'
    end.

Definition gets {A} (f : World -> A) : M A := fun w => (w, Ok (f w)).

Definition modify (f : World -> World) : M unit := fun w => (f w, Ok tt).

Declare Scope monad_scope.
Delimit Scope monad_scope with monad.
Notation "x <- c ;; k" := (bind c (fun x => k))
  (at level 61, c at next level, right associativity) : monad_scope.
Notation "c ;;; k" := (bind c (fun _ => k))
  (at level 61, right associativity) : monad_scope.
Local Open Scope monad_scope.

(** [timezone.now()]: time passes (by the next tick) and is read. *)
Definition timezone_now : M datetime :=
  fun w =>
    match ticks w with
    | d :: rest =>
        let now := clock w + Z.of_N d in (set_time now rest w, Ok now)
    | [] => (w, Ok (clock w))
    end.

(** [random.randint(lo, hi)], for [lo <= hi]. *)
Definition randint (lo hi : nat) : M nat :=
  fun w =>
    match dice w with
    | r :: rest => (set_dice rest w, Ok (lo + r mod (hi - lo + 1))%nat)
    | [] => (w, Ok lo)
    end.

(** The next value of a table's key sequence. *)
Definition nextval (t : table) : M nat :=
  fun w =>
    let n := sequence w t in
    (set_sequence (fun t' => if table_eqb t' t then S n else sequence w t') w,
     Ok n).

(** ** The ORM layer *)

(** What the framework contributes from outside the repository: the
    per-field validators that [full_clean] runs ([EmailValidator], blank
    and length checks), the password hasher, and whether [full_clean]
    also validates the [Meta.constraints] (it does from Django 4.1 on). *)
Record Django := {
  clean_fields : User -> bool;
  make_password : string -> string;
  full_clean_validates_constraints : bool
}.

Definition mem (i : nat) (l : list nat) : bool := existsb (Nat.eqb i) l.

Definition key_eqb (a b : option nat) : bool :=
  match a, b with
  | Some i, Some j => Nat.eqb i j
  | None, None => true
  | _, _ => false
  end.

Definition key_in (k : option nat) (l : list nat) : bool :=
  match k with
  | Some i => mem i l
  | None => false
  end.

Definition pks_of {R} (pk_of : R -> option nat) (rows : list R) : list nat :=
  flat_map (fun r => match pk_of r with Some i => [i] | None => [] end) rows.

Definition has_pk {R} (pk_of : R -> option nat) (i : nat) (rows : list R) : bool :=
  existsb (fun r => key_eqb (pk_of r) (Some i)) rows.

Definition exclude_pk {R} (pk_of : R -> option nat) (i : nat) (rows : list R) : list R :=
  filter (fun r => negb (key_eqb (pk_of r) (Some i))) rows.

Definition replace_pk {R} (pk_of : R -> option nat) (i : nat) (r' : R) (rows : list R) : list R :=
  map (fun r => if key_eqb (pk_of r) (Some i) then r' else r) rows.

(** A Q object is a row predicate; the empty [Q()] is [None] and is
    neutral for [|]. *)
Definition Q := option (User -> bool).

Definition Q_or (a b : Q) : Q :=
  match a, b with
  | Some f, Some g => Some (fun u => f u || g u)
  | Some f, None => Some f
  | None, _ => b
  end.

Definition Q_holds (q : Q) (u : User) : bool :=
  match q with
  | Some f => f u
  | None => true
  end.

(** [User.objects.filter(q).delete()]: the matching users go, and with
    them, through the [on_delete=CASCADE] foreign keys, their OTPs, the
    rides they drive, and every request, rating and chat message that
    points to a deleted user or a deleted ride.  The value is the first
    component of Django's result: the number of rows deleted, all tables
    together. *)
Definition QuerySet_delete (q : User -> bool) : M nat :=
  fun w =>
    let dead := pks_of pk (filter q (users w)) in
    let dead_ride r := mem (driver r) dead in
    let dead_rides := pks_of ride_pk (filter dead_ride (rides w)) in
    let users' := filter (fun u => negb (q u)) (users w) in
    let otps' := filter (fun o => negb (key_in (otp_user o) dead)) (otps w) in
    let rides' := filter (fun r => negb (dead_ride r)) (rides w) in
    let requests' :=
      filter (fun r => negb (mem (passenger r) dead
                             || mem (request_ride r) dead_rides))
             (requests w) in
    let ratings' :=
      filter (fun r => negb (mem (from_user r) dead || mem (to_user r) dead
                             || mem (rating_ride r) dead_rides))
             (ratings w) in
    let chats' :=
      filter (fun c => negb (mem (sender c) dead || mem (receiver c) dead
                             || mem (chat_ride c) dead_rides))
             (chats w) in
    let deleted :=
      ((List.length (users w) - List.length users')
       + (List.length (otps w) - List.length otps')
       + (List.length (rides w) - List.length rides')
       + (List.length (requests w) - List.length requests')
       + (List.length (ratings w) - List.length ratings')
       + (List.length (chats w) - List.length chats'))%nat in
    (set_chats chats'
       (set_ratings ratings'
          (set_requests requests'
             (set_rides rides' (set_otps otps' (set_users users' w))))),
     Ok deleted).

(** The uniqueness rules of the user table, checked on a row against the
    other rows: [email] is declared [unique=True]; [unique_verified_email]
    and [unique_verified_phone] are [UniqueConstraint]s whose condition is
    [registration_pending=False]. *)
Definition email_taken (others : list User) (u : User) : bool :=
  existsb (fun r => String.eqb (email r) (email u)) others.

Definition unique_verified_email_violated (others : list User) (u : User) : bool :=
  negb (registration_pending u)
  && existsb (fun r => negb (registration_pending r)
                       && String.eqb (email r) (email u)) others.

Definition unique_verified_phone_violated (others : list User) (u : User) : bool :=
  negb (registration_pending u)
  && existsb (fun r => negb (registration_pending r)
                       && String.eqb (phone_number r) (phone_number u)) others.

Definition user_row_accepted (others : list User) (u : User) : bool :=
  negb (email_taken others u)
  && negb (unique_verified_email_violated others u)
  && negb (unique_verified_phone_violated others u).

(** The rows a uniqueness validation compares an instance with: all of
    them while it is being added, the others once it is saved. *)
Definition validation_peers (u : User) (rows : list User) : list User :=
  match state_adding u, pk u with
  | false, Some i => exclude_pk pk i rows
  | _, _ => rows
  end.

(** [Model.full_clean]: field validators, then [validate_unique] (the
    unique [email], and the primary key of an instance being added), then
    [validate_constraints]; the errors are collected and raised as one
    [ValidationError]. *)
Definition full_clean (dj : Django) (u : User) : M unit :=
  rows <- gets users ;;
  let peers := validation_peers u rows in
  let pk_taken :=
    match state_adding u, pk u with
    | true, Some i => has_pk pk i rows
    | _, _ => false
    end in
  let constraint_errors :=
    full_clean_validates_constraints dj
    && (unique_verified_email_violated peers u
        || unique_verified_phone_violated peers u) in
  if negb (clean_fields dj u) || email_taken peers u || pk_taken
     || constraint_errors
  then raise ValidationError
  else ret tt.

Definition with_is_driver_verified (v : bool) (u : User) : User :=
  {| pk := pk u; state_adding := state_adding u; password := password u;
     is_superuser := is_superuser u; is_staff := is_staff u;
     email := email u; phone_number := phone_number u;
     created_at := created_at u; updated_at := updated_at u;
     is_active := is_active u; email_verified := email_verified u;
     phone_verified := phone_verified u;
     registration_pending := registration_pending u;
     drivers_license_image := drivers_license_image u;
     is_driver_verified := v;
     rating_as_driver := rating_as_driver u;
     rating_as_passenger := rating_as_passenger u |}.

Definition with_password (v : string) (u : User) : User :=
  {| pk := pk u; state_adding := state_adding u; password := v;
     is_superuser := is_superuser u; is_staff := is_staff u;
     email := email u; phone_number := phone_number u;
     created_at := created_at u; updated_at := updated_at u;
     is_active := is_active u; email_verified := email_verified u;
     phone_verified := phone_verified u;
     registration_pending := registration_pending u;
     drivers_license_image := drivers_license_image u;
     is_driver_verified := is_driver_verified u;
     rating_as_driver := rating_as_driver u;
     rating_as_passenger := rating_as_passenger u |}.

Definition with_rating_as_driver (v : float) (u : User) : User :=
  {| pk := pk u; state_adding := state_adding u; password := password u;
     is_superuser := is_superuser u; is_staff := is_staff u;
     email := email u; phone_number := phone_number u;
     created_at := created_at u; updated_at := updated_at u;
     is_active := is_active u; email_verified := email_verified u;
     phone_verified := phone_verified u;
     registration_pending := registration_pending u;
     drivers_license_image := drivers_license_image u;
     is_driver_verified := is_driver_verified u;
     rating_as_driver := v;
     rating_as_passenger := rating_as_passenger u |}.

Definition with_rating_as_passenger (v : float) (u : User) : User :=
  {| pk := pk u; state_adding := state_adding u; password := password u;
     is_superuser := is_superuser u; is_staff := is_staff u;
     email := email u; phone_number := phone_number u;
     created_at := created_at u; updated_at := updated_at u;
     is_active := is_active u; email_verified := email_verified u;
     phone_verified := phone_verified u;
     registration_pending := registration_pending u;
     drivers_license_image := drivers_license_image u;
     is_driver_verified := is_driver_verified u;
     rating_as_driver := rating_as_driver u;
     rating_as_passenger := v |}.

(** The instance after a write: the key it was stored under, the
    timestamps the write set, and [_state.adding] cleared. *)
Definition stored_as (key : nat) (created updated : datetime) (u : User) : User :=
  {| pk := Some key; state_adding := false; password := password u;
     is_superuser := is_superuser u; is_staff := is_staff u;
     email := email u; phone_number := phone_number u;
     created_at := created; updated_at := updated;
     is_active := is_active u; email_verified := email_verified u;
     phone_verified := phone_verified u;
     registration_pending := registration_pending u;
     drivers_license_image := drivers_license_image u;
     is_driver_verified := is_driver_verified u;
     rating_as_driver := rating_as_driver u;
     rating_as_passenger := rating_as_passenger u |}.

(** INSERT of a user: [created_at] ([auto_now_add]) and [updated_at]
    ([auto_now]) each read the clock; the key is the given one or the next
    of the sequence; the row is refused with [IntegrityError] when its key
    is taken or a uniqueness rule is broken. *)
Definition insert_user (u : User) : M User :=
  created <- timezone_now ;;
  updated <- timezone_now ;;
  key <- match pk u with
         | Some i => ret i
         | None => nextval T_user
         end ;;
  rows <- gets users ;;
  let row := stored_as key created updated u in
  if has_pk pk key rows || negb (user_row_accepted rows row)
  then raise IntegrityError
  else modify (set_users (rows ++ [row])) ;;; ret row.

(** [models.Model.save] on a user: with a key set, an UPDATE of that row
    is tried first ([updated_at] reads the clock) and an INSERT follows
    when no row has the key; without a key it is an INSERT. *)
Definition Model_save (u : User) : M User :=
  match pk u with
  | Some i =>
      updated <- timezone_now ;;
      rows <- gets users ;;
      if has_pk pk i rows then
        let row := stored_as i (created_at u) updated u in
        if user_row_accepted (exclude_pk pk i rows) row
        then modify (set_users (replace_pk pk i row rows)) ;;; ret row
        else raise IntegrityError
      else insert_user u
  | None => insert_user u
  end.

(** ** authentication/models.py *)

Definition kw_with_registration_pending (v : option bool) (k : kwargs) : kwargs :=
  {| kw_is_superuser := kw_is_superuser k; kw_is_staff := kw_is_staff k;
     kw_phone_number := kw_phone_number k; kw_is_active := kw_is_active k;
     kw_email_verified := kw_email_verified k;
     kw_phone_verified := kw_phone_verified k;
     kw_registration_pending := v;
     kw_drivers_license_image := kw_drivers_license_image k;
     kw_rating_as_driver := kw_rating_as_driver k;
     kw_rating_as_passenger := kw_rating_as_passenger k |}.

Definition kw_with_is_active (v : option bool) (k : kwargs) : kwargs :=
  {| kw_is_superuser := kw_is_superuser k; kw_is_staff := kw_is_staff k;
     kw_phone_number := kw_phone_number k; kw_is_active := v;
     kw_email_verified := kw_email_verified k;
     kw_phone_verified := kw_phone_verified k;
     kw_registration_pending := kw_registration_pending k;
     kw_drivers_license_image := kw_drivers_license_image k;
     kw_rating_as_driver := kw_rating_as_driver k;
     kw_rating_as_passenger := kw_rating_as_passenger k |}.

Definition kw_with_is_staff (v : option bool) (k : kwargs) : kwargs :=
  {| kw_is_superuser := kw_is_superuser k; kw_is_staff := v;
     kw_phone_number := kw_phone_number k; kw_is_active := kw_is_active k;
     kw_email_verified := kw_email_verified k;
     kw_phone_verified := kw_phone_verified k;
     kw_registration_pending := kw_registration_pending k;
     kw_drivers_license_image := kw_drivers_license_image k;
     kw_rating_as_driver := kw_rating_as_driver k;
     kw_rating_as_passenger := kw_rating_as_passenger k |}.

Definition kw_with_is_superuser (v : option bool) (k : kwargs) : kwargs :=
  {| kw_is_superuser := v; kw_is_staff := kw_is_staff k;
     kw_phone_number := kw_phone_number k; kw_is_active := kw_is_active k;
     kw_email_verified := kw_email_verified k;
     kw_phone_verified := kw_phone_verified k;
     kw_registration_pending := kw_registration_pending k;
     kw_drivers_license_image := kw_drivers_license_image k;
     kw_rating_as_driver := kw_rating_as_driver k;
     kw_rating_as_passenger := kw_rating_as_passenger k |}.

(** [self.model(email=email, **extra_fields)]: the columns take the
    keyword arguments, or the defaults the model declares. *)
Definition Model_init (email_value : string) (extra_fields : kwargs) : User :=
  {| pk := None; state_adding := true; password := "";
     is_superuser := field_or (kw_is_superuser extra_fields) false;
     is_staff := field_or (kw_is_staff extra_fields) false;
     email := email_value;
     phone_number := field_or (kw_phone_number extra_fields) "";
     created_at := 0; updated_at := 0;
     is_active := field_or (kw_is_active extra_fields) false;
     email_verified := field_or (kw_email_verified extra_fields) false;
     phone_verified := field_or (kw_phone_verified extra_fields) false;
     registration_pending :=
       field_or (kw_registration_pending extra_fields) true;
     drivers_license_image :=
       field_or (kw_drivers_license_image extra_fields) "";
     is_driver_verified := false;
     rating_as_driver := field_or (kw_rating_as_driver extra_fields) 0%float;
     rating_as_passenger :=
       field_or (kw_rating_as_passenger extra_fields) 0%float |}.

(** [.first()] under [Meta.ordering = ["-created_at"]]: the newest row. *)
Definition QuerySet_first (rows : list User) : option User :=
  fold_left
    (fun best u =>
       match best with
       | Some b => if created_at b <? created_at u then Some u else Some b
       | None => Some u
       end)
    rows None.

(** [User.cleanup_expired_registrations] *)
Definition cleanup_expired_registrations
    (email_arg phone_number_arg : option string) : M nat :=
  now <- timezone_now ;;
  let expired_time := now - timedelta_minutes 5 in
  let base_query : Q :=
    Some (fun u => registration_pending u && (created_at u <? expired_time)) in
  let final_query :=
    if truthy_opt email_arg || truthy_opt phone_number_arg then
      let specific_query : Q := None in
      let specific_query :=
        if truthy_opt email_arg
        then Q_or specific_query
               (Some (fun u => String.eqb (email u) (field_or email_arg "")
                               && registration_pending u))
        else specific_query in
      let specific_query :=
        if truthy_opt phone_number_arg
        then Q_or specific_query
               (Some (fun u => String.eqb (phone_number u)
                                 (field_or phone_number_arg "")
                               && registration_pending u))
        else specific_query in
      Q_or base_query specific_query
    else base_query in
  QuerySet_delete (Q_holds final_query).

(** [User.save], called without arguments: every column is written. *)
Definition save (self : User) : M User :=
  let self :=
    with_is_driver_verified (truthy (drivers_license_image self)) self in
  (if state_adding self && registration_pending self then
     now <- timezone_now ;;
     QuerySet_delete
       (fun r => (String.eqb (email r) (email self)
                  || String.eqb (phone_number r) (phone_number self))
                 && registration_pending r
                 && (created_at r <? now - timedelta_minutes 5)) ;;;
     ret tt
   else ret tt) ;;;
  Model_save self.

(** [User.registration_expired] *)
Definition registration_expired (self : User) : M bool :=
  if registration_pending self then
    now <- timezone_now ;;
    ret (created_at self <? now - timedelta_minutes 5)
  else ret false.

(** Python's [round(x, ndigits)] on a float, for [0 <= ndigits]: the
    exact binary value is rounded half to even to [ndigits] decimals, and
    the nearest double to that decimal is returned; a NaN, an infinity or
    a zero rounds to itself. *)
Definition round_half_even_div (a b : Z) : Z :=
  let q := a / b in
  match 2 * (a mod b) ?= b with
  | Lt => q
  | Gt => q + 1
  | Eq => if Z.even q then q else q + 1
  end.

Definition nearest_double (negative : bool) (numerator denominator : Z) : float :=
  match numerator, denominator with
  | Zpos n, Zpos d =>
      SF2Prim (SFdiv prec emax (S754_finite negative n 0)
                 (S754_finite false d 0))
  | _, _ => if negative then (-0)%float else 0%float
  end.

Definition round (x : float) (ndigits : Z) : float :=
  match Prim2SF x with
  | S754_finite negative m e =>
      let scale := 10 ^ ndigits in
      let scaled :=
        if 0 <=? e then Zpos m * 2 ^ e * scale
        else round_half_even_div (Zpos m * scale) (2 ^ (- e)) in
      nearest_double negative scaled scale
  | _ => x
  end.

Definition WEIGHT_NEW : float := 0.3%float.
Definition WEIGHT_OLD : float := 0.7%float.

(** The assignment [update_rating] makes before it saves. *)
Definition rated (self : User) (new_rating : float) (as_driver : bool) : User :=
  if as_driver then
    with_rating_as_driver
      (round (WEIGHT_OLD * rating_as_driver self + WEIGHT_NEW * new_rating) 2)
      self
  else
    with_rating_as_passenger
      (round (WEIGHT_OLD * rating_as_passenger self + WEIGHT_NEW * new_rating)
         2)
      self.

(** [User.update_rating] *)
Definition update_rating (self : User) (new_rating : float) (as_driver : bool)
  : M User :=
  save (rated self new_rating as_driver).

Section Manager.

Variable dj : Django.

(** [CustomUserManager.create_user].  [total_seconds()] is a float; at
    the microsecond resolution of a [timedelta] its quotient by 60 and its
    remainder modulo 60 have the integer parts computed here. *)
Definition create_user (email_arg : string) (password_arg : option string)
    (extra_fields : kwargs) : M User :=
  if negb (truthy email_arg) then raise (ValueError Email_is_required) else
  let email_arg := normalize_email email_arg in
  cleanup_expired_registrations (Some email_arg) None ;;;
  now <- timezone_now ;;
  rows <- gets users ;;
  let pending_user :=
    QuerySet_first
      (filter (fun u => String.eqb (email u) email_arg
                        && registration_pending u
                        && (created_at u >? now - timedelta_minutes 5))
              rows) in
  match pending_user with
  | Some pending =>
      now <- timezone_now ;;
      let time_remaining := created_at pending + timedelta_minutes 5 - now in
      let minutes := Z.quot time_remaining 60000000 in
      let seconds := (time_remaining mod 60000000) / 1000000 in
      if negb (email_verified pending)
      then raise (ValueError (Email_verification_pending minutes seconds))
      else raise (ValueError (Phone_verification_pending minutes seconds))
  | None =>
      let extra_fields :=
        kw_with_registration_pending
          (setdefault (kw_registration_pending extra_fields) true)
          extra_fields in
      let extra_fields :=
        kw_with_is_active (setdefault (kw_is_active extra_fields) false)
          extra_fields in
      let user := Model_init email_arg extra_fields in
      let user :=
        if truthy_opt password_arg
        then with_password (make_password dj (field_or password_arg "")) user
        else user in
      try_except
        (full_clean dj user ;;; save user)
        (fun e =>
           match e with
           | IntegrityError =>
               raise (ValueError An_account_with_this_email_already_exists)
           | _ => raise e
           end)
  end.

(** [CustomUserManager.create_superuser] *)
Definition create_superuser (email_arg : string) (password_arg : option string)
    (extra_fields : kwargs) : M User :=
  let extra_fields :=
    kw_with_is_staff (setdefault (kw_is_staff extra_fields) true)
      extra_fields in
  let extra_fields :=
    kw_with_is_superuser (setdefault (kw_is_superuser extra_fields) true)
      extra_fields in
  let extra_fields :=
    kw_with_is_active (setdefault (kw_is_active extra_fields) true)
      extra_fields in
  match kw_is_staff extra_fields with
  | Some true =>
      match kw_is_superuser extra_fields with
      | Some true => create_user email_arg password_arg extra_fields
      | _ => raise (ValueError Superuser_must_have_is_superuser)
      end
  | _ => raise (ValueError Superuser_must_have_is_staff)
  end.

End Manager.

Definition with_is_verified (v : bool) (o : OTP) : OTP :=
  {| otp_pk := otp_pk o; otp_user := otp_user o; code := code o;
     otp_created_at := otp_created_at o; is_verified := v;
     attempts := attempts o; otp_type := otp_type o |}.

(** [OTP.is_valid] *)
Definition is_valid (self : OTP) : M bool :=
  now <- timezone_now ;;
  ret ((now <=? otp_created_at self + timedelta_minutes 10)
       && negb (is_verified self)
       && (attempts self <? 3)).

(** [OTP.time_since_creation] *)
Definition time_since_creation (self : OTP) : M timedelta :=
  now <- timezone_now ;;
  ret (now - otp_created_at self).

(** [str(n)] of a natural number. *)
Definition str (n : nat) : string := NilZero.string_of_uint (Nat.to_uint n).

(** A list comprehension over [range(n)] whose element is an effect. *)
Fixpoint comprehension {A} (n : nat) (m : M A) : M (list A) :=
  match n with
  | O => ret []
  | S k => x <- m ;; xs <- comprehension k m ;; ret (x :: xs)
  end.

(** [OTP.objects.create(user=..., code=..., type=...)]: an INSERT with
    the declared defaults, [created_at] read from the clock, and the
    foreign key checked. *)
Definition OTP_objects_create (user : option nat) (otp_code : string)
    (kind : otp_kind) : M OTP :=
  created <- timezone_now ;;
  key <- nextval T_otp ;;
  user_rows <- gets users ;;
  rows <- gets otps ;;
  let row :=
    {| otp_pk := Some key; otp_user := user; code := otp_code;
       otp_created_at := created; is_verified := false; attempts := 0;
       otp_type := kind |} in
  let user_missing :=
    match user with
    | Some i => negb (has_pk pk i user_rows)
    | None => false
    end in
  if has_pk otp_pk key rows || user_missing
  then raise IntegrityError
  else modify (set_otps (rows ++ [row])) ;;; ret row.

(** [OTP.create_otp_for_user].  [user] is the key of a saved user, or
    [None]. *)
Definition create_otp_for_user (user : option nat) (otp_type_arg : otp_kind)
  : M OTP :=
  modify (fun w =>
    set_otps
      (map (fun o =>
              if key_eqb (otp_user o) user && negb (is_verified o)
                 && otp_kind_eqb (otp_type o) otp_type_arg
              then with_is_verified true o
              else o)
           (otps w))
      w) ;;;
  digits <- comprehension 6 (randint 0 9) ;;
  let otp_code := String.concat "" (map str digits) in
  OTP_objects_create user otp_code otp_type_arg.

(** ** rides/models.py

    The models of this file declare columns, keys and constraints; their
    only behaviour is the inherited [save], which the store answers with
    [IntegrityError] when a foreign key points nowhere or a declared
    uniqueness is broken.  Field validators run in [full_clean] only. *)

Section ModelSave.

Variables (R : Type) (pk_of : R -> option nat) (with_pk : nat -> R -> R).
Variables (tbl : table) (rows_of : World -> list R).
Variable set_rows : list R -> World -> World.
Variable accepted : World -> list R -> R -> bool.

Definition insert_row (r : R) : M R :=
  key <- match pk_of r with
         | Some i => ret i
         | None => nextval tbl
         end ;;
  w <- gets (fun w => w) ;;
  let row := with_pk key r in
  if has_pk pk_of key (rows_of w) || negb (accepted w (rows_of w) row)
  then raise IntegrityError
  else modify (set_rows (rows_of w ++ [row])) ;;; ret row.

Definition save_row (r : R) : M R :=
  match pk_of r with
  | Some i =>
      w <- gets (fun w => w) ;;
      if has_pk pk_of i (rows_of w) then
        if accepted w (exclude_pk pk_of i (rows_of w)) r
        then modify (set_rows (replace_pk pk_of i r (rows_of w))) ;;; ret r
        else raise IntegrityError
      else insert_row r
  | None => insert_row r
  end.

End ModelSave.

Definition user_exists (w : World) (i : nat) : bool := has_pk pk i (users w).
Definition ride_exists (w : World) (i : nat) : bool := has_pk ride_pk i (rides w).

(** [RideDetails.save] *)
Definition RideDetails_save : RideDetails -> M RideDetails :=
  save_row ride_pk
    (fun i r => {| ride_pk := Some i; driver := driver r |})
    T_ride rides set_rides
    (fun w _ r => user_exists w (driver r)).

(** [PassengerRideRequest.save] *)
Definition PassengerRideRequest_save
  : PassengerRideRequest -> M PassengerRideRequest :=
  save_row request_pk
    (fun i r => {| request_pk := Some i; passenger := passenger r;
                   request_ride := request_ride r |})
    T_request requests set_requests
    (fun w _ r => user_exists w (passenger r) && ride_exists w (request_ride r)).

(** [unique_together = ["ride", "from_user", "to_user"]] *)
Definition same_triple (a b : Rating) : bool :=
  Nat.eqb (rating_ride a) (rating_ride b)
  && Nat.eqb (from_user a) (from_user b)
  && Nat.eqb (to_user a) (to_user b).

Definition rating_keys_exist (w : World) (r : Rating) : bool :=
  ride_exists w (rating_ride r) && user_exists w (from_user r)
  && user_exists w (to_user r).

(** [Rating.save] *)
Definition Rating_save : Rating -> M Rating :=
  save_row rating_pk
    (fun i r => {| rating_pk := Some i; rating_ride := rating_ride r;
                   from_user := from_user r; to_user := to_user r;
                   score := score r |})
    T_rating ratings set_ratings
    (fun w others r =>
       rating_keys_exist w r && negb (existsb (same_triple r) others)).

(** The ratings a validation compares [r] with. *)
Definition rating_peers (w : World) (r : Rating) : list Rating :=
  match rating_pk r with
  | Some i => exclude_pk rating_pk i (ratings w)
  | None => ratings w
  end.

(** [Rating.full_clean]: [MinValueValidator(1)] and [MaxValueValidator(5)]
    on [score], the existence of the referenced rows, and the uniqueness
    of the triple among the other ratings. *)
Definition Rating_full_clean (r : Rating) : M unit :=
  w <- gets (fun w => w) ;;
  let peers := rating_peers w r in
  if (1 <=? score r) && (score r <=? 5) && rating_keys_exist w r
     && negb (existsb (same_triple r) peers)
  then ret tt
  else raise ValidationError.

(** [ChatMessage.save] *)
Definition ChatMessage_save : ChatMessage -> M ChatMessage :=
  save_row chat_pk
    (fun i c => {| chat_pk := Some i; chat_ride := chat_ride c;
                   sender := sender c; receiver := receiver c |})
    T_chat chats set_chats
    (fun w _ c => ride_exists w (chat_ride c) && user_exists w (sender c)
                  && user_exists w (receiver c)).

(** ** Reachable stores *)

(** The calls a client of the two files can make: the methods the files
    define, each called without further arguments, and the inherited
    [save] of the rides models.  OTP rows are written by
    [create_otp_for_user] only. *)
Inductive call :=
| Call_create_user (email_arg : string) (password_arg : option string)
    (extra_fields : kwargs)
| Call_create_superuser (email_arg : string) (password_arg : option string)
    (extra_fields : kwargs)
| Call_cleanup_expired_registrations (email_arg phone_arg : option string)
| Call_save (self : User)
| Call_update_rating (self : User) (new_rating : float) (as_driver : bool)
| Call_create_otp_for_user (user : option nat) (kind : otp_kind)
| Call_RideDetails_save (r : RideDetails)
| Call_PassengerRideRequest_save (r : PassengerRideRequest)
| Call_Rating_save (r : Rating)
| Call_ChatMessage_save (c : ChatMessage).

Definition empty_store (now : datetime) : World :=
  {| users := []; otps := []; rides := []; requests := []; ratings := [];
     chats := []; sequence := fun _ => 1%nat; clock := now; ticks := [];
     dice := [] |}.

(** What the environment decides before a call: the delays of the clock
    readings and the random draws to come. *)
Definition supply (delays : list N) (draws : list nat) (w : World) : World :=
  set_dice draws (set_time (clock w) delays w).

Section Reachability.

Variable dj : Django.

(** The store a call leaves, whether it returns or raises. *)
Definition perform (c : call) (w : World) : World :=
  match c with
  | Call_create_user e p k => fst (create_user dj e p k w)
  | Call_create_superuser e p k => fst (create_superuser dj e p k w)
  | Call_cleanup_expired_registrations e p =>
      fst (cleanup_expired_registrations e p w)
  | Call_save u => fst (save u w)
  | Call_update_rating u r d => fst (update_rating u r d w)
  | Call_create_otp_for_user u k => fst (create_otp_for_user u k w)
  | Call_RideDetails_save r => fst (RideDetails_save r w)
  | Call_PassengerRideRequest_save r => fst (PassengerRideRequest_save r w)
  | Call_Rating_save r => fst (Rating_save r w)
  | Call_ChatMessage_save c => fst (ChatMessage_save c w)
  end.

Inductive reachable : World -> Prop :=
| reachable_empty : forall now, reachable (empty_store now)
| reachable_supply : forall w delays draws,
    reachable w -> reachable (supply delays draws w)
| reachable_call : forall w c,
    reachable w -> reachable (perform c w).

End Reachability.

(** ** Vocabulary of the properties *)

(** [m] keeps [I], whether it returns or raises. *)
Definition preserves {A} (I : World -> Prop) (m : M A) : Prop :=
  forall w, I w -> I (fst (m w)).

(** The number of rows of the store, all tables together. *)
Definition row_count (w : World) : nat :=
  (List.length (users w) + List.length (otps w) + List.length (rides w)
   + List.length (requests w) + List.length (ratings w)
   + List.length (chats w))%nat.

(** A pending registration is expired at [now] when it is older than the
    five-minute grace window. *)
Definition expired_at (now : datetime) (u : User) : bool :=
  registration_pending u && (created_at u <? now - timedelta_minutes 5).

(** The rows [cleanup_expired_registrations] selects at [now]. *)
Definition reclaimed (email_arg phone_arg : option string) (now : datetime)
    (u : User) : bool :=
  registration_pending u
  && ((created_at u <? now - timedelta_minutes 5)
      || truthy_opt email_arg && String.eqb (email u) (field_or email_arg "")
      || truthy_opt phone_arg
         && String.eqb (phone_number u) (field_or phone_arg "")).

(** An OTP that can still be redeemed as far as its flag goes. *)
Definition live_for (user : option nat) (kind : otp_kind) (o : OTP) : bool :=
  key_eqb (otp_user o) user && negb (is_verified o)
  && otp_kind_eqb (otp_type o) kind.

(** What [create_otp_for_user] makes of an existing OTP. *)
Definition superseded (user : option nat) (kind : otp_kind) (o : OTP) : OTP :=
  if live_for user kind o then with_is_verified true o else o.

Definition is_digit (c : ascii) : bool :=
  let n := nat_of_ascii c in ((48 <=? n) && (n <=? 57))%nat.

Fixpoint all_digits (s : string) : bool :=
  match s with
  | String c t => is_digit c && all_digits t
  | EmptyString => true
  end.

(** The instance [create_user] validates and saves, and what it does
    with the exceptions of that step. *)
Definition submitted (dj : Django) (email_arg : string)
    (password_arg : option string) (extra_fields : kwargs) : User :=
  let extra_fields :=
    kw_with_registration_pending
      (setdefault (kw_registration_pending extra_fields) true)
      extra_fields in
  let extra_fields :=
    kw_with_is_active (setdefault (kw_is_active extra_fields) false)
      extra_fields in
  let user := Model_init (normalize_email email_arg) extra_fields in
  if truthy_opt password_arg
  then with_password (make_password dj (field_or password_arg "")) user
  else user.

Definition on_save_error (e : exn) : M User :=
  match e with
  | IntegrityError =>
      raise (ValueError An_account_with_this_email_already_exists)
  | _ => raise e
  end.

(** [w'] has the rows of [w]; only the clock, the oracles and the key
    sequences, which do not go back, may differ. *)
Definition same_rows (w w' : World) : Prop :=
  users w' = users w /\ otps w' = otps w /\ rides w' = rides w
  /\ requests w' = requests w /\ ratings w' = ratings w
  /\ chats w' = chats w
  /\ (forall t, (sequence w t <= sequence w' t)%nat).

(** Rows that [same] relates are one row: they have one key. *)
Definition unique_by {R} (pk_of : R -> option nat) (same : R -> R -> bool)
    (rows : list R) : Prop :=
  forall a b, In a rows -> In b rows -> same a b = true -> pk_of a = pk_of b.

Definition same_email (a b : User) : bool := String.eqb (email a) (email b).

Definition same_confirmed_phone (a b : User) : bool :=
  negb (registration_pending a) && negb (registration_pending b)
  && String.eqb (phone_number a) (phone_number b).

(** The invariants of the user table and of the rating table. *)
Definition users_ok (w : World) : Prop :=
  NoDup (map pk (users w))
  /\ unique_by pk same_email (users w)
  /\ unique_by pk same_confirmed_phone (users w).

Definition ratings_ok (w : World) : Prop :=
  NoDup (map rating_pk (ratings w))
  /\ unique_by rating_pk same_triple (ratings w)
  /\ (forall r, In r (ratings w) -> ride_exists w (rating_ride r) = true).

(** ** Scenarios *)

(** A framework instance for the worked examples: its field validation
    refuses a blank email, phone number or password, as [blank=False]
    does, and accepts the rest. *)
Definition example_django : Django :=
  {| clean_fields := fun u =>
       truthy (email u) && truthy (phone_number u) && truthy (password u);
     make_password := fun raw => ("pbkdf2_sha256$" ++ raw)%string;
     full_clean_validates_constraints := true |}.

Definition with_phone (phone : string) : kwargs :=
  {| kw_is_superuser := None; kw_is_staff := None;
     kw_phone_number := Some phone; kw_is_active := None;
     kw_email_verified := None; kw_phone_verified := None;
     kw_registration_pending := None; kw_drivers_license_image := None;
     kw_rating_as_driver := None; kw_rating_as_passenger := None |}.

Definition one_minute : N := 60000000%N.

(** Alice has registered and has not verified yet. *)
Definition alice_registered : World :=
  perform example_django
    (Call_create_user "alice@example.com" (Some "secret")
       (with_phone "5550100"))
    (empty_store 0).

(** One minute later: her registration is four minutes from expiry. *)
Definition alice_waiting : World := supply [one_minute] [] alice_registered.

(** An unverified OTP, one second old, on which three guesses were
    spent. *)
Definition guessed_out : OTP :=
  {| otp_pk := Some 1%nat; otp_user := Some 1%nat; code := "271828";
     otp_created_at := 0; is_verified := false; attempts := 3;
     otp_type := EMAIL |}.

(** Dana, a driver nobody has rated yet, as first saved. *)
Definition dana : User :=
  {| pk := Some 1%nat; state_adding := false;
     password := "pbkdf2_sha256$secret"; is_superuser := false;
     is_staff := false; email := "dana@example.com";
     phone_number := "5550111"; created_at := 0; updated_at := 0;
     is_active := true; email_verified := true; phone_verified := true;
     registration_pending := false; drivers_license_image := "dana.png";
     is_driver_verified := true; rating_as_driver := 0%float;
     rating_as_passenger := 0%float |}.

Definition dana_saved : World := perform example_django (Call_save dana) (empty_store 0).

(** The same framework before Django 4.1, when [full_clean] left the
    conditional constraints to the database. *)
Definition legacy_django : Django :=
  {| clean_fields := clean_fields example_django;
     make_password := make_password example_django;
     full_clean_validates_constraints := false |}.

(** Bob's account is confirmed: a non-pending row holds his email and
    his phone number. *)
Definition bob : User :=
  {| pk := None; state_adding := true;
     password := "pbkdf2_sha256$hunter2"; is_superuser := false;
     is_staff := false; email := "bob@example.com";
     phone_number := "5550100"; created_at := 0; updated_at := 0;
     is_active := true; email_verified := true; phone_verified := true;
     registration_pending := false; drivers_license_image := "";
     is_driver_verified := false; rating_as_driver := 0%float;
     rating_as_passenger := 0%float |}.

Definition bob_confirmed : World :=
  perform example_django (Call_save bob) (empty_store 0).

Definition identity (u : User) : string * string * bool :=
  (email u, phone_number u, registration_pending u).

(** Bob's row as the store holds it. *)
Definition bob_row : User := stored_as 1 0 0 bob.

(** A superuser created with the defaults, as [create_superuser] returns
    it on an empty store at time 0. *)
Definition root_account : User :=
  {| pk := Some 1%nat; state_adding := false;
     password := "pbkdf2_sha256$secret"; is_superuser := true;
     is_staff := true; email := "root@example.com";
     phone_number := "5550123"; created_at := 0; updated_at := 0;
     is_active := true; email_verified := false; phone_verified := false;
     registration_pending := true; drivers_license_image := "";
     is_driver_verified := false; rating_as_driver := 0%float;
     rating_as_passenger := 0%float |}.

(** Keyword arguments that ask for an inactive account. *)
Definition inactive : kwargs :=
  kw_with_is_active (Some false) (with_phone "5550123").

(** Erin and Frank register with one phone number and two emails;
    neither has verified. *)
Definition erin : User :=
  Model_init "erin@example.com" (with_phone "5550142").

Definition frank : User :=
  Model_init "frank@example.com" (with_phone "5550142").

Definition erin_and_frank (dj : Django) : World :=
  perform dj (Call_save frank) (perform dj (Call_save erin) (empty_store 0)).

(** A second pending instance with Alice's email. *)
Definition alice_again : User :=
  Model_init "alice@example.com" (with_phone "5550177").

(** Gina drives, Hal rides with her, and Hal's rating of Gina is saved
    with the score 7. *)
Definition gina : User :=
  Model_init "gina@example.com"
    (kw_with_registration_pending (Some false) (with_phone "5550150")).

Definition hal : User :=
  Model_init "hal@example.com"
    (kw_with_registration_pending (Some false) (with_phone "5550151")).

Definition ginas_ride : RideDetails := {| ride_pk := None; driver := 1 |}.

Definition seven_stars : Rating :=
  {| rating_pk := None; rating_ride := 1; from_user := 2; to_user := 1;
     score := 7 |}.

Definition ride_taken (dj : Django) : World :=
  perform dj (Call_RideDetails_save ginas_ride)
    (perform dj (Call_save hal)
       (perform dj (Call_save gina) (empty_store 0))).

Definition rated_seven (dj : Django) : World :=
  perform dj (Call_Rating_save seven_stars) (ride_taken dj).

(** The ratings of a triple. *)
Definition of_triple (ride_key rater ratee : nat) (r : Rating) : bool :=
  Nat.eqb (rating_ride r) ride_key && Nat.eqb (from_user r) rater
  && Nat.eqb (to_user r) ratee.

(** ** Further vocabulary *)

(** The rows [User.save] deletes, at [now], before it stores a new
    pending instance [self]. *)
Definition purged (self : User) (now : datetime) (r : User) : bool :=
  (String.eqb (email r) (email self)
   || String.eqb (phone_number r) (phone_number self))
  && registration_pending r
  && (created_at r <? now - timedelta_minutes 5).

(** The row [save] writes for [self] under [key]. *)
Definition written (key : nat) (created updated : datetime) (self : User)
  : User :=
  stored_as key created updated
    (with_is_driver_verified (truthy (drivers_license_image self)) self).

(** Alice's row as [create_user] stores it in the empty store. *)
Definition alice_row : User :=
  written 1 0 0
    (submitted example_django "alice@example.com" (Some "secret")
       (with_phone "5550100")).

(** Six minutes after Alice registered: her registration has expired. *)
Definition alice_lapsed : World :=
  supply [(6 * one_minute)%N] [] alice_registered.

(** Every foreign key of the store points to a row of the store. *)
Definition refs_ok (w : World) : Prop :=
  (forall o i, In o (otps w) -> otp_user o = Some i ->
               user_exists w i = true)
  /\ (forall r, In r (rides w) -> user_exists w (driver r) = true)
  /\ (forall r, In r (requests w) ->
                user_exists w (passenger r) = true
                /\ ride_exists w (request_ride r) = true)
  /\ (forall r, In r (ratings w) -> rating_keys_exist w r = true)
  /\ (forall c, In c (chats w) ->
                ride_exists w (chat_ride c) = true
                /\ user_exists w (sender c) = true
                /\ user_exists w (receiver c) = true).

(** [o'] is [o] as a later store holds it: the same key, user, code,
    creation time, attempts and purpose; only [is_verified] may have
    been set. *)
Definition derives (o o' : OTP) : Prop :=
  otp_pk o' = otp_pk o /\ otp_user o' = otp_user o /\ code o' = code o
  /\ otp_created_at o' = otp_created_at o /\ attempts o' = attempts o
  /\ otp_type o' = otp_type o
  /\ (is_verified o = true -> is_verified o' = true).

Definition six_digits (s : string) : Prop :=
  String.length s = 6%nat /\ all_digits s = true.

(** Alice is sent an OTP for her email; the random source draws
    3, 1, 4, 1, 5, 9. *)
Definition alice_with_otp : World :=
  perform example_django (Call_create_otp_for_user (Some 1%nat) EMAIL)
    (supply [] [3; 1; 4; 1; 5; 9]%nat alice_registered).

(** A rating of five stars from Hal to Gina for her ride. *)
Definition five_stars : Rating :=
  {| rating_pk := None; rating_ride := 1; from_user := 2; to_user := 1;
     score := 5 |}.

(** The rating of the role [update_rating] is asked to update. *)
Definition rating_of (as_driver : bool) (u : User) : float :=
  if as_driver then rating_as_driver u else rating_as_passenger u.

(** The float [n / 100], as the literal with two decimals denotes it, and
    the float of an integer score. *)
Definition hundredths (n : Z) : float := nearest_double false n 100.
Definition stars (s : Z) : float := nearest_double false s 1.

Definition within (n s m : Z) : bool :=
  (Z.min n (100 * s) <=? m) && (m <=? Z.max n (100 * s))
  && Bool.eqb (m =? 100 * s) (n =? 100 * s).

(** The number of hundredths [update_rating] moves a rating of [n]
    hundredths to on a score [s], searched on the scale. *)
Definition next_hundredths (scale : list (Z * float)) (n s : Z) : option Z :=
  let x := round (WEIGHT_OLD * hundredths n + WEIGHT_NEW * stars s) 2 in
  option_map fst
    (find (fun mf => Leibniz.eqb x (snd mf) && within n s (fst mf)) scale).

Definition up_to (n : nat) : list Z := map Z.of_nat (seq 0 (S n)).

Definition two_decimals : list (Z * float) :=
  map (fun m => (m, hundredths m)) (up_to 500).

Definition scale_closed (scale : list (Z * float)) : bool :=
  forallb (fun n =>
             forallb (fun s => match next_hundredths scale n s with
                               | Some _ => true
                               | None => false
                               end)
               [1; 2; 3; 4; 5])
    (up_to 500).

(** What [str(obj)] gives: the string, or the exception raised while the
    f-string is evaluated. *)
Inductive display :=
| Shown (s : string)
| AttributeError
| DoesNotExist.

(** The related object of a foreign key, fetched by its key. *)
Definition related_user (w : World) (i : nat) : option User :=
  find (fun u => key_eqb (pk u) (Some i)) (users w).

Definition otp_type_value (k : otp_kind) : string :=
  match k with
  | EMAIL => "EMAIL"
  | PASSWORD_RESET => "PASSWORD_RESET"
  | PHONE => "PHONE"
  end.

(** [OTP.__str__] of a row of the store.  [self.user] is [None] when the
    foreign key is null, and [None] has no [email]. *)
Definition OTP_str (self : OTP) (w : World) : display :=
  match otp_user self with
  | None => AttributeError
  | Some i =>
      match related_user w i with
      | None => DoesNotExist
      | Some u =>
          Shown (otp_type_value (otp_type self) ++ " OTP for " ++ email u
                 ++ " (" ++ code self ++ ") - "
                 ++ (if is_verified self then "Verified" else "Pending"))%string
      end
  end.

(** [str(n)] of an integer. *)
Definition str_int (n : Z) : string := NilZero.string_of_int (Z.to_int n).

(** [Rating.__str__] of a row of the store. *)
Definition Rating_str (self : Rating) (w : World) : display :=
  match related_user w (from_user self) with
  | None => DoesNotExist
  | Some rater =>
      match related_user w (to_user self) with
      | None => DoesNotExist
      | Some ratee =>
          Shown (email rater ++ "'s " ++ str_int (score self)
                 ++ "-star rating to " ++ email ratee)%string
      end
  end.

(** A query that selects pending registrations only. *)
Definition pending_only (q : User -> bool) : Prop :=
  forall u, q u = true -> registration_pending u = true.

(** [ride] is in the store and its driver is a confirmed account there;
    the keys of the user table are distinct. *)
Definition guarded (ride : RideDetails) (w : World) : Prop :=
  NoDup (map pk (users w))
  /\ In ride (rides w)
  /\ exists r, In r (users w) /\ pk r = Some (driver ride)
               /\ registration_pending r = false.

(** Gina's ride, as the store holds it. *)
Definition ginas_ride_row : RideDetails := {| ride_pk := Some 1%nat; driver := 1 |}.

Definition ride_taken_later : World :=
  supply [(10 * one_minute)%N] [] (ride_taken example_django).

(** ** Guessing a code *)

Definition with_attempts (n : Z) (o : OTP) : OTP :=
  {| otp_pk := otp_pk o; otp_user := otp_user o; code := code o;
     otp_created_at := otp_created_at o; is_verified := is_verified o;
     attempts := n; otp_type := otp_type o |}.

Inductive redeem_result :=
| Redeemed
| WrongCode
| Expired
| TooManyAttempts.

(** Modelled from the spec: [redeem(otp, candidate_code) -> ok |
    WrongCode | Expired | TooManyAttempts], the operation that checks a
    candidate code against an OTP; it is code of the repository that is
    not under src/, which has [OTP.is_valid] only.  The spec: it
    increments [attempts] on every call including wrong guesses; the OTP
    becomes permanently invalid once [attempts >= 3], regardless of
    subsequent correct guesses; it is valid only within 10 minutes of
    creation and while unverified.  Validity is what [is_valid] of the
    source returns; the value is the outcome and the OTP with its new
    counter. *)
Definition redeem (otp : OTP) (candidate_code : string)
  : M (redeem_result * OTP) :=
  valid <- is_valid otp ;;
  let outcome :=
    if 3 <=? attempts otp then TooManyAttempts
    else if negb valid then Expired
    else if String.eqb candidate_code (code otp) then Redeemed
    else WrongCode in
  ret (outcome, with_attempts (attempts otp + 1) otp).

(** At most one unverified OTP per user and purpose. *)
Definition one_live_each (w : World) : Prop :=
  forall user kind,
    (List.length (filter (live_for user kind) (otps w)) <= 1)%nat.

(** Alice has spent two guesses on the OTP she was sent. *)
Definition alice_guessed_twice : World :=
  set_otps (map (with_attempts 2) (otps alice_with_otp)) alice_with_otp.

(** ** Rounding to two decimals *)

(** The exact value of a finite float, as a fraction [p / q] with
    [0 < q]. *)
Definition exact_ratio (x : float) : option (Z * Z) :=
  match Prim2SF x with
  | S754_zero _ => Some (0, 1)
  | S754_finite negative m e =>
      let v := if negative then Zneg m else Zpos m in
      if 0 <=? e then Some (v * 2 ^ e, 1) else Some (v, 2 ^ (- e))
  | _ => None
  end.

(** [m / 100] is a two-decimal value nearest to [p / q], the even one
    when two are as near: [|p / q - m / 100| <= 1 / 200]. *)
Definition nearest_hundredth (p q m : Z) : bool :=
  let d := Z.abs (200 * p - 2 * m * q) in
  (d <? q) || ((d =? q) && Z.even m).

(** On every rating of [scale] and every score from 1 to 5, [round]
    gives the double of a nearest two-decimal value of the weighted
    sum. *)
Definition rounds_to_nearest (scale : list (Z * float)) : bool :=
  forallb (fun nf =>
     forallb (fun s =>
        let x := (WEIGHT_OLD * snd nf + WEIGHT_NEW * stars s)%float in
        match exact_ratio x with
        | Some (p, q) =>
            let m0 := (100 * p) / q in
            (0 <? q)
            && existsb (fun m => Leibniz.eqb (round x 2) (hundredths m)
                                 && nearest_hundredth p q m)
                 [m0; m0 + 1]
        | None => false
        end) [1; 2; 3; 4; 5]) scale.

(** ** Properties *)

Unset Implicit Arguments.

Ltac run := unfold bind, ret, raise, gets, modify, try_except in *.

Lemma timezone_now_returns (w : World) :
  exists w', timezone_now w = (w', Ok (clock w'))
             /\ users w' = users w /\ otps w' = otps w /\ rides w' = rides w
             /\ requests w' = requests w /\ ratings w' = ratings w
             /\ chats w' = chats w /\ sequence w' = sequence w
             /\ dice w' = dice w /\ clock w <= clock w'.
Proof.
  unfold timezone_now. destruct (ticks w) as [|d rest].
  - exists w. repeat split; lia.
  - exists (set_time (clock w + Z.of_N d) rest w). simpl.
    repeat split; lia.
Qed.

(** C6. [is_valid] returns, and its value is true exactly when the OTP is
    unverified, has fewer than three attempts, and the time read from the
    clock is at most ten minutes after [created_at]. *)
Theorem is_valid_iff (self : OTP) (w : World) :
  exists b,
    snd (is_valid self w) = Ok b
    /\ (b = true <->
        is_verified self = false
        /\ attempts self < 3
        /\ clock (fst (is_valid self w)) - otp_created_at self
           <= timedelta_minutes 10).
Proof.
  unfold is_valid. run.
  destruct (timezone_now_returns w) as (w' & -> & _). simpl.
  eexists. split; [reflexivity|].
  rewrite !andb_true_iff, negb_true_iff, Z.leb_le, Z.ltb_lt.
  intuition lia.
Qed.

Lemma is_valid_returns (self : OTP) (w : World) :
  exists w',
    timezone_now w = (w', Ok (clock w'))
    /\ is_valid self w
       = (w', Ok ((clock w' <=? otp_created_at self + timedelta_minutes 10)
                  && negb (is_verified self) && (attempts self <? 3))).
Proof.
  destruct (timezone_now_returns w) as (w' & Hnow & _).
  exists w'. split; [exact Hnow|]. unfold is_valid. run. now rewrite Hnow.
Qed.

Lemma redeem_returns (otp : OTP) (candidate : string) (w : World) :
  exists valid,
    snd (is_valid otp w) = Ok valid
    /\ redeem otp candidate w
       = (fst (is_valid otp w),
          Ok (if 3 <=? attempts otp then TooManyAttempts
              else if negb valid then Expired
              else if String.eqb candidate (code otp) then Redeemed
              else WrongCode,
              with_attempts (attempts otp + 1) otp)).
Proof.
  destruct (is_valid_returns otp w) as (w' & _ & Hv).
  eexists. rewrite Hv. split; [reflexivity|].
  unfold redeem. unfold bind, ret. rewrite Hv. reflexivity.
Qed.

(** C5. An OTP whose attempts counter has reached three is invalid
    whatever its code, its verified flag, its age and the state of the
    store and of the clock: [is_valid] returns false, and [redeem]
    answers [TooManyAttempts] to every candidate code, the correct one
    included, and counts the call.  [redeem] never answers [Redeemed]
    unless [is_valid] returned true and the candidate is the code.
    Starting from a counter that is not negative, after three calls of
    [redeem], whatever the guesses and whenever they are made, a fourth
    call with the correct code answers [TooManyAttempts]. *)
Theorem is_valid_false_once_three_attempts (self : OTP) (w : World) :
  3 <= attempts self ->
  snd (is_valid self w) = Ok false
  /\ (forall candidate,
         exists counted,
           snd (redeem self candidate w) = Ok (TooManyAttempts, counted)
           /\ attempts counted = attempts self + 1
           /\ 3 <= attempts counted)
  /\ (forall otp candidate w0 outcome counted,
         snd (redeem otp candidate w0) = Ok (outcome, counted) ->
         attempts counted = attempts otp + 1
         /\ code counted = code otp
         /\ (outcome = Redeemed ->
             snd (is_valid otp w0) = Ok true /\ candidate = code otp))
  /\ (forall otp g1 g2 g3 w0,
         0 <= attempts otp ->
         exists last,
           snd ((r1 <- redeem otp g1 ;;
                 r2 <- redeem (snd r1) g2 ;;
                 r3 <- redeem (snd r2) g3 ;;
                 redeem (snd r3) (code otp)) w0)
           = Ok (TooManyAttempts, last)).
Proof.
  intros H.
  assert (Hinvalid : forall w1, snd (is_valid self w1) = Ok false).
  { intros w1. destruct (is_valid_returns self w1) as (w' & _ & ->). simpl.
    replace (attempts self <? 3) with false
      by (symmetry; apply Z.ltb_ge; lia).
    now rewrite andb_false_r. }
  split; [apply Hinvalid|]. split; [|split].
  - intros candidate.
    destruct (redeem_returns self candidate w) as (valid & _ & ->). simpl.
    replace (3 <=? attempts self) with true by (symmetry; apply Z.leb_le; lia).
    eexists. split; [reflexivity|]. simpl. split; lia.
  - intros otp candidate w0 outcome counted Hr.
    destruct (redeem_returns otp candidate w0) as (valid & Hv & Heq).
    rewrite Heq in Hr. simpl in Hr. injection Hr as <- <-.
    split; [reflexivity|]. split; [reflexivity|].
    destruct (3 <=? attempts otp); [discriminate|].
    destruct valid; simpl; [|discriminate].
    destruct (String.eqb candidate (code otp)) eqn:E; [|discriminate].
    intros _. split; [exact Hv | now apply String.eqb_eq].
  - intros otp g1 g2 g3 w0 H0.
    unfold bind at 1.
    destruct (redeem_returns otp g1 w0) as (v1 & _ & ->). cbn [fst snd].
    unfold bind at 1.
    match goal with |- context [redeem ?o g2 ?w1] =>
      destruct (redeem_returns o g2 w1) as (v2 & _ & ->)
    end. cbn [fst snd].
    unfold bind at 1.
    match goal with |- context [redeem ?o g3 ?w1] =>
      destruct (redeem_returns o g3 w1) as (v3 & _ & ->)
    end. cbn [fst snd].
    match goal with |- context [redeem ?o (code otp) ?w1] =>
      destruct (redeem_returns o (code otp) w1) as (v4 & _ & ->)
    end. cbn [fst snd attempts with_attempts].
    replace (3 <=? attempts otp + 1 + 1 + 1) with true
      by (symmetry; apply Z.leb_le; lia).
    eexists. reflexivity.
Qed.

Lemma is_valid_false_once_three_attempts_witness :
  3 <= attempts guessed_out
  /\ snd (is_valid guessed_out (empty_store 1000000)) = Ok false
  /\ exists counted,
       snd (redeem guessed_out (code guessed_out) (empty_store 1000000))
       = Ok (TooManyAttempts, counted).
Proof.
  assert (H : 3 <= attempts guessed_out) by (simpl; lia).
  split; [exact H|].
  destruct (is_valid_false_once_three_attempts guessed_out
              (empty_store 1000000) H) as (Hv & Hr & _).
  split; [exact Hv|].
  destruct (Hr (code guessed_out)) as (counted & Hc & _).
  exists counted. exact Hc.
Defined.

(** *** [save] *)

Lemma insert_user_returns (u : User) (w : World) :
  match insert_user u w with
  | (w', Ok saved) =>
      In saved (users w')
      /\ exists key created updated, saved = stored_as key created updated u
  | (_, Raise e) => e = IntegrityError
  end.
Proof.
  unfold insert_user, nextval. run.
  destruct (timezone_now_returns w) as (w1 & -> & _).
  destruct (timezone_now_returns w1) as (w2 & -> & _).
  destruct (pk u); simpl;
    match goal with |- context [if ?c then _ else _] => destruct c end;
    simpl; try reflexivity;
    (split; [apply in_or_app; right; left; reflexivity | eauto]).
Qed.

Lemma replace_pk_In {R} (pk_of : R -> option nat) (i : nat) (row : R) (rows : list R) :
  has_pk pk_of i rows = true -> In row (replace_pk pk_of i row rows).
Proof.
  unfold has_pk, replace_pk. induction rows as [|r rows IH]; simpl; [discriminate|].
  destruct (key_eqb (pk_of r) (Some i)); simpl; auto.
Qed.

Lemma Model_save_returns (u : User) (w : World) :
  match Model_save u w with
  | (w', Ok saved) =>
      In saved (users w')
      /\ exists key created updated, saved = stored_as key created updated u
  | (_, Raise e) => e = IntegrityError
  end.
Proof.
  unfold Model_save. destruct (pk u) as [i|]; [|apply insert_user_returns].
  run. destruct (timezone_now_returns w) as (w1 & -> & _).
  destruct (has_pk pk i (users w1)) eqn:Hpk; [|apply insert_user_returns].
  destruct (user_row_accepted _ _); simpl; [|reflexivity].
  split; [now apply replace_pk_In | eauto].
Qed.

Lemma save_returns (self : User) (w : World) :
  match save self w with
  | (w', Ok saved) =>
      In saved (users w')
      /\ exists key created updated,
           saved = stored_as key created updated
                     (with_is_driver_verified
                        (truthy (drivers_license_image self)) self)
  | (_, Raise e) => e = IntegrityError
  end.
Proof.
  unfold save.
  set (u := with_is_driver_verified _ self).
  destruct (state_adding u && registration_pending u).
  - run. destruct (timezone_now_returns w) as (w1 & -> & _).
    unfold QuerySet_delete at 1. cbv beta zeta. apply Model_save_returns.
  - run. apply Model_save_returns.
Qed.

(** *** [update_rating] *)

Lemma In_up_to (k : nat) (n : Z) : 0 <= n <= Z.of_nat k -> In n (up_to k).
Proof.
  intros H. unfold up_to. apply in_map_iff. exists (Z.to_nat n).
  split; [lia|]. apply in_seq. lia.
Qed.

Lemma two_decimals_scale :
  Forall (fun mf => snd mf = hundredths (fst mf)) two_decimals.
Proof.
  apply Forall_forall. intros mf Hin. unfold two_decimals in Hin.
  apply in_map_iff in Hin as (m & <- & _). reflexivity.
Qed.

Lemma rounds_to_nearest_holds : rounds_to_nearest two_decimals = true.
Proof. vm_compute. reflexivity. Qed.

Lemma rounds_to_nearest_spec (scale : list (Z * float)) (nf : Z * float)
    (s : Z) :
  rounds_to_nearest scale = true ->
  In nf scale -> In s [1; 2; 3; 4; 5] ->
  exists m p q,
    round (WEIGHT_OLD * snd nf + WEIGHT_NEW * stars s) 2 = hundredths m
    /\ exact_ratio (WEIGHT_OLD * snd nf + WEIGHT_NEW * stars s) = Some (p, q)
    /\ 0 < q
    /\ nearest_hundredth p q m = true.
Proof.
  unfold rounds_to_nearest. intros H Hn Hs.
  rewrite forallb_forall in H. specialize (H nf Hn).
  rewrite forallb_forall in H. specialize (H s Hs).
  cbv zeta in H.
  destruct (exact_ratio _) as [[p q]|]; [|discriminate].
  apply andb_true_iff in H as [Hq H]. apply Z.ltb_lt in Hq.
  apply existsb_exists in H as (m & _ & H).
  apply andb_true_iff in H as [Heq Hnear].
  apply FloatAxioms.Leibniz.eqb_spec in Heq.
  exists m, p, q. auto.
Qed.

Lemma nearest_hundredth_spec (p q m : Z) :
  nearest_hundredth p q m = true ->
  Z.abs (200 * p - 2 * m * q) <= q
  /\ (Z.abs (200 * p - 2 * m * q) = q -> Z.even m = true).
Proof.
  unfold nearest_hundredth. cbv zeta. intros H.
  apply orb_true_iff in H as [H | H].
  - apply Z.ltb_lt in H. split; lia.
  - apply andb_true_iff in H as [H He]. apply Z.eqb_eq in H.
    split; [lia | auto].
Qed.

(** C7. [update_rating] assigns [round(0.7 * old + 0.3 * sample, 2)] to
    the rating of the chosen role and leaves the rating of the other role
    as it was; when the save succeeds the stored row carries these two
    values, and the only exception is the store's [IntegrityError].
    [round(_, 2)] rounds to two decimals: for every two-decimal rating
    from 0.00 to 5.00 and every score from 1 to 5, with [p / q] the exact
    value of the double [0.7 * old + 0.3 * sample], the result is the
    double of [m / 100] for an [m] with [|p / q - m / 100| <= 1 / 200],
    the even one on a tie.  Starting from 0.0, the sample 4 gives 1.2 and
    then the sample 5 gives 2.34, both on the formula and on a run
    against the store; from 4.35 the sample 5 gives 4.54, where the
    weighted sum is a double just below 4.545 and not the double 4.54. *)
Theorem update_rating_weighted_average :
  (forall self new_rating,
      rating_as_driver (rated self new_rating true)
      = round (0.7 * rating_as_driver self + 0.3 * new_rating) 2
      /\ rating_as_passenger (rated self new_rating true)
         = rating_as_passenger self
      /\ rating_as_passenger (rated self new_rating false)
         = round (0.7 * rating_as_passenger self + 0.3 * new_rating) 2
      /\ rating_as_driver (rated self new_rating false)
         = rating_as_driver self)
  /\ (forall self new_rating as_driver w,
         match update_rating self new_rating as_driver w with
         | (w', Ok saved) =>
             In saved (users w')
             /\ rating_as_driver saved
                = rating_as_driver (rated self new_rating as_driver)
             /\ rating_as_passenger saved
                = rating_as_passenger (rated self new_rating as_driver)
         | (_, Raise e) => e = IntegrityError
         end)
  /\ (forall n s,
         0 <= n <= 500 -> 1 <= s <= 5 ->
         exists m p q,
           round (0.7 * hundredths n + 0.3 * stars s) 2 = hundredths m
           /\ exact_ratio (0.7 * hundredths n + 0.3 * stars s) = Some (p, q)
           /\ 0 < q
           /\ Z.abs (200 * p - 2 * m * q) <= q
           /\ (Z.abs (200 * p - 2 * m * q) = q -> Z.even m = true))
  /\ round (0.7 * 0 + 0.3 * 4) 2 = 1.2%float
  /\ round (0.7 * 1.2 + 0.3 * 5) 2 = 2.34%float
  /\ round (0.7 * 4.35 + 0.3 * 5) 2 = 4.54%float
  /\ PrimFloat.eqb (0.7 * 4.35 + 0.3 * 5) 4.54 = false
  /\ hundredths 120 = 1.2%float /\ hundredths 234 = 2.34%float
  /\ hundredths 435 = 4.35%float /\ hundredths 454 = 4.54%float
  /\ stars 4 = 4%float /\ stars 5 = 5%float
  /\ (exists w1 once w2 twice,
         update_rating dana 4 true dana_saved = (w1, Ok once)
         /\ rating_as_driver once = 1.2%float
         /\ rating_as_passenger once = 0%float
         /\ update_rating once 5 true w1 = (w2, Ok twice)
         /\ rating_as_driver twice = 2.34%float
         /\ rating_as_passenger twice = 0%float
         /\ map rating_as_driver (users w2) = [2.34%float]).
Proof.
  split; [|split; [|split]].
  - intros self new_rating. repeat split.
  - intros self new_rating as_driver w. unfold update_rating.
    pose proof (save_returns (rated self new_rating as_driver) w) as H.
    destruct (save _ w) as [w' [saved|e]]; [|exact H].
    destruct H as (Hin & key & created & updated & ->).
    split; [exact Hin|]. split; reflexivity.
  - intros n s Hn Hs.
    assert (Hin : In s [1; 2; 3; 4; 5]).
    { assert (E : s = 1 \/ s = 2 \/ s = 3 \/ s = 4 \/ s = 5) by lia.
      simpl. intuition auto. }
    assert (Hn' : 0 <= n <= Z.of_nat 500) by lia.
    assert (Hscale : In (n, hundredths n) two_decimals).
    { unfold two_decimals. apply in_map_iff. exists n.
      split; [reflexivity | exact (In_up_to 500 n Hn')]. }
    destruct (rounds_to_nearest_spec two_decimals (n, hundredths n) s
                rounds_to_nearest_holds Hscale Hin)
      as (m & p & q & Hm & Hx & Hq & Hnear).
    apply nearest_hundredth_spec in Hnear as [Hle Htie].
    exists m, p, q. repeat split; assumption.
  - repeat (split; [vm_compute; reflexivity|]).
    do 4 eexists.
    split; [vm_compute; reflexivity|].
    split; [vm_compute; reflexivity|].
    split; [vm_compute; reflexivity|].
    split; [vm_compute; reflexivity|].
    split; [vm_compute; reflexivity|].
    split; vm_compute; reflexivity.
Qed.

(** *** [cleanup_expired_registrations] *)

Lemma QuerySet_delete_ext (q q' : User -> bool) (w : World) :
  (forall u, q u = q' u) -> QuerySet_delete q w = QuerySet_delete q' w.
Proof.
  intros Hq. unfold QuerySet_delete.
  assert (Hf : filter q (users w) = filter q' (users w))
    by (apply filter_ext; exact Hq).
  assert (Hn : filter (fun u => negb (q u)) (users w)
               = filter (fun u => negb (q' u)) (users w))
    by (apply filter_ext; intros u; now rewrite Hq).
  now rewrite Hf, Hn.
Qed.

Lemma Q_holds_cleanup (e p : option string) (now : datetime) (u : User) :
  Q_holds
    (if truthy_opt e || truthy_opt p then
       Q_or (Some (fun u => registration_pending u
                            && (created_at u <? now - timedelta_minutes 5)))
         (let specific_query : Q := None in
          let specific_query :=
            if truthy_opt e
            then Q_or specific_query
                   (Some (fun u => String.eqb (email u) (field_or e "")
                                   && registration_pending u))
            else specific_query in
          if truthy_opt p
          then Q_or specific_query
                 (Some (fun u => String.eqb (phone_number u) (field_or p "")
                                 && registration_pending u))
          else specific_query)
     else Some (fun u => registration_pending u
                         && (created_at u <? now - timedelta_minutes 5)))
    u
  = reclaimed e p now u.
Proof.
  unfold reclaimed.
  destruct (truthy_opt e), (truthy_opt p); simpl;
    destruct (registration_pending u), (created_at u <? now - timedelta_minutes 5);
    simpl; rewrite ?andb_true_r, ?andb_false_r, ?orb_false_r; reflexivity.
Qed.

Lemma cleanup_expired_registrations_unfold (e p : option string) (w : World) :
  exists w1,
    timezone_now w = (w1, Ok (clock w1))
    /\ cleanup_expired_registrations e p w
       = QuerySet_delete (reclaimed e p (clock w1)) w1.
Proof.
  destruct (timezone_now_returns w) as (w1 & Hnow & _).
  exists w1. split; [exact Hnow|].
  unfold cleanup_expired_registrations. run. rewrite Hnow.
  apply QuerySet_delete_ext. intros u. apply Q_holds_cleanup.
Qed.

Lemma QuerySet_delete_count (q : User -> bool) (w : World) :
  exists n,
    snd (QuerySet_delete q w) = Ok n
    /\ (n + row_count (fst (QuerySet_delete q w)) = row_count w)%nat.
Proof.
  unfold QuerySet_delete, row_count. simpl. eexists. split; [reflexivity|].
  repeat match goal with
         | |- context [List.length (filter ?f ?l)] =>
             let H := fresh in
             pose proof (filter_length_le f l) as H;
             generalize dependent (List.length (filter f l)); intros
         end.
  lia.
Qed.

Lemma QuerySet_delete_users (q : User -> bool) (w : World) :
  users (fst (QuerySet_delete q w)) = filter (fun u => negb (q u)) (users w).
Proof. reflexivity. Qed.

Lemma QuerySet_delete_clock (q : User -> bool) (w : World) :
  clock (fst (QuerySet_delete q w)) = clock w.
Proof. reflexivity. Qed.

(** [cleanup_expired_registrations] returns; a user row remains exactly
    when it was there and the query does not select it; the value is the
    number of rows the store lost. *)
Lemma cleanup_expired_registrations_effect
    (email_arg phone_arg : option string) (w : World) :
  let w' := fst (cleanup_expired_registrations email_arg phone_arg w) in
  exists n,
    snd (cleanup_expired_registrations email_arg phone_arg w) = Ok n
    /\ (forall u, In u (users w') <->
                  In u (users w)
                  /\ reclaimed email_arg phone_arg (clock w') u = false)
    /\ (n + row_count w' = row_count w)%nat.
Proof.
  destruct (cleanup_expired_registrations_unfold email_arg phone_arg w)
    as (w1 & Hnow & ->).
  destruct (timezone_now_returns w)
    as (w1' & Hnow' & Hu & Ho & Hr & Hq & Hg & Hc & _).
  rewrite Hnow in Hnow'. injection Hnow' as <-.
  cbv zeta. rewrite QuerySet_delete_clock.
  destruct (QuerySet_delete_count (reclaimed email_arg phone_arg (clock w1)) w1)
    as (n & Hn & Hcount).
  exists n. split; [exact Hn|]. split.
  - intros u. rewrite QuerySet_delete_users, filter_In, Hu, negb_true_iff.
    reflexivity.
  - unfold row_count in *. rewrite <- Hu, <- Ho, <- Hr, <- Hq, <- Hg, <- Hc.
    exact Hcount.
Qed.

(** C3.  What [cleanup_expired_registrations] does, and where it leaves
    the claim.  It returns the number of rows the store lost, rows of
    other tables removed by cascade included.  A user row survives
    exactly when it is not pending, or is within the grace window and
    carries neither the email nor the phone number given: every expired
    pending row is deleted, and so is every pending row of the given
    identity, expired or not, the most recent one included.  Alice's
    pending registration is one minute old and the only one with her
    email, hence the most recent; the cleanup called with her email
    deletes it and returns 1. *)
Theorem cleanup_deletes_most_recent_pending_registration :
  (forall email_arg phone_arg w,
      let w' := fst (cleanup_expired_registrations email_arg phone_arg w) in
      exists n,
        snd (cleanup_expired_registrations email_arg phone_arg w) = Ok n
        /\ (forall u,
               In u (users w') <->
               In u (users w)
               /\ (registration_pending u = false
                   \/ (clock w' - timedelta_minutes 5 <= created_at u
                       /\ ~ (truthy_opt email_arg = true
                             /\ email u = field_or email_arg "")
                       /\ ~ (truthy_opt phone_arg = true
                             /\ phone_number u = field_or phone_arg ""))))
        /\ (n + row_count w' = row_count w)%nat)
  /\ (let call :=
        cleanup_expired_registrations (Some "alice@example.com") None
          alice_waiting in
      map email (users alice_waiting) = ["alice@example.com"]
      /\ map registration_pending (users alice_waiting) = [true]
      /\ map (expired_at (clock (fst call))) (users alice_waiting) = [false]
      /\ users (fst call) = []
      /\ snd call = Ok 1%nat).
Proof.
  split; [|vm_compute; repeat split].
  intros email_arg phone_arg w.
  destruct (cleanup_expired_registrations_effect email_arg phone_arg w)
    as (n & Hn & Hiff & Hcount).
  cbv zeta in *. exists n. split; [exact Hn|]. split; [|exact Hcount].
  intros u. rewrite Hiff. unfold reclaimed.
  set (now := clock (fst (cleanup_expired_registrations email_arg phone_arg w))).
  split; intros [Hin H]; (split; [exact Hin|]).
  - destruct (registration_pending u); [right | now left].
    simpl in H. apply orb_false_iff in H as [H Hphone].
    apply orb_false_iff in H as [Hold Hemail].
    apply Z.ltb_ge in Hold. split; [lia|].
    split; intros [Ht He]; rewrite Ht in *; simpl in *;
      apply String.eqb_neq in Hemail || apply String.eqb_neq in Hphone;
      contradiction.
  - destruct H as [-> | (Hold & Hemail & Hphone)]; [reflexivity|].
    apply andb_false_iff. right.
    apply orb_false_iff. split; [apply orb_false_iff; split|].
    + apply Z.ltb_ge. lia.
    + destruct (truthy_opt email_arg); [simpl | reflexivity].
      apply String.eqb_neq. intros He. apply Hemail. now split.
    + destruct (truthy_opt phone_arg); [simpl | reflexivity].
      apply String.eqb_neq. intros He. apply Hphone. now split.
Qed.

(** *** [create_user] *)

Lemma normalize_email_truthy (e : string) :
  truthy e = true -> truthy (normalize_email e) = true.
Proof.
  intros H. unfold normalize_email.
  destruct (rsplit_at (strip e)) as [[name domain]|]; [|exact H].
  destruct name; reflexivity.
Qed.

Lemma filter_none {A} (f : A -> bool) (l : list A) :
  (forall x, In x l -> f x = false) -> filter f l = [].
Proof.
  induction l as [|x l IH]; intros H; [reflexivity|]. simpl.
  rewrite (H x (or_introl eq_refl)). apply IH. intros y Hy. apply H. now right.
Qed.

(** After its cleanup, [create_user] finds no pending registration of
    the email, whatever the clock says: the cleanup has just deleted
    them all.  The call goes on to validate and save the new instance. *)
Lemma create_user_proceeds (dj : Django) (e : string) (p : option string)
    (k : kwargs) (w : World) :
  truthy e = true ->
  exists n w1 w2,
    cleanup_expired_registrations (Some (normalize_email e)) None w
    = (w1, Ok n)
    /\ timezone_now w1 = (w2, Ok (clock w2))
    /\ users w2 = users w1
    /\ create_user dj e p k w
       = try_except
           (full_clean dj (submitted dj e p k) ;;; save (submitted dj e p k))
           on_save_error w2.
Proof.
  intros He. pose proof (normalize_email_truthy e He) as Hn.
  destruct (cleanup_expired_registrations_effect
              (Some (normalize_email e)) None w) as (n & Hres & Hiff & _).
  destruct (cleanup_expired_registrations (Some (normalize_email e)) None w)
    as [w1 r] eqn:Hc.
  simpl in Hres, Hiff. subst r.
  destruct (timezone_now_returns w1) as (w2 & Hnow & Hu & _).
  exists n, w1, w2. repeat split; try assumption.
  unfold create_user. rewrite He.
  cbv beta iota zeta delta [negb bind ret raise gets try_except].
  rewrite Hc, Hnow.
  rewrite filter_none; [reflexivity|].
  intros u Hin. rewrite Hu in Hin. apply Hiff in Hin as [_ Hrec].
  unfold reclaimed in Hrec. simpl in Hrec. rewrite Hn in Hrec.
  simpl in Hrec. rewrite orb_false_r in Hrec.
  destruct (registration_pending u); [|now rewrite andb_false_r].
  simpl in Hrec. apply orb_false_iff in Hrec as [_ ->]. reflexivity.
Qed.

Lemma full_clean_raises (dj : Django) (u : User) (w : World) :
  fst (full_clean dj u w) = w
  /\ (snd (full_clean dj u w) = Ok tt
      \/ snd (full_clean dj u w) = Raise ValidationError).
Proof.
  unfold full_clean. run.
  match goal with |- context [if ?c then _ else _] => destruct c end;
    simpl; auto.
Qed.

(** [create_user] raises nothing but the missing-email error, a
    validation error, or the duplicate-account error: neither of the two
    "verification pending" errors can come out of it. *)
Lemma create_user_exceptions (dj : Django) (e : string) (p : option string)
    (k : kwargs) (w : World) :
  match snd (create_user dj e p k w) with
  | Ok _ => True
  | Raise x =>
      x = ValueError Email_is_required
      \/ x = ValidationError
      \/ x = ValueError An_account_with_this_email_already_exists
  end.
Proof.
  destruct (truthy e) eqn:He.
  - destruct (create_user_proceeds dj e p k w He) as (n & w1 & w2 & _ & _ & _ & ->).
    run. destruct (full_clean_raises dj (submitted dj e p k) w2) as [Hw Hr].
    destruct (full_clean dj (submitted dj e p k) w2) as [w3 r].
    simpl in Hw, Hr. subst w3.
    destruct Hr as [-> | ->]; [|simpl; auto].
    pose proof (save_returns (submitted dj e p k) w2) as Hs.
    destruct (save (submitted dj e p k) w2) as [w4 [saved|x]]; [exact I|].
    subst x. simpl. auto.
  - unfold create_user. rewrite He. simpl. auto.
Qed.

(** C1, on the code.  Alice's pending registration is one minute old,
    so four minutes of the grace window remain.  A second [create_user]
    with her email does not raise: its cleanup deletes her pending row,
    the search for a blocking registration then finds nothing, and a new
    row is stored under the key 2. *)
Theorem create_user_overwrites_live_pending_registration :
  let call :=
    create_user example_django "alice@example.com" (Some "secret")
      (with_phone "5550100") alice_waiting in
  map identity (users alice_waiting)
  = [("alice@example.com", "5550100", true)]
  /\ map pk (users alice_waiting) = [Some 1%nat]
  /\ map (expired_at (clock (fst call))) (users alice_waiting) = [false]
  /\ (exists u, snd call = Ok u /\ pk u = Some 2%nat
                /\ identity u = ("alice@example.com", "5550100", true))
  /\ map pk (users (fst call)) = [Some 2%nat].
Proof.
  vm_compute. repeat split. eexists. repeat split.
Qed.

Lemma same_rows_refl (w : World) : same_rows w w.
Proof. unfold same_rows. repeat split; auto. Qed.

Lemma same_rows_trans (w1 w2 w3 : World) :
  same_rows w1 w2 -> same_rows w2 w3 -> same_rows w1 w3.
Proof.
  unfold same_rows.
  intros (A1 & A2 & A3 & A4 & A5 & A6 & A7) (B1 & B2 & B3 & B4 & B5 & B6 & B7).
  repeat split; try congruence.
  intros t. specialize (A7 t). specialize (B7 t). lia.
Qed.

Lemma timezone_now_same_rows (w : World) :
  exists w', timezone_now w = (w', Ok (clock w')) /\ same_rows w w'.
Proof.
  destruct (timezone_now_returns w)
    as (w' & H & A1 & A2 & A3 & A4 & A5 & A6 & A7 & _).
  exists w'. split; [exact H|]. unfold same_rows. rewrite A7.
  repeat split; auto.
Qed.

Lemma nextval_same_rows (t : table) (w : World) :
  same_rows w (fst (nextval t w)) /\ snd (nextval t w) = Ok (sequence w t)
  /\ (sequence w t < sequence (fst (nextval t w)) t)%nat.
Proof.
  unfold nextval, same_rows. simpl. repeat split; auto.
  - intros t'. destruct (table_eqb t' t) eqn:E; [|lia].
    destruct t', t; try discriminate; lia.
  - destruct t; simpl; lia.
Qed.

(** What an INSERT of a user does: the clock is read twice, a key is
    taken, and the row is appended unless the store refuses it. *)
Lemma insert_user_spec (u : User) (w : World) :
  exists w' key created updated,
    same_rows w w'
    /\ insert_user u w
       = if has_pk pk key (users w)
            || negb (user_row_accepted (users w)
                       (stored_as key created updated u))
         then (w', Raise IntegrityError)
         else (set_users (users w ++ [stored_as key created updated u]) w',
               Ok (stored_as key created updated u)).
Proof.
  unfold insert_user.
  destruct (timezone_now_same_rows w) as (w1 & H1 & S1).
  destruct (timezone_now_same_rows w1) as (w2 & H2 & S2).
  pose proof (same_rows_trans _ _ _ S1 S2) as S12.
  cbv beta iota zeta delta [bind ret raise gets modify].
  rewrite H1, H2.
  destruct (pk u) as [i|].
  - exists w2, i, (clock w1), (clock w2). split; [exact S12|].
    destruct S12 as (-> & _).
    match goal with |- context [if ?c then _ else _] => destruct c end;
      reflexivity.
  - destruct (nextval_same_rows T_user w2) as (S3 & _ & _).
    exists (fst (nextval T_user w2)), (sequence w2 T_user), (clock w1), (clock w2).
    split; [exact (same_rows_trans _ _ _ S12 S3)|].
    unfold nextval. cbv beta iota zeta. cbn [users set_sequence fst].
    destruct S12 as (-> & _).
    match goal with |- context [if ?c then _ else _] => destruct c end;
      reflexivity.
Qed.

Lemma submitted_fields (dj : Django) (e : string) (p : option string)
    (k : kwargs) :
  let u := submitted dj e p k in
  pk u = None /\ state_adding u = true /\ email u = normalize_email e
  /\ phone_number u = field_or (kw_phone_number k) ""
  /\ registration_pending u = field_or (kw_registration_pending k) true
  /\ is_active u = field_or (kw_is_active k) false.
Proof.
  unfold submitted. cbv zeta. destruct k as [? ? ? act ? ? pend ? ? ?].
  destruct (truthy_opt p), pend, act; simpl; repeat split.
Qed.

Lemma full_clean_new_instance (dj : Django) (u : User) (w : World) :
  state_adding u = true -> pk u = None ->
  full_clean dj u w
  = (w, if negb (clean_fields dj u) || email_taken (users w) u
           || full_clean_validates_constraints dj
              && (unique_verified_email_violated (users w) u
                  || unique_verified_phone_violated (users w) u)
        then Raise ValidationError
        else Ok tt).
Proof.
  intros Ha Hk. unfold full_clean, validation_peers.
  cbv beta iota zeta delta [bind ret raise gets]. rewrite Ha, Hk.
  rewrite orb_false_r.
  match goal with |- context [if ?c then _ else _] => destruct c end;
    reflexivity.
Qed.

Lemma existsb_intro {A} (f : A -> bool) (l : list A) (x : A) :
  In x l -> f x = true -> existsb f l = true.
Proof. intros. apply existsb_exists. eauto. Qed.

(** C8, as the code has it.  When a confirmed (non-pending) row holds the
    normalized email, or holds the phone number while the new account is
    asked to be non-pending ([registration_pending=False]), [create_user]
    raises: the exception is the [ValidationError] of [full_clean] or the
    duplicate-account [ValueError], and the store gains no user row. *)
Theorem create_user_refuses_confirmed_duplicate
    (dj : Django) (e : string) (p : option string) (k : kwargs) (w : World)
    (r : User) :
  truthy e = true ->
  In r (users w) ->
  registration_pending r = false ->
  email r = normalize_email e
  \/ (kw_registration_pending k = Some false
      /\ phone_number r = field_or (kw_phone_number k) "") ->
  exists x,
    snd (create_user dj e p k w) = Raise x
    /\ (x = ValidationError
        \/ x = ValueError An_account_with_this_email_already_exists)
    /\ (forall u, In u (users (fst (create_user dj e p k w))) ->
                  In u (users w)).
Proof.
  intros He Hin Hconf Hdup.
  destruct (create_user_proceeds dj e p k w He)
    as (n & w1 & w2 & Hc & Hnow & Hu & ->).
  destruct (cleanup_expired_registrations_effect
              (Some (normalize_email e)) None w) as (n' & _ & Hiff & _).
  rewrite Hc in Hiff. simpl in Hiff.
  assert (Hsub : forall u, In u (users w2) -> In u (users w))
    by (intros u Hu2; rewrite Hu in Hu2; now apply Hiff in Hu2).
  assert (Hr2 : In r (users w2)).
  { rewrite Hu. apply Hiff. split; [exact Hin|].
    unfold reclaimed. now rewrite Hconf. }
  destruct (submitted_fields dj e p k) as (Hk & Ha & Hem & Hph & Hpe & _).
  set (U := submitted dj e p k) in *.
  unfold try_except, bind.
  rewrite (full_clean_new_instance dj U w2 Ha Hk).
  destruct (negb (clean_fields dj U) || email_taken (users w2) U
            || full_clean_validates_constraints dj
               && (unique_verified_email_violated (users w2) U
                   || unique_verified_phone_violated (users w2) U)) eqn:Hv.
  - exists ValidationError. simpl. auto.
  - apply orb_false_iff in Hv as [Hv _].
    apply orb_false_iff in Hv as [_ Htaken].
    destruct Hdup as [Hsame | [Hkw Hphone]].
    + exfalso. unfold email_taken in Htaken.
      rewrite (existsb_intro _ _ r Hr2) in Htaken; [discriminate|].
      rewrite Hem, Hsame. apply String.eqb_refl.
    + rewrite Hkw in Hpe. simpl in Hpe.
      unfold save. cbn [with_is_driver_verified state_adding registration_pending].
      rewrite Ha, Hpe. cbv beta iota zeta delta [andb bind ret].
      unfold Model_save. cbn [with_is_driver_verified pk]. rewrite Hk.
      destruct (insert_user_spec
                  (with_is_driver_verified (truthy (drivers_license_image U)) U)
                  w2)
        as (w3 & key & created & updated & Hsame & ->).
      assert (Hbad : user_row_accepted (users w2)
                       (stored_as key created updated
                          (with_is_driver_verified
                             (truthy (drivers_license_image U)) U))
                     = false).
      { unfold user_row_accepted, unique_verified_phone_violated.
        cbn [stored_as with_is_driver_verified registration_pending
             phone_number].
        rewrite Hpe. cbn [negb andb].
        rewrite (existsb_intro _ _ r Hr2);
          [now rewrite andb_false_r|].
        rewrite Hconf, Hph, Hphone. cbn [negb andb]. apply String.eqb_refl. }
      rewrite Hbad, orb_true_r. simpl.
      exists (ValueError An_account_with_this_email_already_exists).
      split; [reflexivity|]. split; [now right|].
      intros u Hu3. destruct Hsame as (Hu' & _). rewrite Hu' in Hu3. auto.
Qed.

Lemma create_user_refuses_confirmed_duplicate_witness :
  truthy "bob@example.com" = true
  /\ In bob_row (users bob_confirmed)
  /\ registration_pending bob_row = false
  /\ exists x,
       snd (create_user example_django "bob@example.com" (Some "secret")
              (with_phone "5550199") bob_confirmed) = Raise x
       /\ (x = ValidationError
           \/ x = ValueError An_account_with_this_email_already_exists)
       /\ (forall u,
              In u (users (fst (create_user example_django "bob@example.com"
                                  (Some "secret") (with_phone "5550199")
                                  bob_confirmed))) ->
              In u (users bob_confirmed)).
Proof.
  split; [reflexivity|].
  split; [left; reflexivity|].
  split; [reflexivity|].
  apply (create_user_refuses_confirmed_duplicate example_django
           "bob@example.com" (Some "secret") (with_phone "5550199")
           bob_confirmed bob_row).
  - reflexivity.
  - left. reflexivity.
  - reflexivity.
  - left. reflexivity.
Defined.

(** C8, against the claim as written: Bob's confirmed account holds the
    phone number 5550100; [create_user] for Carol with that phone number
    returns, and the store has a second row with that number.  This is so
    whether or not [full_clean] validates the constraints. *)
Lemma create_user_accepts_phone_of_confirmed_account :
  let call dj :=
    create_user dj "carol@example.com" (Some "secret") (with_phone "5550100")
      bob_confirmed in
  map identity (users bob_confirmed) = [("bob@example.com", "5550100", false)]
  /\ (exists u, snd (call example_django) = Ok u
                /\ identity u = ("carol@example.com", "5550100", true))
  /\ map identity (users (fst (call example_django)))
     = [("bob@example.com", "5550100", false);
        ("carol@example.com", "5550100", true)]
  /\ (exists u, snd (call legacy_django) = Ok u
                /\ identity u = ("carol@example.com", "5550100", true))
  /\ map identity (users (fst (call legacy_django)))
     = [("bob@example.com", "5550100", false);
        ("carol@example.com", "5550100", true)].
Proof.
  vm_compute. repeat split; eexists; repeat split.
Qed.

(** *** [create_superuser] *)

(** An account [create_user] returns is stored, and its two lifecycle
    flags are the keyword arguments, or the defaults of [create_user]. *)
Lemma create_user_flags (dj : Django) (e : string) (p : option string)
    (k : kwargs) (w : World) (u : User) :
  snd (create_user dj e p k w) = Ok u ->
  In u (users (fst (create_user dj e p k w)))
  /\ is_active u = field_or (kw_is_active k) false
  /\ registration_pending u = field_or (kw_registration_pending k) true.
Proof.
  destruct (truthy e) eqn:He.
  - destruct (create_user_proceeds dj e p k w He)
      as (n & w1 & w2 & _ & _ & _ & ->).
    destruct (submitted_fields dj e p k) as (_ & _ & _ & _ & Hpe & Hact).
    set (U := submitted dj e p k) in *.
    unfold try_except, bind.
    destruct (full_clean_raises dj U w2) as [Hw Hr].
    destruct (full_clean dj U w2) as [w3 r]. simpl in Hw, Hr. subst w3.
    destruct Hr as [-> | ->]; [|discriminate].
    pose proof (save_returns U w2) as Hs.
    destruct (save U w2) as [w4 [saved|x]].
    + simpl. intros [= <-].
      destruct Hs as (Hin & key & created & updated & ->).
      split; [exact Hin|]. simpl. auto.
    + subst x. discriminate.
  - unfold create_user. rewrite He. discriminate.
Qed.

(** C10, as the code has it.  An account that [create_superuser] returns,
    when the caller passes no [registration_pending] and does not pass
    [is_active=False], is stored with [is_active] true and
    [registration_pending] true. *)
Theorem create_superuser_active_while_pending
    (dj : Django) (e : string) (p : option string) (k : kwargs) (w : World)
    (u : User) :
  kw_registration_pending k = None ->
  kw_is_active k <> Some false ->
  snd (create_superuser dj e p k w) = Ok u ->
  In u (users (fst (create_superuser dj e p k w)))
  /\ is_active u = true
  /\ registration_pending u = true.
Proof.
  intros Hpe Hact. unfold create_superuser.
  destruct k as [sup staff ph act ev pv pend img rd rp]. simpl in Hpe, Hact.
  subst pend.
  destruct act as [[|]|]; [|congruence|]; cbn;
    destruct staff as [[|]|]; cbn; try discriminate;
    destruct sup as [[|]|]; cbn; try discriminate;
    intros H; apply create_user_flags in H; exact H.
Qed.

Lemma create_superuser_active_while_pending_witness :
  kw_registration_pending (with_phone "5550123") = None
  /\ kw_is_active (with_phone "5550123") <> Some false
  /\ snd (create_superuser example_django "root@example.com" (Some "secret")
            (with_phone "5550123") (empty_store 0)) = Ok root_account
  /\ In root_account
       (users (fst (create_superuser example_django "root@example.com"
                      (Some "secret") (with_phone "5550123")
                      (empty_store 0))))
  /\ is_active root_account = true
  /\ registration_pending root_account = true.
Proof.
  split; [reflexivity|]. split; [discriminate|]. split; [reflexivity|].
  apply (create_superuser_active_while_pending example_django
           "root@example.com" (Some "secret") (with_phone "5550123")
           (empty_store 0) root_account);
    [reflexivity | discriminate | reflexivity].
Defined.

(** C10, against the claim as written: the caller passes [is_active=False]
    and no [registration_pending]; [setdefault] keeps the caller's value,
    and the superuser is created inactive and pending. *)
Lemma create_superuser_keeps_is_active_override :
  kw_registration_pending inactive = None
  /\ exists u,
       snd (create_superuser example_django "root@example.com" (Some "secret")
              inactive (empty_store 0)) = Ok u
       /\ is_superuser u = true
       /\ is_active u = false
       /\ registration_pending u = true.
Proof.
  split; [reflexivity|]. eexists. vm_compute. repeat split.
Qed.

(** *** Keyed tables *)

Section Keyed.

Context {R : Type} (pk_of : R -> option nat).

Lemma key_eqb_eq (a b : option nat) : key_eqb a b = true <-> a = b.
Proof.
  destruct a as [i|], b as [j|]; simpl; try (split; congruence).
  rewrite Nat.eqb_eq. split; congruence.
Qed.

Lemma has_pk_false (i : nat) (rows : list R) :
  has_pk pk_of i rows = false -> ~ In (Some i) (map pk_of rows).
Proof.
  unfold has_pk. intros H Hin. apply in_map_iff in Hin as (r & Hr & Hin).
  rewrite (existsb_intro _ _ r Hin) in H; [discriminate|].
  now apply key_eqb_eq.
Qed.

Lemma has_pk_true (i : nat) (rows : list R) :
  has_pk pk_of i rows = true <-> exists r, In r rows /\ pk_of r = Some i.
Proof.
  unfold has_pk. rewrite existsb_exists.
  split; intros (r & Hin & H); exists r; (split; [exact Hin|]);
    now apply key_eqb_eq.
Qed.

Lemma keys_app (i : nat) (row : R) (rows : list R) :
  NoDup (map pk_of rows) -> has_pk pk_of i rows = false ->
  pk_of row = Some i -> NoDup (map pk_of (rows ++ [row])).
Proof.
  intros Hnd Hpk Hrow. rewrite map_app. simpl.
  apply NoDup_app_remove_l with (l := []). simpl.
  apply NoDup_rev in Hnd.
  rewrite <- (rev_involutive (map pk_of rows ++ [pk_of row])).
  apply NoDup_rev. rewrite rev_app_distr. simpl. constructor; [|exact Hnd].
  rewrite <- in_rev, Hrow. now apply has_pk_false.
Qed.

Lemma keys_replace (i : nat) (row : R) (rows : list R) :
  pk_of row = Some i ->
  map pk_of (replace_pk pk_of i row rows) = map pk_of rows.
Proof.
  intros Hrow. unfold replace_pk. rewrite map_map. apply map_ext_in.
  intros r _. destruct (key_eqb (pk_of r) (Some i)) eqn:E; [|reflexivity].
  apply key_eqb_eq in E. congruence.
Qed.

Lemma keys_filter (f : R -> bool) (rows : list R) :
  NoDup (map pk_of rows) -> NoDup (map pk_of (filter f rows)).
Proof.
  induction rows as [|r rows IH]; simpl; intros H; [constructor|].
  inversion H as [|? ? Hnotin Hnd]; subst.
  destruct (f r); simpl; [|auto].
  constructor; [|auto].
  intros Hin. apply Hnotin. apply in_map_iff in Hin as (x & Hx & Hin).
  apply filter_In in Hin as [Hin _]. apply in_map_iff. eauto.
Qed.

Lemma In_exclude_pk (i : nat) (rows : list R) (x : R) :
  In x (exclude_pk pk_of i rows) <-> In x rows /\ pk_of x <> Some i.
Proof.
  unfold exclude_pk. rewrite filter_In, negb_true_iff.
  split; intros [Hin H]; (split; [exact Hin|]).
  - intros E. apply key_eqb_eq in E. congruence.
  - destruct (key_eqb (pk_of x) (Some i)) eqn:E; [|reflexivity].
    apply key_eqb_eq in E. contradiction.
Qed.

Lemma In_replace_pk (i : nat) (row : R) (rows : list R) (x : R) :
  In x (replace_pk pk_of i row rows) ->
  x = row \/ In x (exclude_pk pk_of i rows).
Proof.
  unfold replace_pk. intros Hin. apply in_map_iff in Hin as (r & Hr & Hin).
  destruct (key_eqb (pk_of r) (Some i)) eqn:E; [left; congruence|].
  right. subst x. apply In_exclude_pk. split; [exact Hin|].
  intros H. apply key_eqb_eq in H. congruence.
Qed.

Variable same : R -> R -> bool.
Hypothesis same_sym : forall a b, same a b = same b a.

Lemma unique_by_filter (f : R -> bool) (rows : list R) :
  unique_by pk_of same rows -> unique_by pk_of same (filter f rows).
Proof.
  intros H a b Ha Hb. apply filter_In in Ha as [Ha _].
  apply filter_In in Hb as [Hb _]. now apply H.
Qed.

Lemma unique_by_app (row : R) (rows : list R) :
  unique_by pk_of same rows ->
  (forall r, In r rows -> same r row = false) ->
  unique_by pk_of same (rows ++ [row]).
Proof.
  intros H Hnew a b Ha Hb Hs.
  apply in_app_or in Ha as [Ha | [<- | []]];
    apply in_app_or in Hb as [Hb | [<- | []]].
  - now apply H.
  - rewrite (Hnew a Ha) in Hs. discriminate.
  - rewrite same_sym, (Hnew b Hb) in Hs. discriminate.
  - reflexivity.
Qed.

Lemma unique_by_replace (i : nat) (row : R) (rows : list R) :
  unique_by pk_of same rows ->
  (forall r, In r (exclude_pk pk_of i rows) -> same r row = false) ->
  unique_by pk_of same (replace_pk pk_of i row rows).
Proof.
  intros H Hnew a b Ha Hb Hs.
  apply In_replace_pk in Ha as [-> | Ha];
    apply In_replace_pk in Hb as [-> | Hb].
  - reflexivity.
  - rewrite same_sym, (Hnew b Hb) in Hs. discriminate.
  - rewrite (Hnew a Ha) in Hs. discriminate.
  - apply In_exclude_pk in Ha as [Ha _]. apply In_exclude_pk in Hb as [Hb _].
    now apply H.
Qed.

(** With distinct keys, rows that all have one key are at most one. *)
Lemma at_most_one (rows : list R) :
  NoDup (map pk_of rows) ->
  (forall a b, In a rows -> In b rows -> pk_of a = pk_of b) ->
  (List.length rows <= 1)%nat.
Proof.
  destruct rows as [|a [|b rows]]; simpl; intros Hnd H; try lia.
  exfalso. inversion Hnd as [|? ? Hnotin _]; subst. apply Hnotin.
  left. symmetry. apply H; auto.
Qed.

End Keyed.

(** *** Invariants of the reachable stores *)

Lemma preserves_ret {A} (I : World -> Prop) (a : A) : preserves I (ret a).
Proof. intros w Hw. exact Hw. Qed.

Lemma preserves_raise {A} (I : World -> Prop) (e : exn) :
  preserves I (@raise A e).
Proof. intros w Hw. exact Hw. Qed.

Lemma preserves_gets {A} (I : World -> Prop) (f : World -> A) :
  preserves I (gets f).
Proof. intros w Hw. exact Hw. Qed.

Lemma preserves_bind {A B} (I : World -> Prop) (m : M A) (k : A -> M B) :
  preserves I m -> (forall a, preserves I (k a)) -> preserves I (bind m k).
Proof.
  intros Hm Hk w Hw. unfold bind. specialize (Hm w Hw).
  destruct (m w) as [w' [a|e]]; simpl in *; [now apply Hk | exact Hm].
Qed.

Lemma preserves_try_except {A} (I : World -> Prop) (m : M A)
    (handler : exn -> M A) :
  preserves I m -> (forall e, preserves I (handler e)) ->
  preserves I (try_except m handler).
Proof.
  intros Hm Hh w Hw. unfold try_except. specialize (Hm w Hw).
  destruct (m w) as [w' [a|e]]; simpl in *; [exact Hm | now apply Hh].
Qed.

Lemma preserves_frame {A} (I : World -> Prop) (m : M A) :
  (forall w w', same_rows w w' -> I w -> I w') ->
  (forall w, same_rows w (fst (m w))) ->
  preserves I m.
Proof. intros Hf Hm w Hw. exact (Hf _ _ (Hm w) Hw). Qed.

Lemma timezone_now_frame (w : World) : same_rows w (fst (timezone_now w)).
Proof. destruct (timezone_now_same_rows w) as (w' & -> & H). exact H. Qed.

Lemma nextval_frame (t : table) (w : World) : same_rows w (fst (nextval t w)).
Proof. apply nextval_same_rows. Qed.

Lemma randint_frame (lo hi : nat) (w : World) :
  same_rows w (fst (randint lo hi w)).
Proof.
  unfold randint. destruct (dice w); simpl; [apply same_rows_refl|].
  unfold same_rows. simpl. repeat split; auto.
Qed.

Lemma supply_frame (delays : list N) (draws : list nat) (w : World) :
  same_rows w (supply delays draws w).
Proof. unfold supply, same_rows. simpl. repeat split; auto. Qed.

(** The inherited [save] keeps what the key sequence, an accepted INSERT
    and an accepted UPDATE keep. *)
Lemma save_row_preserves {R} (pk_of : R -> option nat)
    (with_pk : nat -> R -> R) (tbl : table) (rows_of : World -> list R)
    (set_rows : list R -> World -> World)
    (accepted : World -> list R -> R -> bool) (I : World -> Prop) :
  (forall key r, pk_of (with_pk key r) = Some key) ->
  preserves I (nextval tbl) ->
  (forall w key row,
      I w -> pk_of row = Some key -> has_pk pk_of key (rows_of w) = false ->
      accepted w (rows_of w) row = true ->
      I (set_rows (rows_of w ++ [row]) w)) ->
  (forall w i row,
      I w -> pk_of row = Some i -> has_pk pk_of i (rows_of w) = true ->
      accepted w (exclude_pk pk_of i (rows_of w)) row = true ->
      I (set_rows (replace_pk pk_of i row (rows_of w)) w)) ->
  forall r, preserves I (save_row pk_of with_pk tbl rows_of set_rows accepted r).
Proof.
  intros Hkey Hnext Hins Hupd r.
  assert (Hinsert : preserves I
                      (insert_row pk_of with_pk tbl rows_of set_rows accepted r)).
  { unfold insert_row. apply preserves_bind.
    - destruct (pk_of r); [apply preserves_ret | exact Hnext].
    - intros key w Hw. cbv beta iota zeta delta [bind gets modify ret raise].
      destruct (has_pk pk_of key (rows_of w)) eqn:Hpk; [exact Hw|].
      destruct (accepted w (rows_of w) (with_pk key r)) eqn:Hacc;
        simpl; [|exact Hw].
      apply (Hins w key); auto. }
  unfold save_row. destruct (pk_of r) as [i|] eqn:Hr; [|exact Hinsert].
  intros w Hw. cbv beta iota zeta delta [bind gets].
  destruct (has_pk pk_of i (rows_of w)) eqn:Hpk; [|now apply Hinsert].
  destruct (accepted w (exclude_pk pk_of i (rows_of w)) r) eqn:Hacc;
    simpl; [|exact Hw].
  now apply Hupd.
Qed.

Section Invariant.

Variable dj : Django.
Variable I : World -> Prop.

Hypothesis I_frame : forall w w', same_rows w w' -> I w -> I w'.
Hypothesis I_delete : forall q, preserves I (QuerySet_delete q).
Hypothesis I_insert : forall w key row,
    I w -> pk row = Some key -> has_pk pk key (users w) = false ->
    user_row_accepted (users w) row = true ->
    I (set_users (users w ++ [row]) w).
Hypothesis I_update : forall w i row,
    I w -> pk row = Some i -> has_pk pk i (users w) = true ->
    user_row_accepted (exclude_pk pk i (users w)) row = true ->
    I (set_users (replace_pk pk i row (users w)) w).
Hypothesis I_create_otp : forall u k, preserves I (create_otp_for_user u k).
Hypothesis I_ride : forall r, preserves I (RideDetails_save r).
Hypothesis I_request : forall r, preserves I (PassengerRideRequest_save r).
Hypothesis I_rating : forall r, preserves I (Rating_save r).
Hypothesis I_chat : forall c, preserves I (ChatMessage_save c).

Lemma I_timezone_now : preserves I timezone_now.
Proof. apply preserves_frame; [exact I_frame | exact timezone_now_frame]. Qed.

Lemma I_insert_user (u : User) : preserves I (insert_user u).
Proof.
  intros w Hw.
  destruct (insert_user_spec u w)
    as (w' & key & created & updated & Hsame & ->).
  pose proof (I_frame _ _ Hsame Hw) as Hw'.
  destruct Hsame as (Hu & _).
  destruct (has_pk pk key (users w)) eqn:Hpk; simpl; [exact Hw'|].
  destruct (user_row_accepted (users w) (stored_as key created updated u))
    eqn:Hacc; simpl; [|exact Hw'].
  rewrite <- Hu in *. now apply (I_insert w' key).
Qed.

Lemma I_Model_save (u : User) : preserves I (Model_save u).
Proof.
  unfold Model_save. destruct (pk u) as [i|]; [|apply I_insert_user].
  apply preserves_bind; [apply I_timezone_now|]. intros updated w Hw.
  cbv beta iota zeta delta [bind gets modify ret raise].
  destruct (has_pk pk i (users w)) eqn:Hpk; [|now apply I_insert_user].
  destruct (user_row_accepted (exclude_pk pk i (users w))
              (stored_as i (created_at u) updated u)) eqn:Hacc;
    simpl; [|exact Hw].
  now apply I_update.
Qed.

Lemma I_save (u : User) : preserves I (save u).
Proof.
  unfold save. apply preserves_bind; [|intros; apply I_Model_save].
  match goal with |- context [if ?c then _ else _] => destruct c end;
    [|apply preserves_ret].
  apply preserves_bind; [apply I_timezone_now|]. intros now.
  apply preserves_bind; [apply I_delete | intros; apply preserves_ret].
Qed.

Lemma I_cleanup (e p : option string) :
  preserves I (cleanup_expired_registrations e p).
Proof.
  unfold cleanup_expired_registrations.
  apply preserves_bind; [apply I_timezone_now | intros; apply I_delete].
Qed.

Lemma I_full_clean (u : User) : preserves I (full_clean dj u).
Proof.
  intros w Hw. destruct (full_clean_raises dj u w) as [-> _]. exact Hw.
Qed.

Lemma I_create_user (e : string) (p : option string) (k : kwargs) :
  preserves I (create_user dj e p k).
Proof.
  unfold create_user. destruct (negb (truthy e)); [apply preserves_raise|].
  apply preserves_bind; [apply I_cleanup|]. intros _.
  apply preserves_bind; [apply I_timezone_now|]. intros now.
  apply preserves_bind; [apply preserves_gets|]. intros rows.
  destruct (QuerySet_first _).
  - apply preserves_bind; [apply I_timezone_now|]. intros now'.
    destruct (negb (email_verified _)); apply preserves_raise.
  - apply preserves_try_except.
    + apply preserves_bind; [apply I_full_clean | intros; apply I_save].
    + intros []; apply preserves_raise.
Qed.

Lemma I_create_superuser (e : string) (p : option string) (k : kwargs) :
  preserves I (create_superuser dj e p k).
Proof.
  unfold create_superuser. cbv zeta.
  repeat match goal with
         | |- preserves _ (match ?x with _ => _ end) => destruct x
         end;
    first [apply preserves_raise | apply I_create_user].
Qed.

Lemma I_perform (c : call) : forall w, I w -> I (perform dj c w).
Proof.
  destruct c; simpl.
  - apply I_create_user.
  - apply I_create_superuser.
  - apply I_cleanup.
  - apply I_save.
  - unfold update_rating. apply I_save.
  - apply I_create_otp.
  - apply I_ride.
  - apply I_request.
  - apply I_rating.
  - apply I_chat.
Qed.

Hypothesis I_empty : forall now, I (empty_store now).

Lemma invariant_reachable (w : World) : reachable dj w -> I w.
Proof.
  induction 1 as [now | w delays draws _ IH | w c _ IH].
  - apply I_empty.
  - exact (I_frame _ _ (supply_frame delays draws w) IH).
  - now apply I_perform.
Qed.

End Invariant.

(** *** The user table *)

Lemma existsb_false {A} (f : A -> bool) (l : list A) (x : A) :
  existsb f l = false -> In x l -> f x = false.
Proof.
  intros H Hin. destruct (f x) eqn:E; [|reflexivity].
  rewrite (existsb_intro f l x Hin E) in H. discriminate.
Qed.

Lemma same_email_sym (a b : User) : same_email a b = same_email b a.
Proof. unfold same_email. apply String.eqb_sym. Qed.

Lemma same_confirmed_phone_sym (a b : User) :
  same_confirmed_phone a b = same_confirmed_phone b a.
Proof.
  unfold same_confirmed_phone.
  rewrite (String.eqb_sym (phone_number a)).
  destruct (registration_pending a), (registration_pending b); reflexivity.
Qed.

Lemma user_row_accepted_distinct (others : list User) (row r : User) :
  user_row_accepted others row = true -> In r others ->
  same_email r row = false /\ same_confirmed_phone r row = false.
Proof.
  unfold user_row_accepted, email_taken, unique_verified_phone_violated.
  intros H Hin.
  apply andb_true_iff in H as [H Hphone].
  apply andb_true_iff in H as [Hemail _].
  apply negb_true_iff in Hemail, Hphone.
  split; [exact (existsb_false _ _ r Hemail Hin)|].
  unfold same_confirmed_phone.
  destruct (registration_pending row); [now rewrite andb_false_r|].
  simpl in Hphone. pose proof (existsb_false _ _ r Hphone Hin) as Hr.
  simpl in Hr. now rewrite andb_true_r.
Qed.

Lemma users_ok_frame (w w' : World) : same_rows w w' -> users_ok w -> users_ok w'.
Proof. intros (Hu & _). unfold users_ok. now rewrite Hu. Qed.

Lemma users_ok_delete (q : User -> bool) : preserves users_ok (QuerySet_delete q).
Proof.
  intros w (Hk & He & Hp). unfold users_ok. rewrite QuerySet_delete_users.
  split; [now apply keys_filter|].
  split; now apply unique_by_filter.
Qed.

Lemma users_ok_insert (w : World) (key : nat) (row : User) :
  users_ok w -> pk row = Some key -> has_pk pk key (users w) = false ->
  user_row_accepted (users w) row = true ->
  users_ok (set_users (users w ++ [row]) w).
Proof.
  intros (Hk & He & Hp) Hrow Hpk Hacc. unfold users_ok. simpl.
  split; [now apply (keys_app pk key)|].
  split.
  - apply (unique_by_app pk same_email same_email_sym); [exact He|].
    intros r Hin. now apply (user_row_accepted_distinct (users w)).
  - apply (unique_by_app pk same_confirmed_phone same_confirmed_phone_sym);
      [exact Hp|].
    intros r Hin. now apply (user_row_accepted_distinct (users w)).
Qed.

Lemma users_ok_update (w : World) (i : nat) (row : User) :
  users_ok w -> pk row = Some i -> has_pk pk i (users w) = true ->
  user_row_accepted (exclude_pk pk i (users w)) row = true ->
  users_ok (set_users (replace_pk pk i row (users w)) w).
Proof.
  intros (Hk & He & Hp) Hrow _ Hacc. unfold users_ok. simpl.
  split; [now rewrite keys_replace|].
  split.
  - apply (unique_by_replace pk same_email same_email_sym); [exact He|].
    intros r Hin.
    now apply (user_row_accepted_distinct (exclude_pk pk i (users w))).
  - apply (unique_by_replace pk same_confirmed_phone same_confirmed_phone_sym);
      [exact Hp|].
    intros r Hin.
    now apply (user_row_accepted_distinct (exclude_pk pk i (users w))).
Qed.

(** *** [create_otp_for_user] *)

Lemma comprehension_randint (n : nat) (w : World) :
  exists w' digits,
    comprehension n (randint 0 9) w = (w', Ok digits)
    /\ same_rows w w'
    /\ List.length digits = n
    /\ Forall (fun d => (d < 10)%nat) digits.
Proof.
  revert w. induction n as [|n IH]; intros w.
  - exists w, []. simpl. split; [reflexivity|].
    split; [apply same_rows_refl|]. split; [reflexivity | constructor].
  - simpl. unfold bind at 1.
    pose proof (randint_frame 0 9 w) as Hf.
    assert (Hd : exists d, snd (randint 0 9 w) = Ok d /\ (d < 10)%nat).
    { unfold randint. destruct (dice w) as [|r rest]; cbn [snd].
      - exists 0%nat. split; [reflexivity | lia].
      - exists (r mod 10)%nat. split; [reflexivity|].
        apply Nat.mod_upper_bound. lia. }
    destruct Hd as (d & Hd & Hlt).
    destruct (randint 0 9 w) as [w1 r]. simpl in Hf, Hd. subst r.
    destruct (IH w1) as (w2 & ds & Hc & Hs & Hlen & Hall).
    exists w2, (d :: ds). unfold bind, ret. rewrite Hc. simpl.
    split; [reflexivity|].
    split; [exact (same_rows_trans _ _ _ Hf Hs)|].
    split; [now rewrite Hlen | now constructor].
Qed.

Lemma create_otp_for_user_spec (user : option nat) (kind : otp_kind)
    (w : World) :
  exists w' key created digits,
    same_rows (set_otps (map (superseded user kind) (otps w)) w) w'
    /\ (sequence w T_otp <= key < sequence w' T_otp)%nat
    /\ List.length digits = 6%nat
    /\ Forall (fun d => (d < 10)%nat) digits
    /\ let row :=
         {| otp_pk := Some key; otp_user := user;
            code := String.concat "" (map str digits);
            otp_created_at := created; is_verified := false; attempts := 0;
            otp_type := kind |} in
       create_otp_for_user user kind w
       = if has_pk otp_pk key (otps w')
            || match user with
               | Some i => negb (has_pk pk i (users w'))
               | None => false
               end
         then (w', Raise IntegrityError)
         else (set_otps (otps w' ++ [row]) w', Ok row).
Proof.
  unfold create_otp_for_user.
  set (w0 := set_otps (map (superseded user kind) (otps w)) w).
  destruct (comprehension_randint 6 w0) as (w1 & digits & Hc & S1 & Hlen & Hall).
  destruct (timezone_now_same_rows w1) as (w2 & Hnow & S2).
  destruct (nextval_same_rows T_otp w2) as (S3 & _ & Hlt).
  exists (fst (nextval T_otp w2)), (sequence w2 T_otp), (clock w2), digits.
  pose proof (same_rows_trans _ _ _ S1 S2) as S12.
  split; [exact (same_rows_trans _ _ _ S12 S3)|].
  split.
  { split; [|exact Hlt].
    destruct S12 as (_ & _ & _ & _ & _ & _ & Hseq). exact (Hseq T_otp). }
  split; [exact Hlen|]. split; [exact Hall|].
  cbv zeta. unfold bind at 1. unfold modify at 1.
  change (set_otps
            (map (fun o =>
                    if key_eqb (otp_user o) user && negb (is_verified o)
                       && otp_kind_eqb (otp_type o) kind
                    then with_is_verified true o else o) (otps w)) w)
    with w0.
  unfold bind at 1. rewrite Hc.
  unfold OTP_objects_create.
  cbv beta iota zeta delta [bind gets modify ret raise].
  rewrite Hnow. unfold nextval. cbn [fst users otps set_sequence].
  match goal with |- context [if ?c then _ else _] => destruct c end;
    reflexivity.
Qed.

Lemma create_otp_for_user_frame (user : option nat) (kind : otp_kind)
    (w : World) :
  let w' := fst (create_otp_for_user user kind w) in
  users w' = users w /\ rides w' = rides w /\ ratings w' = ratings w.
Proof.
  destruct (create_otp_for_user_spec user kind w)
    as (w1 & key & created & digits & (Hu & _ & Hr & _ & Hg & _) & _ & _ & _ & ->).
  simpl in Hu, Hr, Hg.
  match goal with |- context [if ?c then _ else _] => destruct c end;
    simpl; auto.
Qed.

Ltac other_table I_frame :=
  unfold RideDetails_save, PassengerRideRequest_save, Rating_save,
    ChatMessage_save;
  apply save_row_preserves;
  [ reflexivity
  | apply preserves_frame; [exact I_frame | intros; apply nextval_frame]
  | intros ? ? ? H ? ? ?; exact H
  | intros ? ? ? H ? ? ?; exact H ].

Lemma users_ok_create_otp (user : option nat) (kind : otp_kind) :
  preserves users_ok (create_otp_for_user user kind).
Proof.
  intros w Hw. destruct (create_otp_for_user_frame user kind w) as (Hu & _).
  unfold users_ok. now rewrite Hu.
Qed.

Lemma users_ok_reachable (dj : Django) (w : World) :
  reachable dj w -> users_ok w.
Proof.
  apply (invariant_reachable dj users_ok).
  - exact users_ok_frame.
  - exact users_ok_delete.
  - exact users_ok_insert.
  - exact users_ok_update.
  - exact users_ok_create_otp.
  - intros r. other_table users_ok_frame.
  - intros r. other_table users_ok_frame.
  - intros r. other_table users_ok_frame.
  - intros r. other_table users_ok_frame.
  - intros now. unfold users_ok, unique_by. simpl.
    split; [constructor|]. split; intros a b [].
Qed.

Lemma filter_at_most_one {R} (pk_of : R -> option nat) (same : R -> R -> bool)
    (f : R -> bool) (rows : list R) :
  NoDup (map pk_of rows) -> unique_by pk_of same rows ->
  (forall a b, f a = true -> f b = true -> same a b = true) ->
  (List.length (filter f rows) <= 1)%nat.
Proof.
  intros Hk Hu Hf. apply (at_most_one pk_of); [now apply keys_filter|].
  intros a b Ha Hb. apply filter_In in Ha as [Ha Hfa].
  apply filter_In in Hb as [Hb Hfb]. apply Hu; auto.
Qed.

(** C2, as the code has it.  In every reachable store at most one row
    holds a given email, pending or not ([email] is declared
    [unique=True]), so at most one non-pending row does; and at most one
    non-pending row holds a given phone number.  Pending rows can share a
    phone number: Erin and Frank do. *)
Theorem confirmed_identities_unique (dj : Django) :
  (forall w, reachable dj w ->
     (forall e,
         (List.length (filter (fun u => String.eqb (email u) e) (users w))
          <= 1)%nat)
     /\ (forall e,
            (List.length
               (filter (fun u => negb (registration_pending u)
                                 && String.eqb (email u) e) (users w))
             <= 1)%nat)
     /\ (forall p,
            (List.length
               (filter (fun u => negb (registration_pending u)
                                 && String.eqb (phone_number u) p) (users w))
             <= 1)%nat))
  /\ reachable dj (erin_and_frank dj)
  /\ map identity (users (erin_and_frank dj))
     = [("erin@example.com", "5550142", true);
        ("frank@example.com", "5550142", true)].
Proof.
  split; [|split].
  - intros w Hw. destruct (users_ok_reachable dj w Hw) as (Hk & He & Hp).
    split; [|split].
    + intros e. apply (filter_at_most_one pk same_email); auto.
      intros a b Ha Hb. apply String.eqb_eq in Ha, Hb.
      unfold same_email. rewrite Ha, Hb. apply String.eqb_refl.
    + intros e. apply (filter_at_most_one pk same_email); auto.
      intros a b Ha Hb. apply andb_true_iff in Ha as [_ Ha], Hb as [_ Hb].
      apply String.eqb_eq in Ha, Hb.
      unfold same_email. rewrite Ha, Hb. apply String.eqb_refl.
    + intros p. apply (filter_at_most_one pk same_confirmed_phone); auto.
      intros a b Ha Hb. apply andb_true_iff in Ha as [Hpa Ha], Hb as [Hpb Hb].
      apply String.eqb_eq in Ha, Hb.
      unfold same_confirmed_phone. rewrite Hpa, Hpb, Ha, Hb.
      apply String.eqb_refl.
  - unfold erin_and_frank. apply reachable_call, reachable_call.
    apply reachable_empty.
  - vm_compute. reflexivity.
Qed.

(** C2, against the claim as written: no reachable store has two pending
    rows with one email, since the [unique=True] of [email] covers the
    pending rows; in particular the store refuses a second pending row
    with Alice's email while her registration is within the grace
    window. *)
Lemma pending_rows_never_share_an_email :
  ~ (exists dj w a b,
        reachable dj w /\ In a (users w) /\ In b (users w) /\ pk a <> pk b
        /\ registration_pending a = true /\ registration_pending b = true
        /\ email a = email b)
  /\ map identity (users alice_waiting)
     = [("alice@example.com", "5550100", true)]
  /\ identity alice_again = ("alice@example.com", "5550177", true)
  /\ snd (save alice_again alice_waiting) = Raise IntegrityError
  /\ map (expired_at (clock (fst (save alice_again alice_waiting))))
       (users alice_waiting) = [false].
Proof.
  split.
  - intros (dj & w & a & b & Hw & Ha & Hb & Hne & _ & _ & He).
    destruct (users_ok_reachable dj w Hw) as (_ & Hu & _).
    apply Hne. apply Hu; auto. unfold same_email. rewrite He.
    apply String.eqb_refl.
  - vm_compute. repeat split.
Qed.

(** *** The OTP table *)

Lemma superseded_pk (user : option nat) (kind : otp_kind) (l : list OTP) :
  map otp_pk (map (superseded user kind) l) = map otp_pk l.
Proof.
  rewrite map_map. apply map_ext. intros o. unfold superseded.
  destruct (live_for user kind o); reflexivity.
Qed.

Lemma superseded_unverified (user : option nat) (kind : otp_kind) (o : OTP) :
  is_verified (superseded user kind o) = false ->
  superseded user kind o = o /\ live_for user kind o = false.
Proof.
  unfold superseded. destruct (live_for user kind o); simpl; [discriminate|].
  auto.
Qed.

Lemma superseded_not_live (user : option nat) (kind : otp_kind) (l : list OTP)
    (o : OTP) :
  In o (map (superseded user kind) l) -> live_for user kind o = false.
Proof.
  intros Hin. apply in_map_iff in Hin as (o0 & <- & _).
  destruct (is_verified (superseded user kind o0)) eqn:Hv.
  - unfold live_for. rewrite Hv. simpl. now rewrite andb_false_r.
  - apply superseded_unverified in Hv as [-> H]. exact H.
Qed.

Lemma str_digit (d : nat) :
  (d < 10)%nat -> exists c, str d = String c "" /\ is_digit c = true.
Proof.
  intros H.
  do 10 (destruct d as [|d]; [eexists; split; reflexivity|]).
  lia.
Qed.

Lemma code_of_digits (digits : list nat) :
  Forall (fun d => (d < 10)%nat) digits ->
  String.length (String.concat "" (map str digits)) = List.length digits
  /\ all_digits (String.concat "" (map str digits)) = true.
Proof.
  induction 1 as [|d ds Hd _ [IHlen IHall]]; [split; reflexivity|].
  destruct (str_digit d Hd) as (c & Hc & Hdig).
  assert (E : String.concat "" (map str (d :: ds))
              = String c (String.concat "" (map str ds))).
  { simpl. rewrite Hc. destruct (map str ds); reflexivity. }
  rewrite E. simpl. rewrite IHlen, Hdig, IHall. split; reflexivity.
Qed.

Lemma comprehension_randint_sequence (n : nat) (w : World) :
  sequence (fst (comprehension n (randint 0 9) w)) = sequence w.
Proof.
  revert w. induction n as [|n IH]; intros w; [reflexivity|].
  simpl. unfold bind at 1.
  assert (Hr : exists w1 d, randint 0 9 w = (w1, Ok d)
                            /\ sequence w1 = sequence w).
  { unfold randint. destruct (dice w); eexists; eexists; split; reflexivity. }
  destruct Hr as (w1 & d & -> & Hs).
  unfold bind. specialize (IH w1).
  destruct (comprehension n (randint 0 9) w1) as [w2 [ds|x]]; simpl in *;
    congruence.
Qed.

(** [create_otp_for_user], step by step: the key of the new OTP is the
    next value of the OTP sequence. *)
Lemma create_otp_for_user_at (user : option nat) (kind : otp_kind)
    (w : World) :
  exists w' created digits,
    same_rows (set_otps (map (superseded user kind) (otps w)) w) w'
    /\ List.length digits = 6%nat
    /\ Forall (fun d => (d < 10)%nat) digits
    /\ let row :=
         {| otp_pk := Some (sequence w T_otp); otp_user := user;
            code := String.concat "" (map str digits);
            otp_created_at := created; is_verified := false; attempts := 0;
            otp_type := kind |} in
       create_otp_for_user user kind w
       = if has_pk otp_pk (sequence w T_otp) (otps w')
            || match user with
               | Some i => negb (has_pk pk i (users w'))
               | None => false
               end
         then (w', Raise IntegrityError)
         else (set_otps (otps w' ++ [row]) w', Ok row).
Proof.
  unfold create_otp_for_user.
  set (w0 := set_otps (map (superseded user kind) (otps w)) w).
  pose proof (comprehension_randint_sequence 6 w0) as Q1.
  destruct (comprehension_randint 6 w0) as (w1 & digits & Hc & S1 & Hlen & Hall).
  rewrite Hc in Q1. simpl in Q1.
  destruct (timezone_now_returns w1)
    as (w2 & Hnow & _ & _ & _ & _ & _ & _ & Q2 & _).
  destruct (timezone_now_same_rows w1) as (w2' & Hnow' & S2).
  rewrite Hnow in Hnow'. injection Hnow' as <-.
  destruct (nextval_same_rows T_otp w2) as (S3 & _ & _).
  assert (Hkey : sequence w2 T_otp = sequence w T_otp)
    by (rewrite Q2, Q1; reflexivity).
  exists (fst (nextval T_otp w2)), (clock w2), digits.
  split; [exact (same_rows_trans _ _ _ (same_rows_trans _ _ _ S1 S2) S3)|].
  split; [exact Hlen|]. split; [exact Hall|].
  cbv zeta. unfold bind at 1. unfold modify at 1.
  change (set_otps
            (map (fun o =>
                    if key_eqb (otp_user o) user && negb (is_verified o)
                       && otp_kind_eqb (otp_type o) kind
                    then with_is_verified true o else o) (otps w)) w)
    with w0.
  unfold bind at 1. rewrite Hc.
  unfold OTP_objects_create.
  cbv beta iota zeta delta [bind gets modify ret raise].
  rewrite Hnow. unfold nextval. cbn [fst users otps set_sequence].
  rewrite Hkey.
  match goal with |- context [if ?c then _ else _] => destruct c end;
    reflexivity.
Qed.

Lemma superseded_live_length (user user' : option nat) (kind kind' : otp_kind)
    (l : list OTP) :
  (List.length (filter (live_for user' kind') (map (superseded user kind) l))
   <= List.length (filter (live_for user' kind') l))%nat.
Proof.
  induction l as [|o l IH]; [simpl; lia|]. simpl.
  unfold superseded at 1. destruct (live_for user kind o) eqn:Hl.
  - replace (live_for user' kind' (with_is_verified true o)) with false
      by (unfold live_for; simpl; now rewrite andb_false_r).
    destruct (live_for user' kind' o); simpl; lia.
  - destruct (live_for user' kind' o); simpl; lia.
Qed.

Lemma live_for_inj (user user' : option nat) (kind kind' : otp_kind) (o : OTP) :
  live_for user kind o = true -> live_for user' kind' o = true ->
  user' = user /\ kind' = kind.
Proof.
  unfold live_for. intros H H'.
  apply andb_true_iff in H as [H Hk], H' as [H' Hk'].
  apply andb_true_iff in H as [Hu _], H' as [Hu' _].
  apply key_eqb_eq in Hu, Hu'. split; [congruence|].
  destruct (otp_type o), kind, kind'; try discriminate; reflexivity.
Qed.

Lemma one_live_each_create_otp (user : option nat) (kind : otp_kind) :
  preserves one_live_each (create_otp_for_user user kind).
Proof.
  intros w Hw user' kind'.
  destruct (create_otp_for_user_at user kind w)
    as (w' & created & digits & (_ & Ho & _) & _ & _ & ->).
  simpl in Ho.
  assert (Hmarked : (List.length (filter (live_for user' kind') (otps w'))
                     <= 1)%nat).
  { rewrite Ho. specialize (Hw user' kind').
    pose proof (superseded_live_length user user' kind kind' (otps w)). lia. }
  match goal with |- context [if ?c then _ else _] => destruct c end;
    simpl; [exact Hmarked|].
  rewrite filter_app. rewrite length_app. simpl.
  match goal with |- context [live_for user' kind' ?r] => set (row := r) end.
  destruct (live_for user' kind' row) eqn:Hrow; simpl; [|lia].
  assert (Hself : live_for user kind row = true).
  { unfold live_for, row. simpl.
    replace (key_eqb user user) with true by (symmetry; now apply key_eqb_eq).
    now destruct kind. }
  destruct (live_for_inj user user' kind kind' row Hself Hrow) as [-> ->].
  rewrite Ho.
  rewrite (filter_none (live_for user kind));
    [simpl; lia|].
  intros o Hin. now apply (superseded_not_live user kind (otps w)).
Qed.

Lemma filter_filter_length {A} (f g : A -> bool) (l : list A) :
  (List.length (filter f (filter g l)) <= List.length (filter f l))%nat.
Proof.
  induction l as [|x l IH]; [simpl; lia|]. simpl.
  destruct (g x); simpl; destruct (f x); simpl; lia.
Qed.

Lemma one_live_each_perform (dj : Django) (c : call) (w : World) :
  one_live_each w -> one_live_each (perform dj c w).
Proof.
  assert (Hframe : forall w1 w2, same_rows w1 w2 ->
                                 one_live_each w1 -> one_live_each w2).
  { intros w1 w2 (_ & Ho & _) H user kind. rewrite Ho. apply H. }
  apply (I_perform dj one_live_each).
  - exact Hframe.
  - intros q w0 H user kind. unfold QuerySet_delete. simpl.
    specialize (H user kind).
    match goal with
    | |- context [filter ?f (filter ?g ?l)] =>
        pose proof (filter_filter_length f g l)
    end.
    lia.
  - intros w0 key row H _ _ _. exact H.
  - intros w0 i row H _ _ _. exact H.
  - exact one_live_each_create_otp.
  - intros r. other_table Hframe.
  - intros r. other_table Hframe.
  - intros r. other_table Hframe.
  - intros r. other_table Hframe.
Qed.

(** C4. In any store in which the next key of the OTP sequence is free,
    for a user that exists (or no user), [create_otp_for_user] returns
    the OTP it stored; every OTP of that user and purpose that was
    unverified is now marked verified and the other OTPs are as they
    were, whatever their attempts; the unverified OTPs of that user and
    purpose are exactly the new one, which has a fresh key, no attempts
    and a code of six decimal digits.  And no call of the two files,
    from any store, brings a second unverified OTP to a user and
    purpose: a store with at most one for each stays so. *)
Theorem create_otp_for_user_supersedes
    (dj : Django) (w : World) (user : option nat) (kind : otp_kind) :
  match user with
  | Some i => user_exists w i = true
  | None => True
  end ->
  has_pk otp_pk (sequence w T_otp) (otps w) = false ->
  exists otp,
    snd (create_otp_for_user user kind w) = Ok otp
    /\ let w' := fst (create_otp_for_user user kind w) in
       (forall old, In old (otps w) -> live_for user kind old = true ->
                    In (with_is_verified true old) (otps w'))
       /\ (forall old, In old (otps w) -> live_for user kind old = false ->
                       In old (otps w'))
       /\ filter (live_for user kind) (otps w') = [otp]
       /\ ~ In (otp_pk otp) (map otp_pk (otps w))
       /\ otp_user otp = user /\ otp_type otp = kind
       /\ is_verified otp = false
       /\ attempts otp = 0
       /\ String.length (code otp) = 6%nat
       /\ all_digits (code otp) = true
       /\ (forall c w0, one_live_each w0 -> one_live_each (perform dj c w0)).
Proof.
  intros Huser Hfree.
  destruct (create_otp_for_user_at user kind w)
    as (w1 & created & digits & Hsame & Hlen & Hall & Heq).
  cbv zeta in Heq. rewrite Heq in *. clear Heq.
  destruct Hsame as (Hu & Ho & _). simpl in Hu, Ho.
  assert (Hnew : ~ In (Some (sequence w T_otp)) (map otp_pk (otps w)))
    by (now apply has_pk_false).
  assert (Hpk : has_pk otp_pk (sequence w T_otp) (otps w1) = false).
  { destruct (has_pk otp_pk (sequence w T_otp) (otps w1)) eqn:E;
      [|reflexivity].
    apply has_pk_true in E as (o & Hin & Hkey). exfalso. apply Hnew.
    rewrite <- (superseded_pk user kind), <- Ho, <- Hkey.
    now apply in_map. }
  assert (Hmissing : match user with
                     | Some i => negb (has_pk pk i (users w1))
                     | None => false
                     end = false).
  { destruct user as [i|]; [|reflexivity]. rewrite Hu.
    unfold user_exists in Huser. now rewrite Huser. }
  rewrite Hpk, Hmissing in *. simpl.
  eexists. split; [reflexivity|].
  destruct (code_of_digits digits Hall) as [Hclen Hcdig].
  split; [|split; [|split; [|split]]].
  - intros old Hin Hl. apply in_or_app. left. rewrite Ho.
    apply in_map_iff. exists old. split; [|exact Hin].
    unfold superseded. now rewrite Hl.
  - intros old Hin Hl. apply in_or_app. left. rewrite Ho.
    apply in_map_iff. exists old. split; [|exact Hin].
    unfold superseded. now rewrite Hl.
  - rewrite filter_app, Ho.
    rewrite (filter_none (live_for user kind));
      [|intros o Hin; now apply (superseded_not_live user kind (otps w))].
    simpl. unfold live_for at 1. simpl.
    replace (key_eqb user user) with true
      by (symmetry; now apply key_eqb_eq).
    replace (otp_kind_eqb kind kind) with true by (now destruct kind).
    reflexivity.
  - exact Hnew.
  - simpl. rewrite Hclen, Hlen. repeat split; auto.
    intros c w0. apply one_live_each_perform.
Qed.

Lemma alice_guessed_twice_otps :
  exists old,
    otps alice_guessed_twice = [old]
    /\ live_for (Some 1%nat) EMAIL old = true
    /\ attempts old = 2
    /\ user_exists alice_guessed_twice 1 = true
    /\ has_pk otp_pk (sequence alice_guessed_twice T_otp)
         (otps alice_guessed_twice) = false.
Proof.
  eexists. split; [vm_compute; reflexivity|].
  repeat split; vm_compute; reflexivity.
Qed.

Lemma create_otp_for_user_supersedes_witness :
  exists old otp,
    otps alice_guessed_twice = [old]
    /\ live_for (Some 1%nat) EMAIL old = true
    /\ attempts old = 2
    /\ snd (create_otp_for_user (Some 1%nat) EMAIL alice_guessed_twice)
       = Ok otp
    /\ In (with_is_verified true old)
         (otps (fst (create_otp_for_user (Some 1%nat) EMAIL
                       alice_guessed_twice)))
    /\ filter (live_for (Some 1%nat) EMAIL)
         (otps (fst (create_otp_for_user (Some 1%nat) EMAIL
                       alice_guessed_twice)))
       = [otp]
    /\ attempts otp = 0
    /\ String.length (code otp) = 6%nat
    /\ all_digits (code otp) = true.
Proof.
  destruct alice_guessed_twice_otps as (old & Hrows & Hlive & Hatt & Hu & Hk).
  destruct (create_otp_for_user_supersedes example_django alice_guessed_twice
              (Some 1%nat) EMAIL Hu Hk)
    as (otp & Hok & Hold & _ & Hone & _ & _ & _ & _ & Hzero & Hlen & Hdig & _).
  exists old, otp. repeat (split; [assumption|]).
  split; [|repeat split; assumption].
  apply Hold; [rewrite Hrows; left; reflexivity | exact Hlive].
Defined.

(** *** The rating table *)

Lemma same_triple_sym (a b : Rating) : same_triple a b = same_triple b a.
Proof.
  unfold same_triple.
  now rewrite (Nat.eqb_sym (rating_ride a)), (Nat.eqb_sym (from_user a)),
    (Nat.eqb_sym (to_user a)).
Qed.

Lemma mem_pks_of {R} (pk_of : R -> option nat) (rows : list R) (x : R)
    (i : nat) :
  In x rows -> pk_of x = Some i -> mem i (pks_of pk_of rows) = true.
Proof.
  intros Hin Hx. unfold mem, pks_of. apply existsb_exists. exists i.
  split; [|apply Nat.eqb_refl].
  apply in_flat_map. exists x. split; [exact Hin|]. rewrite Hx. now left.
Qed.

Lemma has_pk_app {R} (pk_of : R -> option nat) (i : nat) (rows more : list R) :
  has_pk pk_of i rows = true -> has_pk pk_of i (rows ++ more) = true.
Proof.
  unfold has_pk. rewrite existsb_app. intros ->. reflexivity.
Qed.

Lemma has_pk_replace {R} (pk_of : R -> option nat) (i j : nat) (row : R)
    (rows : list R) :
  pk_of row = Some i ->
  has_pk pk_of j (replace_pk pk_of i row rows) = has_pk pk_of j rows.
Proof.
  intros Hrow. unfold has_pk, replace_pk.
  induction rows as [|r rows IH]; [reflexivity|]. simpl. rewrite IH.
  destruct (key_eqb (pk_of r) (Some i)) eqn:E; [|reflexivity].
  apply key_eqb_eq in E. now rewrite Hrow, E.
Qed.

Lemma ratings_ok_frame (w w' : World) :
  same_rows w w' -> ratings_ok w -> ratings_ok w'.
Proof.
  intros (_ & _ & Hr & _ & Hg & _). unfold ratings_ok, ride_exists.
  now rewrite Hr, Hg.
Qed.

Lemma ratings_ok_delete (q : User -> bool) :
  preserves ratings_ok (QuerySet_delete q).
Proof.
  intros w (Hk & Hu & Hf). unfold ratings_ok, ride_exists, QuerySet_delete.
  simpl. split; [now apply keys_filter|].
  split; [now apply unique_by_filter|].
  intros r Hin. apply filter_In in Hin as [Hin Hkeep].
  apply negb_true_iff, orb_false_iff in Hkeep as [_ Hride].
  specialize (Hf r Hin). unfold ride_exists in Hf.
  apply has_pk_true in Hf as (x & Hx & Hpk).
  apply has_pk_true. exists x. split; [|exact Hpk].
  apply filter_In. split; [exact Hx|]. apply negb_true_iff.
  match goal with |- ?dead = false => destruct dead eqn:Hdead end;
    [|reflexivity].
  rewrite (mem_pks_of ride_pk _ x (rating_ride r)) in Hride;
    [discriminate | | exact Hpk].
  apply filter_In. split; [exact Hx | exact Hdead].
Qed.

Lemma ratings_ok_create_otp (user : option nat) (kind : otp_kind) :
  preserves ratings_ok (create_otp_for_user user kind).
Proof.
  intros w Hw.
  destruct (create_otp_for_user_frame user kind w) as (_ & Hr & Hg).
  unfold ratings_ok, ride_exists. now rewrite Hr, Hg.
Qed.

Lemma ratings_ok_ride (r : RideDetails) :
  preserves ratings_ok (RideDetails_save r).
Proof.
  unfold RideDetails_save. apply save_row_preserves.
  - reflexivity.
  - apply preserves_frame; [exact ratings_ok_frame|].
    intros; apply nextval_frame.
  - intros w key row (Hk & Hu & Hf) _ _ _. unfold ratings_ok, ride_exists.
    simpl. repeat split; auto.
    intros x Hx. apply has_pk_app. now apply Hf.
  - intros w i row (Hk & Hu & Hf) Hrow _ _. unfold ratings_ok, ride_exists.
    simpl. repeat split; auto.
    intros x Hx. rewrite has_pk_replace; [now apply Hf | exact Hrow].
Qed.

Lemma rating_accepted (w : World) (others : list Rating) (row r : Rating) :
  rating_keys_exist w row && negb (existsb (same_triple row) others) = true ->
  ride_exists w (rating_ride row) = true
  /\ (In r others -> same_triple r row = false).
Proof.
  intros H. apply andb_true_iff in H as [Hkeys Hnew].
  unfold rating_keys_exist in Hkeys.
  apply andb_true_iff in Hkeys as [Hkeys _].
  apply andb_true_iff in Hkeys as [Hride _].
  split; [exact Hride|]. intros Hin. apply negb_true_iff in Hnew.
  rewrite same_triple_sym. exact (existsb_false _ _ r Hnew Hin).
Qed.

Lemma ratings_ok_rating (r : Rating) : preserves ratings_ok (Rating_save r).
Proof.
  unfold Rating_save. apply save_row_preserves.
  - reflexivity.
  - apply preserves_frame; [exact ratings_ok_frame|].
    intros; apply nextval_frame.
  - intros w key row (Hk & Hu & Hf) Hrow Hpk Hacc.
    unfold ratings_ok, ride_exists. simpl.
    split; [now apply (keys_app rating_pk key)|]. split.
    + apply (unique_by_app rating_pk same_triple same_triple_sym);
        [exact Hu|].
      intros x Hx. now apply (rating_accepted w (ratings w) row x).
    + intros x Hx. apply in_app_or in Hx as [Hx | [<- | []]];
        [now apply Hf|].
      now apply (rating_accepted w (ratings w) row row).
  - intros w i row (Hk & Hu & Hf) Hrow Hpk Hacc.
    unfold ratings_ok, ride_exists. simpl.
    split; [now rewrite keys_replace|]. split.
    + apply (unique_by_replace rating_pk same_triple same_triple_sym);
        [exact Hu|].
      intros x Hx.
      now apply (rating_accepted w (exclude_pk rating_pk i (ratings w)) row x).
    + intros x Hx. apply In_replace_pk in Hx as [-> | Hx].
      * now apply (rating_accepted w (exclude_pk rating_pk i (ratings w))
                     row row).
      * apply In_exclude_pk in Hx as [Hx _]. now apply Hf.
Qed.

Lemma ratings_ok_reachable (dj : Django) (w : World) :
  reachable dj w -> ratings_ok w.
Proof.
  apply (invariant_reachable dj ratings_ok).
  - exact ratings_ok_frame.
  - exact ratings_ok_delete.
  - intros w0 key row H _ _ _. exact H.
  - intros w0 i row H _ _ _. exact H.
  - exact ratings_ok_create_otp.
  - exact ratings_ok_ride.
  - intros r. other_table ratings_ok_frame.
  - exact ratings_ok_rating.
  - intros r. other_table ratings_ok_frame.
  - intros now. unfold ratings_ok, unique_by. simpl.
    split; [constructor|]. split; [intros a b [] | intros r []].
Qed.

(** C9, as the code has it.  In every reachable store at most one rating
    exists per (ride, rater, ratee) and every rating references a ride of
    the store: the store enforces both.  The score is checked by the
    validators, which run in [full_clean]: [full_clean] accepts a rating
    exactly when its score is between 1 and 5, the rows it references
    exist and no other rating has its triple; [full_clean] reads the
    store without changing it. *)
Theorem ratings_unique_and_attached (dj : Django) :
  (forall w, reachable dj w ->
     (forall ride_key rater ratee,
         (List.length (filter (of_triple ride_key rater ratee) (ratings w))
          <= 1)%nat)
     /\ (forall r, In r (ratings w) ->
                   ride_exists w (rating_ride r) = true))
  /\ (forall r w,
         snd (Rating_full_clean r w) = Ok tt <->
         1 <= score r <= 5
         /\ rating_keys_exist w r = true
         /\ existsb (same_triple r) (rating_peers w r) = false)
  /\ (forall r w, fst (Rating_full_clean r w) = w).
Proof.
  split; [|split].
  - intros w Hw. destruct (ratings_ok_reachable dj w Hw) as (Hk & Hu & Hf).
    split; [|exact Hf].
    intros ride_key rater ratee.
    apply (filter_at_most_one rating_pk same_triple); auto.
    intros a b Ha Hb. unfold of_triple in Ha, Hb. unfold same_triple.
    apply andb_true_iff in Ha as [Ha Ha3], Hb as [Hb Hb3].
    apply andb_true_iff in Ha as [Ha1 Ha2], Hb as [Hb1 Hb2].
    apply Nat.eqb_eq in Ha1, Ha2, Ha3, Hb1, Hb2, Hb3.
    rewrite Ha1, Ha2, Ha3, Hb1, Hb2, Hb3, !Nat.eqb_refl. reflexivity.
  - intros r w. unfold Rating_full_clean.
    cbv beta iota zeta delta [bind gets ret raise].
    destruct (1 <=? score r) eqn:H1; destruct (score r <=? 5) eqn:H5;
      destruct (rating_keys_exist w r);
      destruct (existsb (same_triple r) (rating_peers w r));
      simpl; rewrite ?Z.leb_le, ?Z.leb_gt in *;
      (split; [intros H; try discriminate H | intros (Hs & Hk & Hp);
                                              try discriminate; try lia]);
      repeat split; auto; lia.
  - intros r w. unfold Rating_full_clean.
    cbv beta iota zeta delta [bind gets ret raise].
    match goal with |- context [if ?c then _ else _] => destruct c end;
      reflexivity.
Qed.

(** C9, against the claim as written: [save] runs no validator, so the
    store accepts Hal's rating of Gina with the score 7, which
    [full_clean] would have refused. *)
Lemma rating_saved_with_score_seven :
  reachable example_django (rated_seven example_django)
  /\ ratings (ride_taken example_django) = []
  /\ snd (Rating_save seven_stars (ride_taken example_django))
     = Ok {| rating_pk := Some 1%nat; rating_ride := 1; from_user := 2;
             to_user := 1; score := 7 |}
  /\ map score (ratings (rated_seven example_django)) = [7]
  /\ snd (Rating_full_clean seven_stars (ride_taken example_django))
     = Raise ValidationError.
Proof.
  split.
  - unfold rated_seven, ride_taken. repeat apply reachable_call.
    apply reachable_empty.
  - vm_compute. repeat split.
Qed.

(** ** Further properties *)

(** *** What [save] and [create_user] do to the store *)

Lemma insert_user_new (u : User) (w : World) :
  pk u = None ->
  exists w' created updated,
    same_rows w w'
    /\ clock w <= created /\ created <= updated /\ clock w' = updated
    /\ insert_user u w
       = let row := stored_as (sequence w T_user) created updated u in
         if has_pk pk (sequence w T_user) (users w)
            || negb (user_row_accepted (users w) row)
         then (w', Raise IntegrityError)
         else (set_users (users w ++ [row]) w', Ok row).
Proof.
  intros Hk. unfold insert_user.
  destruct (timezone_now_returns w)
    as (w1 & H1 & U1 & O1 & R1 & Q1 & G1 & C1 & S1 & _ & T1).
  destruct (timezone_now_returns w1)
    as (w2 & H2 & U2 & O2 & R2 & Q2 & G2 & C2 & S2 & _ & T2).
  exists (fst (nextval T_user w2)), (clock w1), (clock w2).
  split.
  { apply same_rows_trans with w2; [|apply nextval_frame].
    unfold same_rows. rewrite U2, O2, R2, Q2, G2, C2, S2, U1, O1, R1, Q1, G1,
      C1, S1. repeat split; auto. }
  split; [exact T1|]. split; [exact T2|]. split; [reflexivity|].
  cbv beta iota zeta delta [bind ret raise gets modify].
  rewrite H1, H2, Hk. unfold nextval. cbn [fst users set_sequence].
  rewrite S2, S1, U2, U1.
  match goal with |- context [if ?c then _ else _] => destruct c end;
    reflexivity.
Qed.

(** [save] of an instance that has no key yet: the expired pending rows
    of its email or phone number go first when it is a new pending
    registration, then the INSERT is tried on what is left. *)
Lemma save_new (self : User) (w : World) :
  pk self = None ->
  exists now w' created updated,
    clock w <= now /\ now <= created /\ created <= updated
    /\ clock w' = updated
    /\ let rows :=
         if state_adding self && registration_pending self
         then filter (fun r => negb (purged self now r)) (users w)
         else users w in
       let row := written (sequence w T_user) created updated self in
       users w' = rows
       /\ save self w
          = if has_pk pk (sequence w T_user) rows
               || negb (user_row_accepted rows row)
            then (w', Raise IntegrityError)
            else (set_users (rows ++ [row]) w', Ok row).
Proof.
  intros Hk. unfold save, written.
  change (state_adding (with_is_driver_verified
                          (truthy (drivers_license_image self)) self))
    with (state_adding self).
  change (registration_pending (with_is_driver_verified
                                  (truthy (drivers_license_image self)) self))
    with (registration_pending self).
  set (u := with_is_driver_verified (truthy (drivers_license_image self)) self).
  assert (Hku : pk u = None) by exact Hk.
  destruct (state_adding self && registration_pending self).
  - destruct (timezone_now_returns w)
      as (w1 & H1 & U1 & _ & _ & _ & _ & _ & S1 & _ & T1).
    set (q := fun r : User =>
                (String.eqb (email r) (email u)
                 || String.eqb (phone_number r) (phone_number u))
                && registration_pending r
                && (created_at r <? clock w1 - timedelta_minutes 5)).
    set (w2 := fst (QuerySet_delete q w1)).
    destruct (insert_user_new u w2 Hku)
      as (w' & created & updated & Hsame & Tc & Tu & Tw & Heq).
    exists (clock w1), w', created, updated.
    split; [exact T1|]. split; [exact Tc|]. split; [exact Tu|].
    split; [exact Tw|]. cbv zeta.
    assert (Hrows : users w2
                    = filter (fun r => negb (purged self (clock w1) r))
                        (users w)).
    { unfold w2. rewrite QuerySet_delete_users, U1. reflexivity. }
    assert (Hseq : sequence w2 = sequence w) by (unfold w2; simpl; exact S1).
    split; [destruct Hsame as (-> & _); exact Hrows|].
    cbv beta iota zeta delta [bind ret].
    rewrite H1. fold q.
    change (QuerySet_delete q w1) with (w2, snd (QuerySet_delete q w1)).
    unfold QuerySet_delete at 1. cbn [snd].
    unfold Model_save. rewrite Hku, Heq. cbv zeta.
    rewrite Hrows, Hseq. reflexivity.
  - destruct (insert_user_new u w Hku)
      as (w' & created & updated & Hsame & Tc & Tu & Tw & Heq).
    exists (clock w), w', created, updated.
    split; [lia|]. split; [exact Tc|]. split; [exact Tu|].
    split; [exact Tw|]. cbv zeta.
    split; [destruct Hsame as (-> & _); reflexivity|].
    cbv beta iota zeta delta [bind ret].
    unfold Model_save. rewrite Hku, Heq. reflexivity.
Qed.

(** [create_user] with an email: the cleanup reads the clock at [now]
    and leaves the rows it does not select; the instance is then
    validated and saved on that store. *)
Lemma create_user_on_cleaned_store (dj : Django) (e : string)
    (p : option string) (k : kwargs) (w : World) :
  truthy e = true ->
  exists now w2,
    clock w <= now /\ now <= clock w2
    /\ sequence w2 = sequence w
    /\ users w2
       = filter (fun r => negb (reclaimed (Some (normalize_email e)) None
                                  now r))
           (users w)
    /\ create_user dj e p k w
       = try_except
           (full_clean dj (submitted dj e p k) ;;; save (submitted dj e p k))
           on_save_error w2.
Proof.
  intros He.
  destruct (create_user_proceeds dj e p k w He)
    as (n & w1 & w2 & Hc & Hnow & Hu & Heq).
  destruct (cleanup_expired_registrations_unfold
              (Some (normalize_email e)) None w) as (w0 & H0 & Hdel).
  destruct (timezone_now_returns w)
    as (w0' & H0' & U0 & _ & _ & _ & _ & _ & S0 & _ & T0).
  rewrite H0 in H0'. injection H0' as <-.
  destruct (timezone_now_returns w1)
    as (w2' & H2 & _ & _ & _ & _ & _ & _ & S2 & _ & T2).
  rewrite Hnow in H2. injection H2 as <-.
  rewrite Hdel in Hc.
  assert (Hw1 : w1 = fst (QuerySet_delete
                            (reclaimed (Some (normalize_email e)) None
                               (clock w0)) w0))
    by (now rewrite Hc).
  exists (clock w0), w2.
  split; [exact T0|].
  split; [rewrite Hw1, QuerySet_delete_clock in T2; exact T2|].
  split; [rewrite S2, Hw1; simpl; exact S0|].
  split; [rewrite Hu, Hw1, QuerySet_delete_users, U0; reflexivity|].
  exact Heq.
Qed.

Lemma submitted_columns (dj : Django) (e : string) (p : option string)
    (k : kwargs) :
  let u := submitted dj e p k in
  is_staff u = field_or (kw_is_staff k) false
  /\ is_superuser u = field_or (kw_is_superuser k) false
  /\ drivers_license_image u = field_or (kw_drivers_license_image k) ""
  /\ password u
     = (if truthy_opt p then make_password dj (field_or p "") else "").
Proof.
  unfold submitted. cbv zeta. destruct (truthy_opt p); simpl; repeat split.
Qed.

Lemma purge_subset (self : User) (now : datetime) (rows : list User) :
  forall r,
    In r (if state_adding self && registration_pending self
          then filter (fun r => negb (purged self now r)) rows
          else rows) ->
    In r rows.
Proof.
  intros r. destruct (state_adding self && registration_pending self);
    [|auto]. intros H. now apply filter_In in H.
Qed.

(** What [create_user] goes through once the email is there, in one
    statement: the store after the cleanup, the verdict of [full_clean]
    on it, and the INSERT that [save] tries. *)
Lemma create_user_outcome (dj : Django) (e : string) (p : option string)
    (k : kwargs) (w : World) :
  truthy e = true ->
  let U := submitted dj e p k in
  exists now w2 now' w' created updated,
    clock w <= now /\ now <= clock w2 /\ clock w2 <= now'
    /\ now' <= created /\ created <= updated /\ clock w' = updated
    /\ sequence w2 = sequence w
    /\ users w2
       = filter (fun r => negb (reclaimed (Some (normalize_email e)) None
                                  now r))
           (users w)
    /\ let rows :=
         if state_adding U && registration_pending U
         then filter (fun r => negb (purged U now' r)) (users w2)
         else users w2 in
       let row := written (sequence w T_user) created updated U in
       users w' = rows
       /\ create_user dj e p k w
          = if negb (clean_fields dj U) || email_taken (users w2) U
            || full_clean_validates_constraints dj
               && (unique_verified_email_violated (users w2) U
                   || unique_verified_phone_violated (users w2) U)
         then (w2, Raise ValidationError)
         else if has_pk pk (sequence w T_user) rows
                 || negb (user_row_accepted rows row)
              then (w', Raise (ValueError
                                 An_account_with_this_email_already_exists))
              else (set_users (rows ++ [row]) w', Ok row).
Proof.
  intros He U.
  destruct (create_user_on_cleaned_store dj e p k w He)
    as (now & w2 & T0 & T1 & Hseq & Hrows & Heq).
  destruct (submitted_fields dj e p k) as (Hk & Ha & _).
  fold U in Heq, Hk, Ha.
  destruct (save_new U w2 Hk)
    as (now' & w' & created & updated & T2 & T3 & T4 & T5 & Hsave).
  cbv zeta in Hsave. destruct Hsave as [Hw' Hsave].
  exists now, w2, now', w', created, updated.
  repeat (split; [assumption|]). cbv zeta.
  try (split; [exact Hw'|]).
  rewrite Heq. unfold try_except, bind.
  rewrite (full_clean_new_instance dj U w2 Ha Hk).
  match goal with |- context [if ?c then _ else _] => destruct c end;
    [reflexivity|].
  rewrite Hsave, Hseq.
  match goal with |- context [if ?c then _ else _] => destruct c end;
    reflexivity.
Qed.

(** X2. The account [create_user] returns is the row it stored: it has
    the next key of the user sequence, the normalized email, the columns
    the keyword arguments set (a pending, inactive account by default),
    [is_driver_verified] computed from the license image, the hashed
    password when one is given, and timestamps read during the call; and
    it is the only row of the store with its email. *)
Theorem create_user_returns_stored_account (dj : Django) (e : string)
    (p : option string) (k : kwargs) (w : World) (u : User) :
  snd (create_user dj e p k w) = Ok u ->
  let w' := fst (create_user dj e p k w) in
  In u (users w')
  /\ pk u = Some (sequence w T_user)
  /\ state_adding u = false
  /\ email u = normalize_email e
  /\ phone_number u = field_or (kw_phone_number k) ""
  /\ registration_pending u = field_or (kw_registration_pending k) true
  /\ is_active u = field_or (kw_is_active k) false
  /\ is_driver_verified u
     = truthy (field_or (kw_drivers_license_image k) "")
  /\ password u
     = (if truthy_opt p then make_password dj (field_or p "") else "")
  /\ clock w <= created_at u
  /\ created_at u <= updated_at u
  /\ updated_at u = clock w'
  /\ (forall r, In r (users w') -> email r = email u -> r = u).
Proof.
  intros Hok.
  destruct (truthy e) eqn:He;
    [|unfold create_user in Hok; rewrite He in Hok; discriminate].
  destruct (create_user_outcome dj e p k w He)
    as (now & w2 & now' & w1 & created & updated
        & T0 & T1 & T2 & T3 & T4 & T5 & _ & _ & Heq).
  cbv zeta in Heq. destruct Heq as [_ Heq]. cbv zeta. rewrite Heq in *. clear Heq.
  destruct (submitted_fields dj e p k) as (_ & _ & Hem & Hph & Hpe & Hact).
  destruct (submitted_columns dj e p k) as (_ & _ & Himg & Hpw).
  set (U := submitted dj e p k) in *.
  destruct (negb (clean_fields dj U) || email_taken (users w2) U
            || full_clean_validates_constraints dj
               && (unique_verified_email_violated (users w2) U
                   || unique_verified_phone_violated (users w2) U)) eqn:Hv;
    [discriminate|].
  match type of Hok with
  | context [if ?c then _ else _] => destruct c eqn:Hc
  end; [discriminate|].
  simpl in Hok. injection Hok as <-. simpl.
  apply orb_false_iff in Hv as [Hv _].
  apply orb_false_iff in Hv as [_ Htaken].
  split; [apply in_or_app; right; left; reflexivity|].
  repeat (split; [first [reflexivity | assumption | lia
                        | now rewrite Himg]|]).
  intros r Hin Hr. apply in_app_or in Hin as [Hin | [<- | []]];
    [|reflexivity].
  exfalso. apply purge_subset in Hin.
  pose proof (existsb_false _ _ r Htaken Hin) as Hne. simpl in Hne.
  rewrite Hr, String.eqb_refl in Hne. discriminate.
Qed.

Lemma create_user_returns_stored_account_witness :
  snd (create_user example_django "alice@example.com" (Some "secret")
         (with_phone "5550100") (empty_store 0)) = Ok alice_row
  /\ In alice_row (users alice_registered)
  /\ pk alice_row = Some 1%nat
  /\ email alice_row = "alice@example.com"
  /\ registration_pending alice_row = true
  /\ is_active alice_row = false.
Proof.
  assert (Hrun : snd (create_user example_django "alice@example.com"
                        (Some "secret") (with_phone "5550100")
                        (empty_store 0)) = Ok alice_row)
    by (vm_compute; reflexivity).
  split; [exact Hrun|].
  destruct (create_user_returns_stored_account example_django
              "alice@example.com" (Some "secret") (with_phone "5550100")
              (empty_store 0) alice_row Hrun)
    as (Hin & Hpk & _ & Hem & _ & Hpe & Hact & _).
  split; [exact Hin|]. split; [vm_compute; reflexivity|].
  split; [vm_compute; reflexivity|]. split; vm_compute; reflexivity.
Defined.

Lemma alice_waiting_users : users alice_waiting = [alice_row].
Proof. vm_compute. reflexivity. Qed.

Lemma create_user_returns_written (dj : Django) (e : string)
    (p : option string) (k : kwargs) (w : World) (u : User) :
  snd (create_user dj e p k w) = Ok u ->
  exists key created updated,
    u = written key created updated (submitted dj e p k).
Proof.
  intros Hok.
  destruct (truthy e) eqn:He;
    [|unfold create_user in Hok; rewrite He in Hok; discriminate].
  destruct (create_user_outcome dj e p k w He)
    as (now & w2 & now' & w1 & created & updated
        & _ & _ & _ & _ & _ & _ & _ & _ & Heq).
  cbv zeta in Heq. destruct Heq as [_ Heq]. rewrite Heq in Hok. clear Heq.
  repeat match type of Hok with
         | context [if ?c then _ else _] => destruct c; try discriminate
         end;
    simpl in Hok; injection Hok as <-; eauto.
Qed.

(** X5. [create_superuser] checks the two flags before anything else:
    with [is_staff=False] it raises "Superuser must have is_staff=True",
    otherwise with [is_superuser=False] it raises "Superuser must have
    is_superuser=True", both times leaving the store untouched; every
    account it returns has [is_staff] and [is_superuser] true. *)
Theorem create_superuser_flags (dj : Django) (e : string)
    (p : option string) (k : kwargs) (w : World) :
  match create_superuser dj e p k w with
  | (_, Ok u) =>
      is_staff u = true /\ is_superuser u = true
      /\ kw_is_staff k <> Some false /\ kw_is_superuser k <> Some false
  | (w', Raise x) =>
      (kw_is_staff k = Some false ->
       x = ValueError Superuser_must_have_is_staff /\ w' = w)
      /\ (kw_is_staff k <> Some false -> kw_is_superuser k = Some false ->
          x = ValueError Superuser_must_have_is_superuser /\ w' = w)
  end.
Proof.
  unfold create_superuser.
  destruct k as [sup staff ph act ev pv pend img rd rp].
  destruct staff as [[|]|], sup as [[|]|]; cbn -[create_user];
    try (split; [intros H; first [discriminate H | split; reflexivity]
                | intros H1 H2;
                  first [discriminate H2 | congruence
                        | split; reflexivity]]);
    match goal with
    | |- match ?c with _ => _ end =>
        let Hc := fresh "Hc" in
        destruct c as [w' [u|x]] eqn:Hc;
        [ assert (Hu : snd c = Ok u) by (rewrite Hc; reflexivity);
          apply create_user_returns_written in Hu;
          destruct Hu as (key & created & updated & ->);
          unfold written, submitted; destruct (truthy_opt p);
          repeat split; discriminate
        | split; [intros H; discriminate H | intros _ H; discriminate H] ]
    end.
Qed.

(** X6. What [save] deletes.  For an instance without a key: when it is
    a new pending registration, [save] keeps every row that is confirmed
    or shares neither its email nor its phone number, and a pending row
    of its email or phone number that is still there afterwards is not
    older than the grace window; when it is not, [save] deletes
    nothing. *)
Theorem save_purges_only_expired_registrations (self : User) (w : World) :
  pk self = None ->
  let w' := fst (save self w) in
  (state_adding self && registration_pending self = true ->
   (forall r, In r (users w) ->
              registration_pending r = false
              \/ (email r <> email self
                  /\ phone_number r <> phone_number self) ->
              In r (users w'))
   /\ (forall r, In r (users w') -> registration_pending r = true ->
                 email r = email self \/ phone_number r = phone_number self ->
                 clock w - timedelta_minutes 5 <= created_at r))
  /\ (state_adding self && registration_pending self = false ->
      forall r, In r (users w) -> In r (users w')).
Proof.
  intros Hk.
  destruct (save_new self w Hk)
    as (now & w1 & created & updated & T0 & T1 & T2 & T3 & Hsave).
  cbv zeta in Hsave. destruct Hsave as [Hrows Heq]. cbv zeta.
  rewrite Heq. clear Heq.
  destruct (state_adding self && registration_pending self) eqn:Hc.
  - split; [intros _ | discriminate].
    set (rows := filter (fun r => negb (purged self now r)) (users w)) in *.
    set (row := written (sequence w T_user) created updated self).
    assert (Hafter : forall r,
               In r (users (fst (if has_pk pk (sequence w T_user) rows
                                    || negb (user_row_accepted rows row)
                                 then (w1, Raise IntegrityError)
                                 else (set_users (rows ++ [row]) w1,
                                       Ok row))))
               <-> In r rows
                   \/ (has_pk pk (sequence w T_user) rows
                       || negb (user_row_accepted rows row) = false
                       /\ r = row)).
    { intros r.
      destruct (has_pk pk (sequence w T_user) rows
                || negb (user_row_accepted rows row)); simpl.
      - rewrite Hrows. intuition discriminate.
      - rewrite in_app_iff. simpl. intuition. }
    split.
    + intros r Hr Hkeep. apply Hafter. left. apply filter_In.
      split; [exact Hr|]. apply negb_true_iff. unfold purged.
      destruct Hkeep as [-> | [He Hp]]; [now rewrite andb_false_r|].
      apply String.eqb_neq in He, Hp. now rewrite He, Hp.
    + intros r Hr Hp Hmatch. apply Hafter in Hr as [Hr | [_ ->]].
      * apply filter_In in Hr as [_ Hkeep]. apply negb_true_iff in Hkeep.
        unfold purged in Hkeep. rewrite Hp in Hkeep.
        assert (Hm : String.eqb (email r) (email self)
                     || String.eqb (phone_number r) (phone_number self)
                     = true).
        { apply orb_true_iff.
          destruct Hmatch as [-> | ->]; [left | right];
            apply String.eqb_refl. }
        rewrite Hm in Hkeep. simpl in Hkeep. apply Z.ltb_ge in Hkeep. lia.
      * unfold row, written. simpl. unfold timedelta_minutes. lia.
  - split; [discriminate | intros _ r Hr].
    match goal with |- context [if ?c then _ else _] => destruct c end;
      simpl; [now rewrite Hrows | apply in_or_app; now left].
Qed.

Lemma save_purges_only_expired_registrations_witness :
  pk erin = None
  /\ state_adding erin && registration_pending erin = true
  /\ forall r, In r (users alice_waiting) ->
               registration_pending r = false
               \/ (email r <> email erin
                   /\ phone_number r <> phone_number erin) ->
               In r (users (fst (save erin alice_waiting))).
Proof.
  split; [reflexivity|]. split; [reflexivity|].
  exact (proj1 (proj1 (save_purges_only_expired_registrations erin
                         alice_waiting eq_refl) eq_refl)).
Defined.

(** *** [registration_expired] and the cleanup *)

Lemma registration_expired_reads (self : User) (w : World) :
  snd (registration_expired self w)
  = Ok (expired_at (clock (fst (registration_expired self w))) self).
Proof.
  unfold registration_expired, expired_at.
  destruct (registration_pending self); [|reflexivity].
  cbv beta iota zeta delta [bind ret].
  destruct (timezone_now_returns w) as (w' & -> & _). reflexivity.
Qed.

Lemma cleanup_clock (e p : option string) (w : World) :
  clock w <= clock (fst (cleanup_expired_registrations e p w)).
Proof.
  destruct (cleanup_expired_registrations_unfold e p w) as (w1 & Hnow & ->).
  rewrite QuerySet_delete_clock.
  destruct (timezone_now_returns w) as (w1' & Hnow' & _ & _ & _ & _ & _ & _
                                        & _ & _ & T).
  rewrite Hnow in Hnow'. now injection Hnow' as <-.
Qed.

Lemma NoDup_map_eq {A B} (f : A -> B) (l : list A) (a b : A) :
  NoDup (map f l) -> In a l -> In b l -> f a = f b -> a = b.
Proof.
  induction l as [|x l IH]; simpl; intros Hnd Ha Hb Hf; [contradiction|].
  inversion Hnd as [|? ? Hnotin Hnd']; subst.
  destruct Ha as [-> | Ha], Hb as [-> | Hb]; auto.
  - exfalso. apply Hnotin. rewrite Hf. now apply in_map.
  - exfalso. apply Hnotin. rewrite <- Hf. now apply in_map.
Qed.

(** X7. An expired registration does not survive a cleanup.  When
    [registration_expired] has reported a row expired and the store still
    holds that row as it was reported (it has not been rewritten in
    between, by a confirmation for instance), a cleanup run then or
    later deletes it, whatever arguments the cleanup is given: the keys
    of the user table being distinct, no row has its key afterwards. *)
Theorem expired_registration_is_reclaimed (self : User) (i : nat)
    (w0 w : World) (email_arg phone_arg : option string) :
  snd (registration_expired self w0) = Ok true ->
  clock (fst (registration_expired self w0)) <= clock w ->
  NoDup (map pk (users w)) ->
  In self (users w) ->
  pk self = Some i ->
  has_pk pk i
    (users (fst (cleanup_expired_registrations email_arg phone_arg w)))
  = false.
Proof.
  intros Hexp Hlater Hkeys Hself Hi.
  rewrite registration_expired_reads in Hexp.
  injection Hexp as Hexp. unfold expired_at in Hexp.
  apply andb_true_iff in Hexp as [Hp Hold]. apply Z.ltb_lt in Hold.
  pose proof (cleanup_clock email_arg phone_arg w) as Hclock.
  destruct (cleanup_expired_registrations_effect email_arg phone_arg w)
    as (n & _ & Hiff & _).
  cbv zeta in Hiff.
  destruct (has_pk pk i (users (fst (cleanup_expired_registrations
                                       email_arg phone_arg w)))) eqn:E;
    [exfalso | reflexivity].
  apply has_pk_true in E as (r & Hin & Hr).
  apply Hiff in Hin as [Hin Hrec].
  assert (r = self)
    by (apply (NoDup_map_eq pk (users w)); congruence).
  subst r. unfold reclaimed in Hrec.
  rewrite Hp in Hrec. simpl in Hrec.
  apply orb_false_iff in Hrec as [Hrec _].
  apply orb_false_iff in Hrec as [Hrec _].
  apply Z.ltb_ge in Hrec. lia.
Qed.

Lemma alice_lapsed_users :
  users (fst (registration_expired alice_row alice_lapsed)) = [alice_row].
Proof. vm_compute. reflexivity. Qed.

Lemma expired_registration_is_reclaimed_witness :
  snd (registration_expired alice_row alice_lapsed) = Ok true
  /\ In alice_row (users (fst (registration_expired alice_row alice_lapsed)))
  /\ has_pk pk 1
       (users (fst (cleanup_expired_registrations None None
                      (fst (registration_expired alice_row alice_lapsed)))))
     = false.
Proof.
  assert (Hexp : snd (registration_expired alice_row alice_lapsed) = Ok true)
    by (vm_compute; reflexivity).
  assert (Hin : In alice_row
                  (users (fst (registration_expired alice_row alice_lapsed))))
    by (rewrite alice_lapsed_users; left; reflexivity).
  split; [exact Hexp|]. split; [exact Hin|].
  apply (expired_registration_is_reclaimed alice_row 1 alice_lapsed
           (fst (registration_expired alice_row alice_lapsed)) None None Hexp).
  - apply Z.le_refl.
  - rewrite alice_lapsed_users. simpl. constructor; [intros []|constructor].
  - exact Hin.
  - reflexivity.
Defined.

(** X8. Called without an email and without a phone number - or with
    empty strings, which are falsy - the cleanup removes the rows that
    [registration_expired] reports at the time the cleanup read, and no
    other: a row of the store survives exactly when it is not expired
    then. *)
Theorem cleanup_without_identity_reclaims_the_expired
    (email_arg phone_arg : option string) (w : World) (u : User) :
  truthy_opt email_arg = false ->
  truthy_opt phone_arg = false ->
  In u (users w) ->
  let w' := fst (cleanup_expired_registrations email_arg phone_arg w) in
  In u (users w') <->
  snd (registration_expired u (supply [] [] w')) = Ok false.
Proof.
  intros He Hp Hin. cbv zeta.
  destruct (cleanup_expired_registrations_effect email_arg phone_arg w)
    as (n & _ & Hiff & _).
  cbv zeta in Hiff. rewrite Hiff.
  set (w' := fst (cleanup_expired_registrations email_arg phone_arg w)).
  rewrite registration_expired_reads.
  assert (Hclock : clock (fst (registration_expired u (supply [] [] w')))
                   = clock w').
  { unfold registration_expired. destruct (registration_pending u);
      reflexivity. }
  rewrite Hclock. unfold reclaimed, expired_at. rewrite He, Hp. simpl.
  rewrite !orb_false_r.
  split; [intros [_ ->]; reflexivity | intros [= ->]; auto].
Qed.

Lemma cleanup_without_identity_reclaims_the_expired_witness :
  truthy_opt (Some "") = false
  /\ In alice_row (users alice_waiting)
  /\ (In alice_row
        (users (fst (cleanup_expired_registrations (Some "") None
                       alice_waiting)))
      <-> snd (registration_expired alice_row
                 (supply [] []
                    (fst (cleanup_expired_registrations (Some "") None
                            alice_waiting))))
          = Ok false).
Proof.
  assert (Hin : In alice_row (users alice_waiting))
    by (rewrite alice_waiting_users; left; reflexivity).
  split; [reflexivity|]. split; [exact Hin|].
  apply (cleanup_without_identity_reclaims_the_expired (Some "") None
           alice_waiting alice_row); [reflexivity | reflexivity | exact Hin].
Defined.

(** *** Confirmed accounts *)

Lemma In_replace_other {R} (pk_of : R -> option nat) (j : nat) (row r : R)
    (rows : list R) :
  In r rows -> pk_of r <> Some j -> In r (replace_pk pk_of j row rows).
Proof.
  intros Hin Hne. unfold replace_pk. apply in_map_iff. exists r.
  split; [|exact Hin].
  destruct (key_eqb (pk_of r) (Some j)) eqn:E; [|reflexivity].
  apply key_eqb_eq in E. contradiction.
Qed.

Lemma insert_user_keeps (u : User) (w : World) (r : User) :
  In r (users w) -> In r (users (fst (insert_user u w))).
Proof.
  intros Hin.
  destruct (insert_user_spec u w)
    as (w' & key & created & updated & (Hu & _) & ->).
  match goal with |- context [if ?c then _ else _] => destruct c end; simpl.
  - now rewrite Hu.
  - apply in_or_app. now left.
Qed.

Lemma Model_save_keeps (u : User) (w : World) (r : User) (i : nat) :
  In r (users w) -> pk r = Some i ->
  has_pk pk i (users (fst (Model_save u w))) = true
  /\ (pk u = Some i \/ In r (users (fst (Model_save u w)))).
Proof.
  intros Hin Hr.
  assert (Hfound : forall rows, In r rows -> has_pk pk i rows = true)
    by (intros rows H; apply has_pk_true; eauto).
  assert (Hins : has_pk pk i (users (fst (insert_user u w))) = true
                 /\ (pk u = Some i \/ In r (users (fst (insert_user u w))))).
  { pose proof (insert_user_keeps u w r Hin). auto. }
  unfold Model_save. destruct (pk u) as [j|] eqn:Hj; [|exact Hins].
  cbv beta iota zeta delta [bind gets modify ret raise].
  destruct (timezone_now_returns w) as (w1 & -> & Hu & _).
  destruct (has_pk pk j (users w1)) eqn:Hpk.
  - destruct (user_row_accepted _ _); simpl.
    + rewrite has_pk_replace by reflexivity. rewrite Hu.
      split; [auto|].
      destruct (Nat.eq_dec j i) as [-> | Hne]; [now left | right].
      apply In_replace_other; [exact Hin | congruence].
    + rewrite Hu. auto.
  - pose proof (insert_user_keeps u w1 r) as H. rewrite Hu in H.
    specialize (H Hin). auto.
Qed.

Lemma save_keeps (self : User) (w : World) (r : User) (i : nat) :
  In r (users w) -> pk r = Some i -> registration_pending r = false ->
  has_pk pk i (users (fst (save self w))) = true
  /\ (pk self = Some i \/ In r (users (fst (save self w)))).
Proof.
  intros Hin Hr Hp. unfold save.
  set (u := with_is_driver_verified _ self).
  change (pk self) with (pk u).
  destruct (state_adding u && registration_pending u).
  - cbv beta iota zeta delta [bind ret].
    destruct (timezone_now_returns w) as (w1 & -> & Hu & _).
    unfold QuerySet_delete at 1. cbv beta iota zeta.
    apply Model_save_keeps; [|exact Hr].
    simpl. apply filter_In. rewrite Hu. split; [exact Hin|].
    rewrite Hp. simpl. now rewrite andb_false_r.
  - cbv beta iota zeta delta [bind ret]. now apply Model_save_keeps.
Qed.

Lemma create_user_keeps (dj : Django) (e : string) (p : option string)
    (k : kwargs) (w : World) (r : User) :
  In r (users w) -> registration_pending r = false ->
  In r (users (fst (create_user dj e p k w))).
Proof.
  intros Hin Hp.
  destruct (truthy e) eqn:He;
    [|unfold create_user; rewrite He; exact Hin].
  destruct (create_user_outcome dj e p k w He)
    as (now & w2 & now' & w1 & created & updated
        & _ & _ & _ & _ & _ & _ & _ & Hrows & Heq).
  cbv zeta in Heq. destruct Heq as [Hw1 Heq]. rewrite Heq. clear Heq.
  assert (H2 : In r (users w2)).
  { rewrite Hrows. apply filter_In. split; [exact Hin|].
    unfold reclaimed. now rewrite Hp. }
  set (U := submitted dj e p k) in *.
  assert (Hrow : In r (if state_adding U && registration_pending U
                       then filter (fun r => negb (purged U now' r))
                              (users w2)
                       else users w2)).
  { destruct (state_adding U && registration_pending U); [|exact H2].
    apply filter_In. split; [exact H2|]. unfold purged. rewrite Hp.
    simpl. now rewrite andb_false_r. }
  repeat match goal with
         | |- context [if ?c then (_, _) else _] => destruct c
         end; simpl.
  - exact H2.
  - now rewrite Hw1.
  - apply in_or_app. now left.
Qed.

Lemma other_save_keeps_users (dj : Django) (c : call) (w : World) :
  match c with
  | Call_RideDetails_save _ | Call_PassengerRideRequest_save _
  | Call_Rating_save _ | Call_ChatMessage_save _
  | Call_create_otp_for_user _ _ => users (perform dj c w) = users w
  | _ => True
  end.
Proof.
  assert (Hframe : forall w1 w2, same_rows w1 w2 ->
                                 users w1 = users w -> users w2 = users w)
    by (intros w1 w2 (Hu & _) H; congruence).
  destruct c; try exact I; simpl.
  - apply (create_otp_for_user_frame user kind w).
  - assert (H : preserves (fun w' => users w' = users w) (RideDetails_save r))
      by other_table Hframe.
    now apply H.
  - assert (H : preserves (fun w' => users w' = users w)
                  (PassengerRideRequest_save r))
      by other_table Hframe.
    now apply H.
  - assert (H : preserves (fun w' => users w' = users w) (Rating_save r))
      by other_table Hframe.
    now apply H.
  - assert (H : preserves (fun w' => users w' = users w) (ChatMessage_save c))
      by other_table Hframe.
    now apply H.
Qed.

(** X9. No call deletes a confirmed account.  A non-pending user row is
    still in the store after any call, unless the call is a [save] or an
    [update_rating] of an instance with the same key, which rewrites the
    row in place; in all cases the key is still in the store. *)
Theorem confirmed_account_is_never_deleted (dj : Django) (c : call)
    (w : World) (r : User) (i : nat) :
  In r (users w) ->
  pk r = Some i ->
  registration_pending r = false ->
  has_pk pk i (users (perform dj c w)) = true
  /\ match c with
     | Call_save self | Call_update_rating self _ _ =>
         pk self = Some i \/ In r (users (perform dj c w))
     | _ => In r (users (perform dj c w))
     end.
Proof.
  intros Hin Hr Hp.
  assert (Hfound : forall rows, In r rows -> has_pk pk i rows = true)
    by (intros rows H; apply has_pk_true; eauto).
  pose proof (other_save_keeps_users dj c w) as Hother.
  destruct c; simpl in *; try (rewrite Hother; auto).
  - pose proof (create_user_keeps dj email_arg password_arg extra_fields w r
                  Hin Hp). auto.
  - assert (H : In r (users (fst (create_superuser dj email_arg password_arg
                                    extra_fields w)))).
    { unfold create_superuser. cbv zeta.
      repeat match goal with
             | |- context [match ?x with _ => _ end] =>
                 match x with
                 | kw_is_staff _ => destruct x as [[|]|]
                 | kw_is_superuser _ => destruct x as [[|]|]
                 end
             end; try exact Hin; now apply create_user_keeps. }
    auto.
  - assert (H : In r (users (fst (cleanup_expired_registrations email_arg
                                    phone_arg w)))).
    { destruct (cleanup_expired_registrations_effect email_arg phone_arg w)
        as (n & _ & Hiff & _).
      apply Hiff. split; [exact Hin|]. unfold reclaimed. now rewrite Hp. }
    auto.
  - now apply save_keeps.
  - unfold update_rating.
    replace (pk self) with (pk (rated self new_rating as_driver))
      by (unfold rated; destruct as_driver; reflexivity).
    now apply save_keeps.
Qed.

Lemma confirmed_account_is_never_deleted_witness :
  In bob_row (users bob_confirmed)
  /\ registration_pending bob_row = false
  /\ has_pk pk 1
       (users (perform example_django
                 (Call_cleanup_expired_registrations
                    (Some "bob@example.com") (Some "5550100"))
                 bob_confirmed)) = true
  /\ In bob_row
       (users (perform example_django
                 (Call_cleanup_expired_registrations
                    (Some "bob@example.com") (Some "5550100"))
                 bob_confirmed)).
Proof.
  assert (Hin : In bob_row (users bob_confirmed)) by (left; reflexivity).
  split; [exact Hin|]. split; [reflexivity|].
  exact (confirmed_account_is_never_deleted example_django
           (Call_cleanup_expired_registrations (Some "bob@example.com")
              (Some "5550100"))
           bob_confirmed bob_row 1 Hin eq_refl eq_refl).
Defined.

(** *** Referential integrity *)

Lemma survivor {R} (pk_of : R -> option nat) (dead : R -> bool) (i : nat)
    (rows : list R) :
  has_pk pk_of i rows = true ->
  mem i (pks_of pk_of (filter dead rows)) = false ->
  has_pk pk_of i (filter (fun r => negb (dead r)) rows) = true.
Proof.
  intros Hpk Hmem. apply has_pk_true in Hpk as (x & Hin & Hx).
  apply has_pk_true. exists x. split; [|exact Hx].
  apply filter_In. split; [exact Hin|]. apply negb_true_iff.
  destruct (dead x) eqn:Hd; [|reflexivity].
  rewrite (mem_pks_of pk_of (filter dead rows) x i) in Hmem;
    [discriminate | | exact Hx].
  apply filter_In. now split.
Qed.

Lemma refs_ok_frame (w w' : World) : same_rows w w' -> refs_ok w -> refs_ok w'.
Proof.
  intros (Hu & Ho & Hr & Hq & Hg & Hc & _).
  unfold refs_ok, rating_keys_exist, user_exists, ride_exists.
  now rewrite Hu, Ho, Hr, Hq, Hg, Hc.
Qed.

Lemma refs_ok_delete (q : User -> bool) : preserves refs_ok (QuerySet_delete q).
Proof.
  intros w (Ho & Hr & Hq & Hg & Hc).
  unfold refs_ok, rating_keys_exist, user_exists, ride_exists,
    QuerySet_delete in *.
  cbn [fst users otps rides requests ratings chats set_users set_otps
       set_rides set_requests set_ratings set_chats].
  set (dead := pks_of pk (filter q (users w))).
  set (dead_ride := fun r : RideDetails => mem (driver r) dead).
  set (dead_rides := pks_of ride_pk (filter dead_ride (rides w))).
  assert (Huser : forall i, has_pk pk i (users w) = true ->
                            mem i dead = false ->
                            has_pk pk i (filter (fun u => negb (q u))
                                           (users w)) = true)
    by (intros i; apply survivor).
  assert (Hride : forall j, has_pk ride_pk j (rides w) = true ->
                            mem j dead_rides = false ->
                            has_pk ride_pk j
                              (filter (fun r => negb (dead_ride r))
                                 (rides w)) = true)
    by (intros j; apply survivor).
  split; [|split; [|split; [|split]]].
  - intros o i Hin Hi. apply filter_In in Hin as [Hin Hkeep].
    apply negb_true_iff in Hkeep. rewrite Hi in Hkeep. simpl in Hkeep.
    apply Huser; [now apply (Ho o) | exact Hkeep].
  - intros r Hin. apply filter_In in Hin as [Hin Hkeep].
    apply negb_true_iff in Hkeep. apply Huser; [now apply Hr | exact Hkeep].
  - intros r Hin. apply filter_In in Hin as [Hin Hkeep].
    apply negb_true_iff, orb_false_iff in Hkeep as [K1 K2].
    destruct (Hq r Hin) as [H1 H2]. split; auto.
  - intros r Hin. apply filter_In in Hin as [Hin Hkeep].
    apply negb_true_iff, orb_false_iff in Hkeep as [K K3].
    apply orb_false_iff in K as [K1 K2].
    specialize (Hg r Hin).
    apply andb_true_iff in Hg as [Hg H3].
    apply andb_true_iff in Hg as [H1 H2].
    apply andb_true_iff. split; [apply andb_true_iff; split|]; auto.
  - intros c Hin. apply filter_In in Hin as [Hin Hkeep].
    apply negb_true_iff, orb_false_iff in Hkeep as [K K3].
    apply orb_false_iff in K as [K1 K2].
    destruct (Hc c Hin) as (H1 & H2 & H3). repeat split; auto.
Qed.

Lemma refs_ok_more_users (w : World) (rows' : list User) :
  (forall i, has_pk pk i (users w) = true -> has_pk pk i rows' = true) ->
  refs_ok w -> refs_ok (set_users rows' w).
Proof.
  intros Hmore (Ho & Hr & Hq & Hg & Hc).
  unfold refs_ok, rating_keys_exist, user_exists, ride_exists in *.
  cbn [users otps rides requests ratings chats set_users].
  split; [|split; [|split; [|split]]].
  - intros o i Hin Hi. apply Hmore. now apply (Ho o).
  - intros r Hin. apply Hmore. now apply Hr.
  - intros r Hin. destruct (Hq r Hin). auto.
  - intros r Hin. specialize (Hg r Hin).
    apply andb_true_iff in Hg as [Hg H3].
    apply andb_true_iff in Hg as [H1 H2].
    apply andb_true_iff. split; [apply andb_true_iff; split|]; auto.
  - intros c Hin. destruct (Hc c Hin) as (H1 & H2 & H3). auto.
Qed.

Lemma refs_ok_create_otp (user : option nat) (kind : otp_kind) :
  preserves refs_ok (create_otp_for_user user kind).
Proof.
  intros w Hw.
  destruct (create_otp_for_user_spec user kind w)
    as (w' & key & created & digits & Hsame & _ & _ & _ & ->).
  assert (Hmarked : refs_ok (set_otps (map (superseded user kind) (otps w)) w)).
  { destruct Hw as (Ho & Hrest). split; [|exact Hrest].
    intros o i Hin Hi. simpl in Hin.
    apply in_map_iff in Hin as (o0 & <- & Hin).
    apply (Ho o0); [exact Hin|].
    unfold superseded in Hi. destruct (live_for user kind o0); exact Hi. }
  pose proof (refs_ok_frame _ _ Hsame Hmarked) as Hw'.
  match goal with |- context [if ?c then _ else _] => destruct c eqn:Hc end;
    simpl; [exact Hw'|].
  apply orb_false_iff in Hc as [_ Huser].
  destruct Hw' as (Ho & Hrest). split; [|exact Hrest].
  intros o i Hin Hi. simpl in Hin.
  apply in_app_or in Hin as [Hin | [<- | []]]; [now apply (Ho o)|].
  simpl in Hi. subst user. apply negb_false_iff in Huser. exact Huser.
Qed.

Lemma refs_ok_ride (r : RideDetails) : preserves refs_ok (RideDetails_save r).
Proof.
  unfold RideDetails_save. apply save_row_preserves.
  - reflexivity.
  - apply preserves_frame; [exact refs_ok_frame|].
    intros; apply nextval_frame.
  - intros w key row (Ho & Hr & Hq & Hg & Hc) _ _ Hacc.
    unfold refs_ok, rating_keys_exist, user_exists, ride_exists in *.
    cbn [users otps rides requests ratings chats set_rides].
    assert (Hmore : forall j, has_pk ride_pk j (rides w) = true ->
                              has_pk ride_pk j (rides w ++ [row]) = true)
      by (intros j; apply has_pk_app).
    split; [exact Ho|]. split; [|split; [|split]].
    + intros x Hx. apply in_app_or in Hx as [Hx | [<- | []]]; auto.
    + intros x Hx. destruct (Hq x Hx). auto.
    + intros x Hx. specialize (Hg x Hx).
      apply andb_true_iff in Hg as [Hg H3].
      apply andb_true_iff in Hg as [H1 H2].
      apply andb_true_iff. split; [apply andb_true_iff; split|]; auto.
    + intros x Hx. destruct (Hc x Hx) as (H1 & H2 & H3). auto.
  - intros w i row (Ho & Hr & Hq & Hg & Hc) Hrow _ Hacc.
    unfold refs_ok, rating_keys_exist, user_exists, ride_exists in *.
    cbn [users otps rides requests ratings chats set_rides].
    assert (Hsame : forall j, has_pk ride_pk j
                                (replace_pk ride_pk i row (rides w))
                              = has_pk ride_pk j (rides w))
      by (intros j; now apply has_pk_replace).
    split; [exact Ho|]. split; [|split; [|split]].
    + intros x Hx. apply In_replace_pk in Hx as [-> | Hx]; [exact Hacc|].
      apply In_exclude_pk in Hx as [Hx _]. auto.
    + intros x Hx. rewrite Hsame. auto.
    + intros x Hx. rewrite Hsame. auto.
    + intros x Hx. rewrite Hsame. auto.
Qed.

Lemma refs_ok_request (r : PassengerRideRequest) :
  preserves refs_ok (PassengerRideRequest_save r).
Proof.
  unfold PassengerRideRequest_save. apply save_row_preserves.
  - reflexivity.
  - apply preserves_frame; [exact refs_ok_frame|].
    intros; apply nextval_frame.
  - intros w key row (Ho & Hr & Hq & Hg & Hc) _ _ Hacc.
    apply andb_true_iff in Hacc.
    split; [exact Ho|]. split; [exact Hr|]. split; [|split; assumption].
    intros x Hx. simpl in Hx.
    apply in_app_or in Hx as [Hx | [<- | []]]; [now apply Hq | exact Hacc].
  - intros w i row (Ho & Hr & Hq & Hg & Hc) _ _ Hacc.
    apply andb_true_iff in Hacc.
    split; [exact Ho|]. split; [exact Hr|]. split; [|split; assumption].
    intros x Hx. simpl in Hx.
    apply In_replace_pk in Hx as [-> | Hx]; [exact Hacc|].
    apply In_exclude_pk in Hx as [Hx _]. now apply Hq.
Qed.

Lemma refs_ok_rating (r : Rating) : preserves refs_ok (Rating_save r).
Proof.
  unfold Rating_save. apply save_row_preserves.
  - reflexivity.
  - apply preserves_frame; [exact refs_ok_frame|].
    intros; apply nextval_frame.
  - intros w key row (Ho & Hr & Hq & Hg & Hc) _ _ Hacc.
    apply andb_true_iff in Hacc as [Hacc _].
    split; [exact Ho|]. split; [exact Hr|]. split; [exact Hq|].
    split; [|exact Hc].
    intros x Hx. simpl in Hx.
    apply in_app_or in Hx as [Hx | [<- | []]]; [now apply Hg | exact Hacc].
  - intros w i row (Ho & Hr & Hq & Hg & Hc) _ _ Hacc.
    apply andb_true_iff in Hacc as [Hacc _].
    split; [exact Ho|]. split; [exact Hr|]. split; [exact Hq|].
    split; [|exact Hc].
    intros x Hx. simpl in Hx.
    apply In_replace_pk in Hx as [-> | Hx]; [exact Hacc|].
    apply In_exclude_pk in Hx as [Hx _]. now apply Hg.
Qed.

Lemma refs_ok_chat (c : ChatMessage) : preserves refs_ok (ChatMessage_save c).
Proof.
  unfold ChatMessage_save. apply save_row_preserves.
  - reflexivity.
  - apply preserves_frame; [exact refs_ok_frame|].
    intros; apply nextval_frame.
  - intros w key row (Ho & Hr & Hq & Hg & Hc) _ _ Hacc.
    apply andb_true_iff in Hacc as [Hacc H3].
    apply andb_true_iff in Hacc as [H1 H2].
    split; [exact Ho|]. split; [exact Hr|]. split; [exact Hq|].
    split; [exact Hg|].
    intros x Hx. simpl in Hx.
    apply in_app_or in Hx as [Hx | [<- | []]]; [now apply Hc | auto].
  - intros w i row (Ho & Hr & Hq & Hg & Hc) _ _ Hacc.
    apply andb_true_iff in Hacc as [Hacc H3].
    apply andb_true_iff in Hacc as [H1 H2].
    split; [exact Ho|]. split; [exact Hr|]. split; [exact Hq|].
    split; [exact Hg|].
    intros x Hx. simpl in Hx.
    apply In_replace_pk in Hx as [-> | Hx]; [auto|].
    apply In_exclude_pk in Hx as [Hx _]. now apply Hc.
Qed.

Lemma refs_ok_reachable (dj : Django) (w : World) :
  reachable dj w -> refs_ok w.
Proof.
  apply (invariant_reachable dj refs_ok).
  - exact refs_ok_frame.
  - exact refs_ok_delete.
  - intros w0 key row H _ _ _. apply refs_ok_more_users; [|exact H].
    intros i. apply has_pk_app.
  - intros w0 i row H Hrow _ _. apply refs_ok_more_users; [|exact H].
    intros j Hj. now rewrite has_pk_replace.
  - exact refs_ok_create_otp.
  - exact refs_ok_ride.
  - exact refs_ok_request.
  - exact refs_ok_rating.
  - exact refs_ok_chat.
  - intros now. unfold refs_ok. simpl.
    repeat split; intros; contradiction.
Qed.

(** X10. Referential integrity.  In every reachable store each foreign
    key points to a row of the store: the user of an OTP (when it has
    one), the driver of a ride, the passenger and the ride of a request,
    the ride and the two users of a rating, the ride and the two users of
    a chat message.  The cascading deletes of the cleanup and of [save]
    leave no dangling reference. *)
Theorem references_always_resolve (dj : Django) (w : World) :
  reachable dj w -> refs_ok w.
Proof.
  apply (invariant_reachable dj refs_ok).
  - exact refs_ok_frame.
  - exact refs_ok_delete.
  - intros w0 key row H _ _ _. apply refs_ok_more_users; [|exact H].
    intros i. apply has_pk_app.
  - intros w0 i row H Hrow _ _. apply refs_ok_more_users; [|exact H].
    intros j Hj. now rewrite has_pk_replace.
  - exact refs_ok_create_otp.
  - exact refs_ok_ride.
  - exact refs_ok_request.
  - exact refs_ok_rating.
  - exact refs_ok_chat.
  - intros now. unfold refs_ok. simpl.
    repeat split; intros; contradiction.
Qed.

Lemma references_always_resolve_witness :
  reachable example_django (rated_seven example_django)
  /\ refs_ok (rated_seven example_django).
Proof.
  assert (H : reachable example_django (rated_seven example_django)).
  { unfold rated_seven, ride_taken. repeat apply reachable_call.
    apply reachable_empty. }
  split; [exact H|].
  exact (references_always_resolve example_django
           (rated_seven example_django) H).
Defined.

(** *** The driver-verified flag *)

(** X11. [save] called without arguments recomputes [is_driver_verified]:
    whatever value the instance carries, the row that [save] stores and
    returns has a key and is flagged driver-verified exactly when a
    driver's-license image is attached to the instance.  [update_rating],
    which ends in such a [save], rewrites the flag in the same way. *)
Theorem driver_verification_is_derived (self : User) (w : World) :
  match save self w with
  | (w', Ok saved) =>
      In saved (users w')
      /\ (exists i, pk saved = Some i)
      /\ drivers_license_image saved = drivers_license_image self
      /\ is_driver_verified saved = truthy (drivers_license_image self)
  | (_, Raise e) => e = IntegrityError
  end
  /\ forall new_rating as_driver,
       match update_rating self new_rating as_driver w with
       | (w', Ok saved) =>
           In saved (users w')
           /\ drivers_license_image saved = drivers_license_image self
           /\ is_driver_verified saved = truthy (drivers_license_image self)
       | (_, Raise e) => e = IntegrityError
       end.
Proof.
  split.
  - pose proof (save_returns self w) as H.
    destruct (save self w) as [w' [saved|e]]; [|exact H].
    destruct H as (Hin & key & created & updated & ->).
    split; [exact Hin|]. simpl. eauto.
  - intros new_rating as_driver. unfold update_rating.
    pose proof (save_returns (rated self new_rating as_driver) w) as H.
    destruct (save _ w) as [w' [saved|e]]; [|exact H].
    destruct H as (Hin & key & created & updated & ->).
    split; [exact Hin|]. unfold rated. destruct as_driver; simpl; auto.
Qed.

(** *** What happens to stored OTPs *)

Lemma derives_refl (o : OTP) : derives o o.
Proof. unfold derives. repeat split; auto. Qed.

Lemma superseded_derives (user : option nat) (kind : otp_kind) (o : OTP) :
  derives o (superseded user kind o).
Proof.
  unfold superseded. destruct (live_for user kind o);
    [|apply derives_refl].
  unfold derives. simpl. repeat split; auto.
Qed.

Lemma otps_only_shrink (dj : Django) (c : call) (w : World) (o : OTP) :
  match c with
  | Call_create_otp_for_user _ _ => True
  | _ => In o (otps (perform dj c w)) -> In o (otps w)
  end.
Proof.
  set (I := fun w' : World => forall o, In o (otps w') -> In o (otps w)).
  assert (Hframe : forall w1 w2, same_rows w1 w2 -> I w1 -> I w2)
    by (intros w1 w2 (_ & Ho & _) H x; rewrite Ho; apply H).
  assert (Hdelete : forall q, preserves I (QuerySet_delete q)).
  { intros q w0 H x Hin. apply H. unfold QuerySet_delete in Hin.
    simpl in Hin. now apply filter_In in Hin. }
  assert (Hins : forall w0 key row,
             I w0 -> pk row = Some key -> has_pk pk key (users w0) = false ->
             user_row_accepted (users w0) row = true ->
             I (set_users (users w0 ++ [row]) w0))
    by (intros w0 key row H _ _ _; exact H).
  assert (Hupd : forall w0 i row,
             I w0 -> pk row = Some i -> has_pk pk i (users w0) = true ->
             user_row_accepted (exclude_pk pk i (users w0)) row = true ->
             I (set_users (replace_pk pk i row (users w0)) w0))
    by (intros w0 i row H _ _ _; exact H).
  assert (H0 : I w) by (intros x Hx; exact Hx).
  destruct c; try exact Logic.I; simpl.
  - exact (I_create_user dj I Hframe Hdelete Hins Hupd email_arg password_arg
             extra_fields w H0 o).
  - exact (I_create_superuser dj I Hframe Hdelete Hins Hupd email_arg
             password_arg extra_fields w H0 o).
  - exact (I_cleanup I Hframe Hdelete email_arg phone_arg w H0 o).
  - exact (I_save I Hframe Hdelete Hins Hupd self w H0 o).
  - exact (I_save I Hframe Hdelete Hins Hupd _ w H0 o).
  - assert (H : preserves I (RideDetails_save r)) by other_table Hframe.
    exact (H w H0 o).
  - assert (H : preserves I (PassengerRideRequest_save r))
      by other_table Hframe.
    exact (H w H0 o).
  - assert (H : preserves I (Rating_save r)) by other_table Hframe.
    exact (H w H0 o).
  - assert (H : preserves I (ChatMessage_save c)) by other_table Hframe.
    exact (H w H0 o).
Qed.

(** X12. What a call can do to the OTPs.  An OTP of the store after a
    call is an OTP of the store before it with the same key, user, code,
    creation time, attempts and purpose, whose [is_verified] flag was
    kept or set but never cleared; or else the call is
    [create_otp_for_user] and the OTP is the unverified one it has just
    made, with no attempts and a code of six digits.  Calls other than
    [create_otp_for_user] leave the surviving OTPs as they are. *)
Theorem stored_otps_are_only_superseded (dj : Django) (c : call) (w : World)
    (o' : OTP) :
  In o' (otps (perform dj c w)) ->
  (exists o, In o (otps w) /\ derives o o'
             /\ match c with
                | Call_create_otp_for_user _ _ => True
                | _ => o' = o
                end)
  \/ ((exists user kind, c = Call_create_otp_for_user user kind)
      /\ is_verified o' = false /\ attempts o' = 0 /\ six_digits (code o')).
Proof.
  intros Hin. pose proof (otps_only_shrink dj c w o') as Hshrink.
  destruct c; try (left; exists o'; split; [now apply Hshrink|];
                   split; [apply derives_refl | reflexivity]).
  simpl in Hin.
  destruct (create_otp_for_user_spec user kind w)
    as (w' & key & created & digits & (_ & Ho & _) & _ & Hlen & Hall & Heq).
  cbv zeta in Heq. rewrite Heq in Hin. clear Heq. simpl in Ho.
  assert (Hold : In o' (otps w') ->
                 exists o, In o (otps w) /\ derives o o' /\ True).
  { rewrite Ho. intros H. apply in_map_iff in H as (o & <- & H).
    exists o. split; [exact H|]. split; [apply superseded_derives | exact I]. }
  match type of Hin with
  | context [if ?b then _ else _] => destruct b
  end; simpl in Hin.
  - left. now apply Hold.
  - apply in_app_or in Hin as [Hin | [<- | []]]; [left; now apply Hold|].
    right. split; [eauto|]. simpl.
    destruct (code_of_digits digits Hall) as [Hclen Hcdig].
    repeat split; auto. now rewrite Hclen.
Qed.

Lemma stored_otps_are_only_superseded_witness :
  In guessed_out (otps (set_otps [guessed_out] alice_registered))
  /\ In (with_is_verified true guessed_out)
       (otps (perform example_django (Call_create_otp_for_user (Some 1%nat) EMAIL)
                (set_otps [guessed_out] alice_registered)))
  /\ ((exists o, In o (otps (set_otps [guessed_out] alice_registered))
                 /\ derives o (with_is_verified true guessed_out) /\ True)
      \/ ((exists user kind,
              Call_create_otp_for_user (Some 1%nat) EMAIL
              = Call_create_otp_for_user user kind)
          /\ is_verified (with_is_verified true guessed_out) = false
          /\ attempts (with_is_verified true guessed_out) = 0
          /\ six_digits (code (with_is_verified true guessed_out)))).
Proof.
  assert (Hin : In (with_is_verified true guessed_out)
                  (otps (perform example_django
                           (Call_create_otp_for_user (Some 1%nat) EMAIL)
                           (set_otps [guessed_out] alice_registered))))
    by (vm_compute; left; reflexivity).
  split; [left; reflexivity|]. split; [exact Hin|].
  exact (stored_otps_are_only_superseded example_django
           (Call_create_otp_for_user (Some 1%nat) EMAIL)
           (set_otps [guessed_out] alice_registered)
           (with_is_verified true guessed_out) Hin).
Defined.

(** *** A freshly issued OTP *)

Lemma comprehension_randint_clock (n : nat) (w : World) :
  clock (fst (comprehension n (randint 0 9) w)) = clock w.
Proof.
  revert w. induction n as [|n IH]; intros w; [reflexivity|].
  simpl. unfold bind at 1.
  assert (Hr : exists w1 d, randint 0 9 w = (w1, Ok d) /\ clock w1 = clock w).
  { unfold randint. destruct (dice w); eexists; eexists; split; reflexivity. }
  destruct Hr as (w1 & d & -> & Hc).
  unfold bind. specialize (IH w1).
  destruct (comprehension n (randint 0 9) w1) as [w2 [ds|x]]; simpl in *;
    congruence.
Qed.

Lemma create_otp_for_user_stamp (user : option nat) (kind : otp_kind)
    (w : World) :
  match create_otp_for_user user kind w with
  | (w', Ok otp) =>
      clock w <= otp_created_at otp /\ otp_created_at otp = clock w'
      /\ is_verified otp = false /\ attempts otp = 0
  | (_, Raise _) => True
  end.
Proof.
  unfold create_otp_for_user. unfold bind at 1. unfold modify at 1.
  set (w0 := set_otps _ w).
  assert (H0 : clock w0 = clock w) by reflexivity.
  unfold bind at 1.
  pose proof (comprehension_randint_clock 6 w0) as Hc.
  destruct (comprehension_randint 6 w0) as (w1 & digits & Heq & _).
  rewrite Heq in *. simpl in Hc.
  unfold OTP_objects_create.
  cbv beta iota zeta delta [bind gets modify ret raise].
  destruct (timezone_now_returns w1)
    as (w2 & -> & _ & _ & _ & _ & _ & _ & _ & _ & T).
  unfold nextval. cbn [fst users otps set_sequence].
  match goal with |- context [if ?c then _ else _] => destruct c end;
    [exact I|].
  simpl. repeat split; lia.
Qed.

Lemma create_otp_for_user_returns (w : World) (user : option nat)
    (kind : otp_kind) :
  match user with
  | Some i => user_exists w i = true
  | None => True
  end ->
  has_pk otp_pk (sequence w T_otp) (otps w) = false ->
  exists otp, snd (create_otp_for_user user kind w) = Ok otp.
Proof.
  intros Huser Hfree.
  destruct (create_otp_for_user_at user kind w)
    as (w1 & created & digits & (Hu & Ho & _) & _ & _ & Heq).
  cbv zeta in Heq. rewrite Heq. clear Heq. simpl in Hu, Ho.
  assert (Hpk : has_pk otp_pk (sequence w T_otp) (otps w1) = false).
  { destruct (has_pk otp_pk (sequence w T_otp) (otps w1)) eqn:E;
      [|reflexivity].
    apply has_pk_true in E as (o & Hin & Hkey). exfalso.
    apply (has_pk_false _ _ _ Hfree).
    rewrite <- (superseded_pk user kind), <- Ho, <- Hkey.
    now apply in_map. }
  rewrite Hpk.
  destruct user as [i|]; [|eexists; reflexivity].
  unfold user_exists in Huser. rewrite Hu, Huser. eexists. reflexivity.
Qed.

(** X14. An OTP is valid from the moment it is issued and for ten
    minutes.  In any store in which the next key of the OTP sequence is
    free, whatever OTPs it holds and however often they were tried, for a
    user that exists (or no user), [create_otp_for_user] returns an OTP
    stamped with a time read during the call; [is_valid] on it is true
    exactly when the clock it reads is at most ten minutes past that
    stamp, so it is true whenever that clock is within ten minutes of the
    start of the call; and [time_since_creation] is not negative once the
    call is over. *)
Theorem fresh_otp_is_valid_for_ten_minutes (w : World)
    (user : option nat) (kind : otp_kind) :
  match user with
  | Some i => user_exists w i = true
  | None => True
  end ->
  has_pk otp_pk (sequence w T_otp) (otps w) = false ->
  exists otp,
    snd (create_otp_for_user user kind w) = Ok otp
    /\ clock w <= otp_created_at otp
    /\ otp_created_at otp = clock (fst (create_otp_for_user user kind w))
    /\ forall w2,
         (snd (is_valid otp w2) = Ok true <->
          clock (fst (is_valid otp w2))
          <= otp_created_at otp + timedelta_minutes 10)
         /\ (clock (fst (is_valid otp w2)) <= clock w + timedelta_minutes 10 ->
             snd (is_valid otp w2) = Ok true)
         /\ (clock (fst (create_otp_for_user user kind w)) <= clock w2 ->
             exists t, snd (time_since_creation otp w2) = Ok t /\ 0 <= t).
Proof.
  intros Huser Hfree.
  destruct (create_otp_for_user_returns w user kind Huser Hfree)
    as (otp & Hok).
  pose proof (create_otp_for_user_stamp user kind w) as Hstamp.
  destruct (create_otp_for_user user kind w) as [w' r]. simpl in Hok.
  subst r. destruct Hstamp as (Hlo & Hhi & Hv & Ha).
  exists otp. simpl. split; [reflexivity|]. do 2 (split; [assumption|]).
  intros w2.
  assert (Hvalid : snd (is_valid otp w2) = Ok true <->
                   clock (fst (is_valid otp w2))
                   <= otp_created_at otp + timedelta_minutes 10).
  { unfold is_valid. cbv beta iota zeta delta [bind ret].
    destruct (timezone_now_returns w2) as (w3 & -> & _). cbn [fst snd].
    rewrite Hv, Ha. change (0 <? 3) with true. cbn [negb].
    rewrite !andb_true_r.
    split; [intros H; injection H as H; apply Z.leb_le; exact H
           | intros H; apply Z.leb_le in H; rewrite H; reflexivity]. }
  split; [exact Hvalid|]. split.
  - intros H. apply Hvalid. lia.
  - intros H. unfold time_since_creation.
    cbv beta iota zeta delta [bind ret].
    destruct (timezone_now_returns w2)
      as (w3 & -> & _ & _ & _ & _ & _ & _ & _ & _ & T).
    simpl. eexists. split; [reflexivity|]. lia.
Qed.

Lemma fresh_otp_is_valid_for_ten_minutes_witness :
  (exists old, otps alice_guessed_twice = [old] /\ attempts old = 2)
  /\ exists otp,
       snd (create_otp_for_user (Some 1%nat) EMAIL alice_guessed_twice)
       = Ok otp
       /\ snd (is_valid otp
                 (supply [(9 * one_minute)%N] [] alice_guessed_twice))
          = Ok true.
Proof.
  destruct alice_guessed_twice_otps as (old & Hrows & _ & Hatt & Hu & Hk).
  split; [exists old; split; assumption|].
  destruct (fresh_otp_is_valid_for_ten_minutes alice_guessed_twice
              (Some 1%nat) EMAIL Hu Hk)
    as (otp & Hok & _ & _ & Hlater).
  exists otp. split; [exact Hok|].
  apply (Hlater (supply [(9 * one_minute)%N] [] alice_guessed_twice)).
  vm_compute. discriminate.
Defined.

(** *** Validated ratings *)

Lemma exclude_pk_absent {R} (pk_of : R -> option nat) (i : nat)
    (rows : list R) :
  has_pk pk_of i rows = false -> exclude_pk pk_of i rows = rows.
Proof.
  unfold has_pk, exclude_pk. induction rows as [|r rows IH]; [reflexivity|].
  simpl. intros H. apply orb_false_iff in H as [-> H]. simpl.
  now rewrite IH.
Qed.

(** X15. Validation is enough for a rating to be stored.  When
    [full_clean] accepts a rating (and, for a rating without a key, the
    next key of the sequence is free), [save] does not raise: it returns
    the rating with its ride, users and score unchanged, the score is
    between 1 and 5, the row is in the table afterwards, and no other row
    of the table rates the same ride between the same two users. *)
Theorem validated_rating_is_saved (r : Rating) (w : World) :
  snd (Rating_full_clean r w) = Ok tt ->
  (rating_pk r = None ->
   has_pk rating_pk (sequence w T_rating) (ratings w) = false) ->
  exists row,
    snd (Rating_save r w) = Ok row
    /\ rating_ride row = rating_ride r /\ from_user row = from_user r
    /\ to_user row = to_user r /\ score row = score r
    /\ 1 <= score row <= 5
    /\ In row (ratings (fst (Rating_save r w)))
    /\ forall other,
         In other (ratings (fst (Rating_save r w))) ->
         same_triple row other = true -> rating_pk other = rating_pk row.
Proof.
  intros Hclean Hfree. unfold Rating_full_clean in Hclean.
  cbv beta iota zeta delta [bind gets ret raise] in Hclean.
  cbn [fst snd] in Hclean.
  destruct ((1 <=? score r) && (score r <=? 5) && rating_keys_exist w r
            && negb (existsb (same_triple r) (rating_peers w r))) eqn:Hc;
    [clear Hclean | discriminate].
  apply andb_true_iff in Hc as [Hc Hpeers].
  apply andb_true_iff in Hc as [Hc Hkeys].
  apply andb_true_iff in Hc as [Hlo Hhi].
  apply Z.leb_le in Hlo, Hhi. apply negb_true_iff in Hpeers.
  destruct r as [k ride f t s]. unfold rating_peers in Hpeers.
  cbn [rating_pk score] in *.
  unfold Rating_save, save_row. cbn [rating_pk].
  destruct k as [i|].
  - cbv beta iota zeta delta [bind gets ret raise modify insert_row].
    cbn [fst snd rating_pk rating_ride from_user to_user score].
    destruct (has_pk rating_pk i (ratings w)) eqn:Hpk.
    + rewrite Hkeys, Hpeers. cbn [andb negb fst snd ratings set_ratings].
      eexists. split; [reflexivity|]. cbn [rating_ride from_user to_user score rating_pk].
      repeat (split; [reflexivity || lia|]). split.
      * apply has_pk_true in Hpk as (r0 & Hin & Hr0).
        unfold replace_pk. apply in_map_iff. exists r0.
        split; [|exact Hin]. rewrite Hr0. simpl. now rewrite Nat.eqb_refl.
      * intros other Hin Hsame. apply In_replace_pk in Hin as [->|Hin];
          [reflexivity|].
        rewrite (existsb_false _ _ other Hpeers Hin) in Hsame. discriminate.
    + rewrite Hpk. rewrite (exclude_pk_absent _ _ _ Hpk) in Hpeers.
      change (rating_keys_exist w _) with
        (rating_keys_exist w {| rating_pk := Some i; rating_ride := ride;
           from_user := f; to_user := t; score := s |}).
      rewrite Hkeys.
      change (existsb (same_triple _) (ratings w)) with
        (existsb (same_triple {| rating_pk := Some i; rating_ride := ride;
           from_user := f; to_user := t; score := s |}) (ratings w)).
      rewrite Hpeers. cbn [andb orb negb fst snd ratings set_ratings].
      eexists. split; [reflexivity|]. cbn [rating_ride from_user to_user score rating_pk].
      repeat (split; [reflexivity || lia|]). split.
      * apply in_or_app. right. left. reflexivity.
      * intros other Hin Hsame. apply in_app_or in Hin as [Hin|[<-|[]]];
          [|reflexivity].
        rewrite (existsb_false _ _ other Hpeers Hin) in Hsame. discriminate.
  - specialize (Hfree eq_refl).
    cbv beta iota zeta delta [bind gets ret raise modify insert_row nextval].
    cbn [fst snd rating_pk rating_ride from_user to_user score ratings
         set_sequence].
    rewrite Hfree.
    change (rating_keys_exist (set_sequence _ w) _) with
      (rating_keys_exist w {| rating_pk := None; rating_ride := ride;
         from_user := f; to_user := t; score := s |}).
    rewrite Hkeys.
    change (existsb (same_triple _) (ratings w)) with
      (existsb (same_triple {| rating_pk := None; rating_ride := ride;
         from_user := f; to_user := t; score := s |}) (ratings w)).
    rewrite Hpeers. cbn [andb orb negb fst snd ratings set_ratings].
    eexists. split; [reflexivity|]. cbn [rating_ride from_user to_user score rating_pk].
    repeat (split; [reflexivity || lia|]). split.
    + apply in_or_app. right. left. reflexivity.
    + intros other Hin Hsame. apply in_app_or in Hin as [Hin|[<-|[]]];
        [|reflexivity].
      change (same_triple _ other) with
        (same_triple {| rating_pk := None; rating_ride := ride;
           from_user := f; to_user := t; score := s |} other) in Hsame.
      rewrite (existsb_false _ _ other Hpeers Hin) in Hsame. discriminate.
Qed.

Lemma validated_rating_is_saved_witness :
  snd (Rating_full_clean five_stars (ride_taken example_django)) = Ok tt
  /\ exists row,
       snd (Rating_save five_stars (ride_taken example_django)) = Ok row
       /\ score row = 5.
Proof.
  assert (H : snd (Rating_full_clean five_stars (ride_taken example_django))
              = Ok tt) by (vm_compute; reflexivity).
  split; [exact H|].
  destruct (validated_rating_is_saved five_stars (ride_taken example_django) H)
    as (row & Hok & _ & _ & _ & Hs & _); [intros _; vm_compute; reflexivity|].
  exists row. split; [exact Hok | exact Hs].
Defined.

(** *** Ratings stay on the scale *)

Lemma scale_closed_holds : scale_closed two_decimals = true.
Proof. vm_compute. reflexivity. Qed.

Lemma scale_closed_spec (scale : list (Z * float)) (n s : Z) :
  scale_closed scale = true ->
  In n (up_to 500) -> In s [1; 2; 3; 4; 5] ->
  exists m, next_hundredths scale n s = Some m.
Proof.
  unfold scale_closed. intros H Hn Hs.
  rewrite forallb_forall in H. specialize (H n Hn).
  rewrite forallb_forall in H. specialize (H s Hs).
  destruct (next_hundredths scale n s) as [m|]; [|discriminate].
  exists m. reflexivity.
Qed.

Lemma within_spec (n s m : Z) :
  within n s m = true ->
  Z.min n (100 * s) <= m <= Z.max n (100 * s)
  /\ (m = 100 * s <-> n = 100 * s).
Proof.
  unfold within. intros H.
  apply andb_true_iff in H as [H Hiff]. apply andb_true_iff in H as [Hlo Hhi].
  apply Z.leb_le in Hlo, Hhi. apply Bool.eqb_prop in Hiff.
  split; [split; assumption|].
  rewrite <- !Z.eqb_eq. rewrite Hiff. reflexivity.
Qed.

Lemma next_hundredths_sound (scale : list (Z * float)) (n s m : Z) :
  Forall (fun mf => snd mf = hundredths (fst mf)) scale ->
  next_hundredths scale n s = Some m ->
  round (WEIGHT_OLD * hundredths n + WEIGHT_NEW * stars s) 2 = hundredths m
  /\ within n s m = true.
Proof.
  intros Hscale. unfold next_hundredths. cbv zeta.
  destruct (find _ scale) as [[m0 f]|] eqn:Hfind; [|discriminate].
  intros [= <-]. apply find_some in Hfind as [Hin H].
  rewrite Forall_forall in Hscale. specialize (Hscale _ Hin).
  cbn [fst snd] in *. apply andb_true_iff in H as [Heq Hw].
  apply FloatAxioms.Leibniz.eqb_spec in Heq. split; congruence.
Qed.

Lemma next_hundredths_spec (n s : Z) :
  0 <= n <= 500 -> 1 <= s <= 5 ->
  exists m,
    round (WEIGHT_OLD * hundredths n + WEIGHT_NEW * stars s) 2 = hundredths m
    /\ Z.min n (100 * s) <= m <= Z.max n (100 * s)
    /\ (m = 100 * s <-> n = 100 * s).
Proof.
  intros Hn Hs.
  assert (Hin : In s [1; 2; 3; 4; 5]).
  { assert (E : s = 1 \/ s = 2 \/ s = 3 \/ s = 4 \/ s = 5) by lia.
    simpl. intuition auto. }
  assert (Hn' : 0 <= n <= Z.of_nat 500) by lia.
  destruct (scale_closed_spec two_decimals n s scale_closed_holds
              (In_up_to 500 n Hn') Hin) as (m & E).
  destruct (next_hundredths_sound _ _ _ _ two_decimals_scale E) as [Hm Hw].
  exists m. split; [exact Hm|]. apply within_spec. exact Hw.
Qed.

(** X16. Ratings stay on the scale.  When the rating of the chosen role
    is a two-decimal value between 0.00 and 5.00 and the sample is a
    score from 1 to 5, the rating [update_rating] stores is again a
    two-decimal value, it lies between the old rating and the score, and
    it equals the score only if the old rating already did; the rating of
    the other role is the old one. *)
Theorem update_rating_stays_on_the_scale (self : User) (n s : Z)
    (as_driver : bool) (w : World) :
  0 <= n <= 500 ->
  1 <= s <= 5 ->
  rating_of as_driver self = hundredths n ->
  match update_rating self (stars s) as_driver w with
  | (w', Ok saved) =>
      In saved (users w')
      /\ rating_of (negb as_driver) saved = rating_of (negb as_driver) self
      /\ exists m,
           rating_of as_driver saved = hundredths m
           /\ Z.min n (100 * s) <= m <= Z.max n (100 * s)
           /\ (m = 100 * s <-> n = 100 * s)
  | (_, Raise e) => e = IntegrityError
  end.
Proof.
  intros Hn Hs Hold. unfold update_rating.
  pose proof (save_returns (rated self (stars s) as_driver) w) as H.
  destruct (save _ w) as [w' [saved|e]]; [|exact H].
  destruct H as (Hin & key & created & updated & ->).
  split; [exact Hin|].
  destruct (next_hundredths_spec n s Hn Hs) as (m & Hm & Hbounds).
  destruct as_driver; cbn [negb rating_of] in *; unfold rated;
    (split; [reflexivity|]); exists m; (split; [|exact Hbounds]);
    cbn [stored_as with_is_driver_verified with_rating_as_driver
         with_rating_as_passenger rating_as_driver rating_as_passenger];
    rewrite Hold; exact Hm.
Qed.

Lemma update_rating_stays_on_the_scale_witness :
  rating_of true dana = hundredths 0
  /\ stars 4 = 4%float /\ hundredths 120 = 1.2%float
  /\ exists saved,
       snd (update_rating dana (stars 4) true dana_saved) = Ok saved
       /\ rating_as_driver saved = hundredths 120.
Proof.
  assert (H0 : rating_of true dana = hundredths 0) by (vm_compute; reflexivity).
  split; [exact H0|]. do 2 (split; [vm_compute; reflexivity|]).
  pose proof (update_rating_stays_on_the_scale dana 0 4 true dana_saved
                ltac:(lia) ltac:(lia) H0) as H.
  assert (Hrun : exists w' saved,
             update_rating dana (stars 4) true dana_saved = (w', Ok saved)
             /\ rating_as_driver saved = hundredths 120).
  { do 2 eexists. split; vm_compute; reflexivity. }
  destruct Hrun as (w' & saved & Hrun & Hval).
  rewrite Hrun in H. destruct H as (_ & _ & m & Hm & _).
  exists saved. rewrite Hrun. split; [reflexivity | exact Hval].
Defined.

(** *** String forms of stored rows *)

Lemma related_user_found (w : World) (i : nat) :
  user_exists w i = true ->
  exists u, related_user w i = Some u /\ In u (users w) /\ pk u = Some i.
Proof.
  unfold user_exists, related_user. intros H.
  apply has_pk_true in H as (r & Hin & Hr).
  destruct (find _ (users w)) as [u|] eqn:E.
  - apply find_some in E as [Hu Hk]. apply key_eqb_eq in Hk.
    exists u. repeat split; assumption.
  - apply (find_none _ _ E) in Hin. rewrite Hr in Hin. simpl in Hin.
    now rewrite Nat.eqb_refl in Hin.
Qed.

(** X17. The string form of a stored OTP.  In a reachable store,
    [OTP.__str__] of a stored OTP raises exactly when the OTP has no
    user (the [AttributeError] of [None.email]); otherwise its user is a
    row of the store and the result is the type, that user's email, the
    code and [Verified] or [Pending].  The lookup of the user never
    fails. *)
Theorem str_of_stored_otp (dj : Django) (w : World) (o : OTP) :
  reachable dj w ->
  In o (otps w) ->
  match otp_user o with
  | None => OTP_str o w = AttributeError
  | Some i =>
      exists u,
        In u (users w) /\ pk u = Some i
        /\ OTP_str o w
           = Shown (otp_type_value (otp_type o) ++ " OTP for " ++ email u
                    ++ " (" ++ code o ++ ") - "
                    ++ (if is_verified o then "Verified" else "Pending"))%string
  end.
Proof.
  intros Hreach Hin. unfold OTP_str.
  destruct (otp_user o) as [i|] eqn:Hu; [|reflexivity].
  destruct (refs_ok_reachable dj w Hreach) as (Hotp & _).
  destruct (related_user_found w i (Hotp o i Hin Hu)) as (u & -> & Hiu & Hk).
  exists u. repeat split; assumption.
Qed.

Lemma str_of_stored_otp_witness :
  reachable example_django alice_with_otp
  /\ exists o,
       In o (otps alice_with_otp)
       /\ OTP_str o alice_with_otp
          = Shown "EMAIL OTP for alice@example.com (314159) - Pending".
Proof.
  assert (H : reachable example_django alice_with_otp).
  { unfold alice_with_otp, alice_registered.
    apply reachable_call, reachable_supply, reachable_call, reachable_empty. }
  split; [exact H|].
  assert (Ho : exists o, otps alice_with_otp = [o]
                         /\ otp_user o = Some 1%nat
                         /\ OTP_str o alice_with_otp
                            = Shown "EMAIL OTP for alice@example.com (314159) - Pending").
  { eexists. split; [vm_compute; reflexivity|].
    split; vm_compute; reflexivity. }
  destruct Ho as (o & Hrows & Huser & Hstr).
  assert (Hin : In o (otps alice_with_otp)) by (rewrite Hrows; left; reflexivity).
  pose proof (str_of_stored_otp example_django alice_with_otp o H Hin) as Hs.
  rewrite Huser in Hs. destruct Hs as (u & _ & _ & _).
  exists o. split; [exact Hin | exact Hstr].
Defined.

(** X18. The string form of a stored rating.  In a reachable store,
    [Rating.__str__] of a stored rating does not raise: the rater and the
    rated user are rows of the store, and the result is the rater's
    email, the score and the rated user's email. *)
Theorem str_of_stored_rating (dj : Django) (w : World) (r : Rating) :
  reachable dj w ->
  In r (ratings w) ->
  exists rater ratee,
    In rater (users w) /\ pk rater = Some (from_user r)
    /\ In ratee (users w) /\ pk ratee = Some (to_user r)
    /\ Rating_str r w
       = Shown (email rater ++ "'s " ++ str_int (score r)
                ++ "-star rating to " ++ email ratee)%string.
Proof.
  intros Hreach Hin. unfold Rating_str.
  destruct (refs_ok_reachable dj w Hreach) as (_ & _ & _ & Hrating & _).
  specialize (Hrating r Hin). unfold rating_keys_exist in Hrating.
  apply andb_true_iff in Hrating as [Hrating Hto].
  apply andb_true_iff in Hrating as [_ Hfrom].
  destruct (related_user_found w _ Hfrom) as (a & -> & Ha & Hka).
  destruct (related_user_found w _ Hto) as (b & -> & Hb & Hkb).
  exists a, b. repeat split; assumption.
Qed.

Lemma str_of_stored_rating_witness :
  reachable example_django (rated_seven example_django)
  /\ exists r,
       In r (ratings (rated_seven example_django))
       /\ Rating_str r (rated_seven example_django)
          = Shown "hal@example.com's 7-star rating to gina@example.com".
Proof.
  assert (H : reachable example_django (rated_seven example_django)).
  { unfold rated_seven, ride_taken. repeat apply reachable_call.
    apply reachable_empty. }
  split; [exact H|].
  assert (Hr : exists r, ratings (rated_seven example_django) = [r]
                         /\ Rating_str r (rated_seven example_django)
                            = Shown "hal@example.com's 7-star rating to gina@example.com").
  { eexists. split; vm_compute; reflexivity. }
  destruct Hr as (r & Hrows & Hstr).
  assert (Hin : In r (ratings (rated_seven example_django)))
    by (rewrite Hrows; left; reflexivity).
  destruct (str_of_stored_rating example_django _ r H Hin) as (a & b & _).
  exists r. split; [exact Hin | exact Hstr].
Defined.

(** *** Rides of confirmed drivers *)

Lemma guarded_frame (ride : RideDetails) (w w' : World) :
  same_rows w w' -> guarded ride w -> guarded ride w'.
Proof.
  intros (Hu & _ & Hr & _). unfold guarded. now rewrite Hu, Hr.
Qed.

Lemma guarded_delete (ride : RideDetails) (q : User -> bool) :
  pending_only q -> preserves (guarded ride) (QuerySet_delete q).
Proof.
  intros Hq w (Hk & Hin & r & Hr & Hpk & Hp).
  assert (Hqr : q r = false).
  { destruct (q r) eqn:E; [|reflexivity]. apply Hq in E. congruence. }
  unfold guarded. rewrite QuerySet_delete_users.
  split; [now apply keys_filter|]. split.
  - unfold QuerySet_delete. simpl. apply filter_In. split; [exact Hin|].
    apply negb_true_iff.
    destruct (mem (driver ride) (pks_of pk (filter q (users w)))) eqn:E;
      [exfalso | reflexivity].
    unfold mem in E. apply existsb_exists in E as (i & Hi & Heq).
    apply Nat.eqb_eq in Heq. subst i.
    unfold pks_of in Hi. apply in_flat_map in Hi as (x & Hx & Hi).
    apply filter_In in Hx as [Hx Hqx].
    destruct (pk x) as [j|] eqn:Hj; [|contradiction].
    destruct Hi as [Hi | []]. subst j.
    assert (x = r) by (apply (NoDup_map_eq pk (users w)); congruence).
    subst x. congruence.
  - exists r. split; [|auto]. apply filter_In. split; [exact Hr|].
    now rewrite Hqr.
Qed.

Lemma reclaimed_pending_only (e p : option string) (now : datetime) :
  pending_only (reclaimed e p now).
Proof.
  intros u H. unfold reclaimed in H. now apply andb_true_iff in H as [H _].
Qed.

Lemma guarded_cleanup (ride : RideDetails) (e p : option string) :
  preserves (guarded ride) (cleanup_expired_registrations e p).
Proof.
  intros w Hw.
  destruct (cleanup_expired_registrations_unfold e p w) as (w1 & Hnow & ->).
  apply guarded_delete; [apply reclaimed_pending_only|].
  apply (guarded_frame ride w); [|exact Hw].
  pose proof (timezone_now_frame w) as H. now rewrite Hnow in H.
Qed.

Lemma Model_save_rides (u : User) (w : World) :
  rides (fst (Model_save u w)) = rides w.
Proof.
  apply (I_Model_save (fun w' => rides w' = rides w)); [| | |reflexivity].
  - intros w1 w2 (_ & _ & Hr & _) H. congruence.
  - intros w1 key row H _ _ _. exact H.
  - intros w1 i row H _ _ _. exact H.
Qed.

Lemma save_keeps_ride (ride : RideDetails) (self : User) (w : World) :
  guarded ride w -> In ride (rides (fst (save self w))).
Proof.
  intros Hw. unfold save.
  set (u := with_is_driver_verified _ self).
  destruct (state_adding u && registration_pending u).
  - cbv beta iota zeta delta [bind ret].
    destruct (timezone_now_same_rows w) as (w1 & -> & Hsame).
    set (q := fun r : User => _).
    assert (Hq : pending_only q).
    { intros x H. unfold q in H. apply andb_true_iff in H as [H _].
      now apply andb_true_iff in H as [_ H]. }
    pose proof (guarded_delete ride q Hq w1 (guarded_frame ride w w1 Hsame Hw))
      as (_ & Hin & _).
    unfold QuerySet_delete at 1. cbv beta iota zeta.
    rewrite Model_save_rides. exact Hin.
  - cbv beta iota zeta delta [bind ret]. rewrite Model_save_rides.
    now destruct Hw as (_ & Hin & _).
Qed.

Lemma create_user_keeps_ride (dj : Django) (ride : RideDetails) (e : string)
    (p : option string) (k : kwargs) (w : World) :
  guarded ride w -> In ride (rides (fst (create_user dj e p k w))).
Proof.
  intros Hw.
  destruct (truthy e) eqn:He;
    [|unfold create_user; rewrite He; now destruct Hw as (_ & Hin & _)].
  destruct (create_user_proceeds dj e p k w He)
    as (n & w1 & w2 & Hc & Hnow & _ & ->).
  assert (H1 : guarded ride w1).
  { pose proof (guarded_cleanup ride (Some (normalize_email e)) None w Hw) as H.
    now rewrite Hc in H. }
  assert (H2 : guarded ride w2).
  { apply (guarded_frame ride w1); [|exact H1].
    pose proof (timezone_now_frame w1) as H. now rewrite Hnow in H. }
  unfold try_except, bind.
  destruct (full_clean_raises dj (submitted dj e p k) w2) as [Hfst Hsnd].
  destruct (full_clean dj (submitted dj e p k) w2) as [w3 res].
  simpl in Hfst, Hsnd. subst w3.
  destruct Hsnd as [-> | ->].
  - pose proof (save_keeps_ride ride (submitted dj e p k) w2 H2) as Hs.
    destruct (save (submitted dj e p k) w2) as [w4 [saved|x]]; simpl in *;
      [exact Hs|].
    destruct x as [m| |]; exact Hs.
  - simpl. now destruct H2 as (_ & Hin & _).
Qed.

Lemma rides_unchanged_frame (P : list RideDetails -> Prop) (w w' : World) :
  same_rows w w' -> P (rides w) -> P (rides w').
Proof. intros (_ & _ & -> & _). auto. Qed.

Lemma RideDetails_save_keeps (r0 ride : RideDetails) (j : nat) (w : World) :
  In ride (rides w) -> ride_pk ride = Some j ->
  has_pk ride_pk j (rides (fst (RideDetails_save r0 w))) = true
  /\ (ride_pk r0 = Some j \/ In ride (rides (fst (RideDetails_save r0 w)))).
Proof.
  intros Hin Hj.
  assert (Hfound : forall rows, In ride rows -> has_pk ride_pk j rows = true)
    by (intros rows H; apply has_pk_true; eauto).
  set (with_pk := fun (i : nat) (r : RideDetails) =>
                    {| ride_pk := Some i; driver := driver r |}).
  set (accepted := fun (w : World) (_ : list RideDetails) (r : RideDetails) =>
                     user_exists w (driver r)).
  assert (Hins : forall key w1, rides w1 = rides w ->
             In ride
               (rides (fst ((w0 <- gets (fun w => w) ;;
                             let row := with_pk key r0 in
                             if has_pk ride_pk key (rides w0)
                                || negb (accepted w0 (rides w0) row)
                             then raise IntegrityError
                             else modify (set_rides (rides w0 ++ [row])) ;;;
                                  ret row) w1)))).
  { intros key w1 H1. cbv beta iota zeta delta [bind gets modify ret raise].
    cbn [fst snd].
    match goal with |- context [if ?c then _ else _] => destruct c end;
      simpl; rewrite H1; [exact Hin | apply in_or_app; now left]. }
  assert (Hinsert : In ride
                      (rides (fst (insert_row ride_pk with_pk T_ride rides
                                     set_rides accepted r0 w)))).
  { unfold insert_row. unfold bind at 1.
    destruct (ride_pk r0) as [i|].
    - unfold ret at 1. apply Hins. reflexivity.
    - unfold nextval at 1. cbv beta iota zeta. apply Hins. reflexivity. }
  unfold RideDetails_save. fold with_pk. fold accepted. unfold save_row.
  destruct (ride_pk r0) as [i|] eqn:Hi; [|auto].
  cbv beta iota zeta delta [bind gets]. cbn [fst snd].
  destruct (has_pk ride_pk i (rides w)) eqn:Hpk; [|auto].
  destruct (accepted w (exclude_pk ride_pk i (rides w)) r0); simpl; [|auto].
  rewrite has_pk_replace by exact Hi.
  split; [auto|].
  destruct (Nat.eq_dec i j) as [-> | Hne]; [now left | right].
  apply In_replace_other; [exact Hin | congruence].
Qed.

(** X19. No call deletes a ride of a confirmed driver.  In a reachable
    store, a ride whose driver is a non-pending account is still in the
    store after any call, unless the call is a [save] of a ride with the
    same key, which rewrites the row in place; in all cases the key of
    the ride is still in the store.  The cascading deletes of the
    cleanup reach the rides of pending registrations only. *)
Theorem ride_of_confirmed_driver_is_never_deleted (dj : Django) (c : call)
    (w : World) (ride : RideDetails) (j : nat) (r : User) :
  reachable dj w ->
  In ride (rides w) ->
  ride_pk ride = Some j ->
  In r (users w) ->
  pk r = Some (driver ride) ->
  registration_pending r = false ->
  has_pk ride_pk j (rides (perform dj c w)) = true
  /\ match c with
     | Call_RideDetails_save r0 =>
         ride_pk r0 = Some j \/ In ride (rides (perform dj c w))
     | _ => In ride (rides (perform dj c w))
     end.
Proof.
  intros Hreach Hin Hj Hr Hpk Hp.
  assert (Hw : guarded ride w).
  { destruct (users_ok_reachable dj w Hreach) as (Hk & _).
    split; [exact Hk|]. split; [exact Hin|]. eauto. }
  assert (Hfound : forall rows, In ride rows -> has_pk ride_pk j rows = true)
    by (intros rows H; apply has_pk_true; eauto).
  assert (Hother : forall A (m : M A),
             preserves (fun w' => In ride (rides w')) m ->
             In ride (rides (fst (m w)))) by (intros A m H; now apply H).
  destruct c; simpl.
  - pose proof (create_user_keeps_ride dj ride email_arg password_arg
                  extra_fields w Hw). auto.
  - assert (H : In ride (rides (fst (create_superuser dj email_arg
                                       password_arg extra_fields w)))).
    { unfold create_superuser. cbv zeta.
      repeat match goal with
             | |- context [match ?x with _ => _ end] =>
                 match x with
                 | kw_is_staff _ => destruct x as [[|]|]
                 | kw_is_superuser _ => destruct x as [[|]|]
                 end
             end; try exact Hin; now apply create_user_keeps_ride. }
    auto.
  - pose proof (guarded_cleanup ride email_arg phone_arg w Hw) as (_ & H & _).
    auto.
  - pose proof (save_keeps_ride ride self w Hw). auto.
  - unfold update_rating.
    pose proof (save_keeps_ride ride (rated self new_rating as_driver) w Hw).
    auto.
  - destruct (create_otp_for_user_frame user kind w) as (_ & Hrides & _).
    rewrite Hrides. auto.
  - now apply RideDetails_save_keeps.
  - assert (H : In ride (rides (fst (PassengerRideRequest_save r0 w)))).
    { apply Hother.
      other_table (rides_unchanged_frame (fun rows => In ride rows)). }
    auto.
  - assert (H : In ride (rides (fst (Rating_save r0 w)))).
    { apply Hother.
      other_table (rides_unchanged_frame (fun rows => In ride rows)). }
    auto.
  - assert (H : In ride (rides (fst (ChatMessage_save c w)))).
    { apply Hother.
      other_table (rides_unchanged_frame (fun rows => In ride rows)). }
    auto.
Qed.


Lemma ride_taken_later_rows :
  rides ride_taken_later = [ginas_ride_row]
  /\ exists r, In r (users ride_taken_later)
               /\ pk r = Some 1%nat /\ registration_pending r = false.
Proof.
  split; [vm_compute; reflexivity|].
  eexists. split; [vm_compute; left; reflexivity|].
  split; vm_compute; reflexivity.
Qed.

Lemma ride_of_confirmed_driver_is_never_deleted_witness :
  reachable example_django ride_taken_later
  /\ In ginas_ride_row (rides ride_taken_later)
  /\ In ginas_ride_row
       (rides (perform example_django
                 (Call_cleanup_expired_registrations None None)
                 ride_taken_later)).
Proof.
  assert (H : reachable example_django ride_taken_later).
  { unfold ride_taken_later, ride_taken. apply reachable_supply.
    repeat apply reachable_call. apply reachable_empty. }
  destruct ride_taken_later_rows as (Hrows & r & Hr & Hpk & Hp).
  assert (Hin : In ginas_ride_row (rides ride_taken_later))
    by (rewrite Hrows; left; reflexivity).
  split; [exact H|]. split; [exact Hin|].
  apply (ride_of_confirmed_driver_is_never_deleted example_django
           (Call_cleanup_expired_registrations None None)
           ride_taken_later ginas_ride_row 1%nat r H Hin eq_refl Hr Hpk Hp).
Defined.
